(** * LinkedIn match algorithm: feature engine, detectors and recommender

    A shallow embedding of the scoring core of the repository:

    - [src/utils/helpers.py]                      ([safe_divide], [calculate_similarity],
                                                   [batch_items])
    - [src/features/compatibility_features.py]    ([CompatibilityFeatureEngine],
                                                   [calculate_batch_features])
    - [src/features/red_flags_detector.py]        ([RedFlagsDetector])
    - [src/features/hidden_gems_detector.py]      ([HiddenGemsDetector])
    - [model-api/app.py]                          ([calculate_scores], the inference of
                                                   missing fields and the red-flag penalty
                                                   of [predict_compatibility])
    - [src/models/connection_recommender.py]      ([ConnectionRecommender])
    - [src/data/processors.py]                    ([_estimate_experience], [_infer_seniority])
    - [src/api/main.py]                           (the two scoring endpoints)

    Conventions of the embedding.

    - Python [float]s and [int]s used as scores are exact rationals ([Q]);
      equality of scores is [Qeq].  Counts and years are [Z].
    - A profile is a [pd.Series] read with [.get(key, default)]: every
      optional key is an [option], [None] meaning that the key is absent.
    - A frame of profiles handed to a batch function is a list of rows of
      cells; every row has every column of the frame, and a cell without a
      value is NaN.
    - Python [str] is [string]; [lower] and [split] act on the ASCII range.
    - [set(...)] of strings is a [gset string].
    - Code that can raise runs in the [result] monad; [try]/[except] is a
      match on the raised exception. *)

From Stdlib Require Import Ascii String QArith Qround Qminmax Qabs Lqa.
From stdpp Require Import base option gmap strings list sorting pretty.

#[local] Open Scope string_scope.

(** ** Python primitives *)

Module Py.

Inductive exn : Set :=
| ValueError
| ZeroDivisionError
| TypeError
| KeyError.

Inductive result (A : Type) : Type :=
| Ok (a : A)
| Raise (e : exn).
Arguments Ok {A} a.
Arguments Raise {A} e.

#[global] Instance result_ret : MRet result := λ A a, Ok a.
#[global] Instance result_bind : MBind result :=
  λ A B f m, match m with Ok a => f a | Raise e => Raise e end.

(** [try: body except E: handler]; [catches] tells which exceptions the
    clause names, any other one propagates. *)
Definition try_except {A} (body : result A) (catches : exn → bool)
    (handler : result A) : result A :=
  match body with
  | Ok a => Ok a
  | Raise e => if catches e then handler else Raise e
  end.

Definition is_ValueError (e : exn) : bool :=
  match e with ValueError => true | _ => false end.
Definition is_TypeError_or_ZeroDivisionError (e : exn) : bool :=
  match e with TypeError | ZeroDivisionError => true | _ => false end.

(** [series.get(key, default)] *)
Definition get {A} (field : option A) (default : A) : A :=
  match field with Some v => v | None => default end.

(** [series.get(key) or <empty string>] *)
Definition get_or_empty (field : option string) : string :=
  match field with
  | Some v => if bool_decide (v = EmptyString) then EmptyString else v
  | None => EmptyString
  end.

(** [n / d] on numbers. *)
Definition truediv (n d : Q) : result Q :=
  if Qeq_bool d 0 then Raise ZeroDivisionError else Ok (n / d)%Q.

(** Comparisons on numbers as booleans. *)
Definition leb (x y : Q) : bool := Qle_bool x y.
Definition ltb (x y : Q) : bool := negb (Qle_bool y x).
Definition geb (x y : Q) : bool := Qle_bool y x.
Definition gtb (x y : Q) : bool := negb (Qle_bool x y).

(** [round(x, ndigits)]: to the nearest multiple of [10^-ndigits], ties
    to the even neighbour. *)
Definition round_half_even (x : Q) : Z :=
  let f := Qfloor x in
  let r := (x - inject_Z f)%Q in
  if ltb r (1 # 2) then f
  else if gtb r (1 # 2) then (f + 1)%Z
  else if Z.even f then f else (f + 1)%Z.

Definition round (x : Q) (ndigits : nat) : Q :=
  let scale := inject_Z (10 ^ Z.of_nat ndigits) in
  (inject_Z (round_half_even (x * scale)) / scale)%Q.

(** [str.lower()] *)
Definition lower_ascii (c : ascii) : ascii :=
  let n := nat_of_ascii c in
  if (65 <=? n)%nat && (n <=? 90)%nat then ascii_of_nat (n + 32) else c.

Fixpoint lower (s : string) : string :=
  match s with
  | EmptyString => EmptyString
  | String c t => String (lower_ascii c) (lower t)
  end.

(** The characters [str.split()] treats as separators. *)
Definition is_space (c : ascii) : bool :=
  let n := nat_of_ascii c in
  ((9 <=? n)%nat && (n <=? 13)%nat) || ((28 <=? n)%nat && (n <=? 32)%nat).

Definition flush (cur : string) (rest : list string) : list string :=
  if bool_decide (cur = EmptyString) then rest else cur :: rest.

Fixpoint split_go (s cur : string) : list string :=
  match s with
  | EmptyString => flush cur []
  | String c t =>
      if is_space c then flush cur (split_go t EmptyString)
      else split_go t (cur +:+ String c EmptyString)
  end.

(** [s.split()] *)
Definition split (s : string) : list string := split_go s EmptyString.

Fixpoint split_on_go (sep : ascii) (s cur : string) : list string :=
  match s with
  | EmptyString => [cur]
  | String c t =>
      if Ascii.eqb c sep then cur :: split_on_go sep t EmptyString
      else split_on_go sep t (cur +:+ String c EmptyString)
  end.

(** [s.split(sep)] for a one-character separator. *)
Definition split_on (sep : ascii) (s : string) : list string :=
  split_on_go sep s EmptyString.

(** [l[-1]] on a list that [split_on] produced (never empty). *)
Definition last_item (l : list string) : string := List.last l EmptyString.

(** [needle in hay] on strings. *)
Fixpoint contains (needle hay : string) : bool :=
  String.prefix needle hay ||
  match hay with
  | EmptyString => false
  | String _ t => contains needle t
  end.

(** [sep.join(items)] *)
Fixpoint join (sep : string) (items : list string) : string :=
  match items with
  | [] => EmptyString
  | [x] => x
  | x :: rest => x +:+ sep +:+ join sep rest
  end.

(** [l.index(x)] *)
Fixpoint index_from (i : nat) (x : string) (l : list string) : result nat :=
  match l with
  | [] => Raise ValueError
  | y :: rest => if bool_decide (y = x) then Ok i else index_from (S i) x rest
  end.
Definition index (l : list string) (x : string) : result nat := index_from 0 x l.

Definition len_str (s : string) : Z := Z.of_nat (String.length s).
Definition len {A} (l : list A) : Z := Z.of_nat (List.length l).

End Py.

Import Py.

(** ** [src/utils/helpers.py] *)

Module Helpers.

Definition safe_divide (numerator denominator default : Q) : result Q :=
  try_except
    (if Qeq_bool denominator 0 then Ok default
     else truediv numerator denominator)
    is_TypeError_or_ZeroDivisionError
    (Ok default).

Definition calculate_similarity (text1 text2 : string) : result Q :=
  if bool_decide (text1 = EmptyString) || bool_decide (text2 = EmptyString) then Ok 0%Q
  else
    let tokens1 : gset string := list_to_set (split (lower text1)) in
    let tokens2 : gset string := list_to_set (split (lower text2)) in
    let intersection := size (tokens1 ∩ tokens2) in
    let union := size (tokens1 ∪ tokens2) in
    if (union =? 0)%nat then Ok 0%Q
    else truediv (inject_Z (Z.of_nat intersection)) (inject_Z (Z.of_nat union)).

End Helpers.

(** ** The profile record shared by the engines *)

Record Job : Type := mkJob {
  duration_months : option Z
}.

Record Profile : Type := mkProfile {
  years_experience : option Z;
  seniority_level : option string;
  industry : option string;
  location : option string;
  connections : option Z;
  skills : option (list string);
  needs : option (list string);
  can_offer : option (list string);
  remote_preference : option string;
  current_role : option string;
  current_company : option string;
  headline : option string;
  about : option string;
  experience : option (list Job);
  education : option (list string)
}.

(** A profile on which every optional key is absent. *)
Definition empty_profile : Profile :=
  mkProfile None None None None None None None None None None None None None
            None None.


(** ** [src/features/compatibility_features.py] *)

Module Features.

Import Helpers.

Definition of_Z (z : Z) : Q := inject_Z z.
Definition of_nat (n : nat) : Q := inject_Z (Z.of_nat n).

(** A dict literal read with [.get(key, default)]. *)
Fixpoint dict_get {A} (d : list (string * A)) (key : string) (default : A) : A :=
  match d with
  | [] => default
  | (k, v) :: rest => if bool_decide (k = key) then v else dict_get rest key default
  end.

(** The [config] dict of the engine: the four weight keys it reads. *)
Record Config : Type := mkConfig {
  skill_weight : option Q;
  network_weight : option Q;
  career_weight : option Q;
  geographic_weight : option Q
}.

Definition empty_config : Config := mkConfig None None None None.

(** [self.feature_weights] *)
Record FeatureWeights : Type := mkFeatureWeights {
  w_skill_complementarity : Q;
  w_network_value : Q;
  w_career_alignment : Q;
  w_geographic_proximity : Q
}.

(** [CompatibilityFeatureEngine.__init__]: [config or {}] and the weights
    read from it. *)
Definition __init__ (config : option Config) : FeatureWeights :=
  let config := get config empty_config in
  {| w_skill_complementarity := get (skill_weight config) 0.40%Q;
     w_network_value := get (network_weight config) 0.30%Q;
     w_career_alignment := get (career_weight config) 0.20%Q;
     w_geographic_proximity := get (geographic_weight config) 0.10%Q |}.

(** The nine entries of the [features] dict before aggregation. *)
Record BaseFeatures : Type := mkBaseFeatures {
  skill_match_score : Q;
  skill_complementarity_score : Q;
  network_value_a_to_b : Q;
  network_value_b_to_a : Q;
  career_alignment_score : Q;
  experience_gap : Z;
  industry_match : Q;
  geographic_score : Q;
  seniority_match : Q
}.

(** The dict [calculate_features] returns. *)
Record FeatureVector : Type := mkFeatureVector {
  base : BaseFeatures;
  compatibility_score : Q;
  predicted_job_opportunity_score : Q;
  predicted_mentorship_value : Q;
  predicted_collaboration_potential : Q;
  roi_timeframe : string;
  mutual_benefit_explanation : string
}.

Definition _calculate_skill_match (profile_a profile_b : Profile) : result Q :=
  let skills_a : gset string := list_to_set (get (skills profile_a) []) in
  let skills_b : gset string := list_to_set (get (skills profile_b) []) in
  if bool_decide (skills_a = ∅) || bool_decide (skills_b = ∅) then Ok 0%Q
  else
    let intersection := size (skills_a ∩ skills_b) in
    let union := size (skills_a ∪ skills_b) in
    safe_divide (of_nat intersection * 100) (of_nat union) 0.

Definition _calculate_skill_complementarity (profile_a profile_b : Profile)
    : result Q :=
  let needs_a : gset string := list_to_set (get (needs profile_a) []) in
  let can_offer_b : gset string := list_to_set (get (can_offer profile_b) []) in
  let needs_b : gset string := list_to_set (get (needs profile_b) []) in
  let can_offer_a : gset string := list_to_set (get (can_offer profile_a) []) in
  let a_needs_met :=
    if bool_decide (needs_a = ∅) then 0%nat else size (needs_a ∩ can_offer_b) in
  let b_needs_met :=
    if bool_decide (needs_b = ∅) then 0%nat else size (needs_b ∩ can_offer_a) in
  let total_needs := (size needs_a + size needs_b)%nat in
  let total_met := (a_needs_met + b_needs_met)%nat in
  safe_divide (of_nat total_met * 100) (of_nat total_needs) 0.

Definition _calculate_industry_match (profile_a profile_b : Profile) : result Q :=
  let industry_a := lower (get_or_empty (industry profile_a)) in
  let industry_b := lower (get_or_empty (industry profile_b)) in
  if bool_decide (industry_a = EmptyString) || bool_decide (industry_b = EmptyString) then Ok 0%Q
  else if bool_decide (industry_a = industry_b) then Ok 100%Q
  else
    similarity ← calculate_similarity industry_a industry_b;
    Ok (similarity * 100)%Q.

Definition _calculate_network_value (profile_from profile_to : Profile)
    : result Q :=
  let connections_from := get (connections profile_from) 0%Z in
  let connection_score := Qmin (of_Z connections_from / 1000 * 50) 50 in
  industry_match ← _calculate_industry_match profile_from profile_to;
  let industry_bonus := (industry_match * 0.3)%Q in
  let seniority_from := get (seniority_level profile_from) "mid" in
  let seniority_bonus :=
    dict_get [("entry", 0%Q); ("mid", 10%Q); ("senior", 20%Q); ("executive", 30%Q)]
             seniority_from 10%Q in
  Ok (Qmin (connection_score + industry_bonus + seniority_bonus) 100).

Definition _calculate_career_alignment (profile_a profile_b : Profile) : Q :=
  let years_a := get (years_experience profile_a) 0%Z in
  let years_b := get (years_experience profile_b) 0%Z in
  let experience_gap := Z.abs (years_a - years_b) in
  if (3 <=? experience_gap)%Z && (experience_gap <=? 7)%Z then 90.0%Q
  else if (experience_gap <=? 2)%Z then 80.0%Q
  else if (experience_gap <=? 15)%Z then 60.0%Q
  else 40.0%Q.

Definition _calculate_experience_gap (profile_a profile_b : Profile) : Z :=
  let years_a := get (years_experience profile_a) 0%Z in
  let years_b := get (years_experience profile_b) 0%Z in
  Z.abs (years_a - years_b).

Definition _calculate_geographic_score (profile_a profile_b : Profile) : Q :=
  let loc_a := lower (get_or_empty (location profile_a)) in
  let loc_b := lower (get_or_empty (location profile_b)) in
  if bool_decide (loc_a = EmptyString) || bool_decide (loc_b = EmptyString) then 50.0%Q
  else if bool_decide (loc_a = loc_b) then 100.0%Q
  else if existsb (λ word, contains word loc_b)
                  (split (last_item (split_on "," loc_a))) then 75.0%Q
  else
    let remote_pref_a := remote_preference profile_a in
    let remote_pref_b := remote_preference profile_b in
    if bool_decide (remote_pref_a = Some "remote")
       || bool_decide (remote_pref_b = Some "remote") then 60.0%Q
    else 30.0%Q.

Definition _calculate_seniority_match (profile_a profile_b : Profile) : result Q :=
  let seniority_levels := ["entry"; "mid"; "senior"; "executive"] in
  let sen_a := get (seniority_level profile_a) "mid" in
  let sen_b := get (seniority_level profile_b) "mid" in
  try_except
    (idx_a ← index seniority_levels sen_a;
     idx_b ← index seniority_levels sen_b;
     let gap := Z.abs (Z.of_nat idx_a - Z.of_nat idx_b) in
     if (gap =? 1)%Z then Ok 100.0%Q
     else if (gap =? 0)%Z then Ok 85.0%Q
     else if (gap =? 2)%Z then Ok 70.0%Q
     else Ok 50.0%Q)
    is_ValueError
    (Ok 50.0%Q).

Definition _calculate_overall_compatibility (self : FeatureWeights)
    (features : BaseFeatures) : Q :=
  let score := 0.0%Q in
  let skill_score :=
    ((skill_match_score features + skill_complementarity_score features) / 2)%Q in
  let score := (score + skill_score * w_skill_complementarity self)%Q in
  let network_score :=
    ((network_value_a_to_b features + network_value_b_to_a features) / 2)%Q in
  let score := (score + network_score * w_network_value self)%Q in
  let score :=
    (score + career_alignment_score features * w_career_alignment self)%Q in
  let score :=
    (score + geographic_score features * w_geographic_proximity self)%Q in
  Qmin (round score 2) 100.0.

Definition _predict_job_opportunity (features : BaseFeatures) : Q :=
  let score := 0.0%Q in
  let exp_gap := experience_gap features in
  let score := if (exp_gap >=? 3)%Z then (score + 30)%Q else score in
  let score := if geb (industry_match features) 70 then (score + 30)%Q else score in
  let network_avg :=
    ((network_value_a_to_b features + network_value_b_to_a features) / 2)%Q in
  let score := (score + network_avg * 0.3)%Q in
  let score :=
    if geb (skill_complementarity_score features) 60 then (score + 10)%Q else score in
  Qmin 100 score.

Definition _predict_mentorship_value (features : BaseFeatures) : Q :=
  let score := 0.0%Q in
  let exp_gap := experience_gap features in
  let score :=
    if (3 <=? exp_gap)%Z && (exp_gap <=? 7)%Z then (score + 50)%Q
    else if (7 <? exp_gap)%Z && (exp_gap <=? 12)%Z then (score + 35)%Q
    else if (exp_gap >? 12)%Z then (score + 20)%Q
    else (score + 10)%Q in
  let score := if geb (industry_match features) 70 then (score + 30)%Q else score in
  let network_avg :=
    ((network_value_a_to_b features + network_value_b_to_a features) / 2)%Q in
  let score := (score + network_avg * 0.2)%Q in
  Qmin 100 score.

Definition _predict_collaboration (features : BaseFeatures) : Q :=
  let score := 0.0%Q in
  let score :=
    if geb (skill_complementarity_score features) 70 then (score + 40)%Q
    else if geb (skill_complementarity_score features) 50 then (score + 25)%Q
    else score in
  let score := if (experience_gap features <=? 3)%Z then (score + 30)%Q else score in
  let score := if geb (industry_match features) 60 then (score + 20)%Q else score in
  let score := if geb (geographic_score features) 70 then (score + 10)%Q else score in
  Qmin 100 score.

Definition _estimate_roi_timeframe (compatibility : Q) : string :=
  if geb compatibility 80 then "weeks"
  else if geb compatibility 60 then "months"
  else if geb compatibility 40 then "6-12 months"
  else "long-term".

Section Runtime.

(** [list(s)] for a set [s] of strings.  The order in which Python iterates
    over a set of [str] depends on the hash seed of the process, so the
    enumeration is a parameter of the engine. *)
Variable list_of_set : gset string → list string.

Definition _generate_explanation (profile_a profile_b : Profile)
    (features : BaseFeatures)
    (job_opportunity mentorship_value collaboration_potential : Q) : string :=
  let role_b := get (current_role profile_b) "professional" in
  let company_b := get (current_company profile_b) "their company" in
  let years_b := get (years_experience profile_b) 0%Z in
  let years_a := get (years_experience profile_a) 0%Z in
  let exp_gap := experience_gap features in
  let relationship :=
    if (3 <=? exp_gap)%Z && (exp_gap <=? 7)%Z then
      if (years_b >? years_a)%Z then
        [ "MENTORSHIP: They're a " +:+ role_b +:+ " at " +:+ company_b
            +:+ " with " +:+ pretty years_b +:+ " years experience. ";
          "Can mentor you on: career growth, industry insights, navigating challenges." ]
      else
        [ "REVERSE MENTORSHIP: You have " +:+ pretty exp_gap
            +:+ " more years experience. ";
          "You can mentor them while learning fresh perspectives." ]
    else if (exp_gap <=? 2)%Z then
      [ "PEER COLLABORATION: Similar experience levels (" +:+ pretty years_a
          +:+ " vs " +:+ pretty years_b +:+ " years). ";
        "Best for: exchanging ideas, co-learning, potential partnerships." ]
    else
      [ "ADVISORY: " +:+ pretty exp_gap
          +:+ " year experience gap creates valuable perspective sharing. " ] in
  let needs_a : gset string := list_to_set (get (needs profile_a) []) in
  let can_offer_b : gset string := list_to_set (get (can_offer profile_b) []) in
  let mutual_needs := list_of_set (needs_a ∩ can_offer_b) in
  let they_offer :=
    match mutual_needs with
    | [] => []
    | _ => [ " They can help with: " +:+ join ", " (take 3 mutual_needs) +:+ "." ]
    end in
  let needs_b : gset string := list_to_set (get (needs profile_b) []) in
  let can_offer_a : gset string := list_to_set (get (can_offer profile_a) []) in
  let mutual_offers := list_of_set (needs_b ∩ can_offer_a) in
  let you_offer :=
    match mutual_offers with
    | [] => []
    | _ => [ " You can help with: " +:+ join ", " (take 3 mutual_offers) +:+ "." ]
    end in
  let skills_a : gset string := list_to_set (get (skills profile_a) []) in
  let skills_b : gset string := list_to_set (get (skills profile_b) []) in
  let shared_skills := list_of_set (skills_a ∩ skills_b) in
  let shared :=
    match shared_skills with
    | [] => []
    | _ => [ " Shared expertise: " +:+ join ", " (take 3 shared_skills) +:+ "." ]
    end in
  let actions :=
    ([ " ACTION: " ]
     ++ (if geb job_opportunity 60
         then [ "Ask about job opportunities/referrals. " ] else [])
     ++ (if geb mentorship_value 60
         then [ "Request coffee chat for career advice. " ] else [])
     ++ (if geb collaboration_potential 60
         then [ "Explore collaboration opportunities. " ] else []))%list in
  let geographic :=
    if geb (geographic_score features) 90
    then [ " Same location - suggest in-person meeting." ] else [] in
  join EmptyString
       (relationship ++ they_offer ++ you_offer ++ shared ++ actions
          ++ geographic)%list.

Definition calculate_features (self : FeatureWeights)
    (profile_a profile_b : Profile) : result FeatureVector :=
  skill_match ← _calculate_skill_match profile_a profile_b;
  skill_complementarity ← _calculate_skill_complementarity profile_a profile_b;
  network_a_to_b ← _calculate_network_value profile_a profile_b;
  network_b_to_a ← _calculate_network_value profile_b profile_a;
  let career_alignment := _calculate_career_alignment profile_a profile_b in
  let gap := _calculate_experience_gap profile_a profile_b in
  industry ← _calculate_industry_match profile_a profile_b;
  let geographic := _calculate_geographic_score profile_a profile_b in
  seniority ← _calculate_seniority_match profile_a profile_b;
  let features :=
    mkBaseFeatures skill_match skill_complementarity network_a_to_b
                   network_b_to_a career_alignment gap industry geographic
                   seniority in
  let compatibility := _calculate_overall_compatibility self features in
  let job_opportunity := _predict_job_opportunity features in
  let mentorship_value := _predict_mentorship_value features in
  let collaboration_potential := _predict_collaboration features in
  let timeframe := _estimate_roi_timeframe compatibility in
  let explanation :=
    _generate_explanation profile_a profile_b features job_opportunity
                          mentorship_value collaboration_potential in
  Ok (mkFeatureVector features compatibility job_opportunity mentorship_value
                      collaboration_potential timeframe explanation).

End Runtime.

End Features.


(** ** [src/features/red_flags_detector.py] *)

Module RedFlags.

(** [self.thresholds] *)
Record Thresholds : Type := mkThresholds {
  connection_collector_min : Z;
  job_hopper_months : Z;
  min_experience_entries : Z;
  min_skills : Z;
  ghost_profile_skill_threshold : Z
}.

Definition thresholds : Thresholds :=
  {| connection_collector_min := 5000;
     job_hopper_months := 6;
     min_experience_entries := 2;
     min_skills := 5;
     ghost_profile_skill_threshold := 3 |}.

Definition spam_keywords : list string :=
  [ "mlm"; "multi-level"; "network marketing"; "be your own boss";
    "financial freedom"; "unlimited income"; "work from home opportunity";
    "crypto trading"; "forex signals"; "insurance agent recruiting" ].

Definition vague_titles : list string :=
  [ "professional"; "consultant"; "freelancer"; "entrepreneur";
    "expert"; "specialist"; "strategist"; "advisor" ].

(** The dict [analyze_profile] returns. *)
Record RedFlagReport : Type := mkRedFlagReport {
  is_connection_collector : bool;
  is_job_hopper : bool;
  is_ghost_profile : bool;
  engagement_quality_score : Q;
  spam_likelihood : Q;
  red_flag_score : Q;
  red_flag_reasons : string
}.

(** [any(vague in title for vague in self.vague_titles)] *)
Definition has_vague_title (title : string) : bool :=
  existsb (λ vague, contains vague title) vague_titles.

Definition _is_connection_collector (profile : Profile) : bool :=
  let connections := get (connections profile) 0%Z in
  if (connections <? connection_collector_min thresholds)%Z then false
  else
    let title := lower (get_or_empty (current_role profile)) in
    let is_generic := has_vague_title title in
    (connections >=? connection_collector_min thresholds)%Z && is_generic.

Definition _is_job_hopper (profile : Profile) : bool :=
  let experience := get (experience profile) [] in
  if bool_decide (experience = []) || (len experience <? 3)%Z then false
  else if (len experience >=? 3)%Z then
    let recent_jobs :=
      len (filter (λ job, (get (duration_months job) 12 < job_hopper_months thresholds)%Z)
                  (take 5 experience)) in
    (recent_jobs >=? 3)%Z
  else false.

(** The four indicators counted by [_is_ghost_profile]. *)
Definition few_skills (profile : Profile) : bool :=
  (len (get (skills profile) []) <? ghost_profile_skill_threshold thresholds)%Z.

Definition vague_short_title (profile : Profile) : bool :=
  let title := lower (get_or_empty (current_role profile)) in
  has_vague_title title && (len (split title) <=? 2)%Z.

Definition short_about (profile : Profile) : bool :=
  (len_str (get (about profile) EmptyString) <? 50)%Z.

Definition few_experience_entries (profile : Profile) : bool :=
  (len (get (experience profile) []) <? min_experience_entries thresholds)%Z.

Definition _is_ghost_profile (profile : Profile) : bool :=
  let ghost_signals := 0%Z in
  let ghost_signals :=
    if few_skills profile then (ghost_signals + 1)%Z else ghost_signals in
  let ghost_signals :=
    if vague_short_title profile then (ghost_signals + 1)%Z else ghost_signals in
  let ghost_signals :=
    if short_about profile then (ghost_signals + 1)%Z else ghost_signals in
  let ghost_signals :=
    if few_experience_entries profile then (ghost_signals + 1)%Z else ghost_signals in
  (ghost_signals >=? 3)%Z.

Definition _calculate_engagement_quality (profile : Profile) : Q :=
  let score := 50.0%Q in
  let skills := get (skills profile) [] in
  let score :=
    if (len skills >=? 15)%Z then (score + 15)%Q
    else if (len skills >=? 10)%Z then (score + 10)%Q
    else if (len skills <? 5)%Z then (score - 15)%Q
    else score in
  let experience := get (experience profile) [] in
  let score :=
    if (len experience >=? 4)%Z then (score + 15)%Q
    else if (len experience <=? 1)%Z then (score - 15)%Q
    else score in
  let about := get (about profile) EmptyString in
  let score :=
    if (len_str about >? 200)%Z then (score + 10)%Q
    else if (len_str about <? 50)%Z then (score - 10)%Q
    else score in
  let education := get (education profile) [] in
  let score := if (len education >=? 1)%Z then (score + 10)%Q else score in
  let connections := get (connections profile) 0%Z in
  let score :=
    if (500 <=? connections)%Z && (connections <=? 3000)%Z then (score + 10)%Q
    else if (connections >? 5000)%Z then (score - 10)%Q
    else if (connections <? 50)%Z then (score - 10)%Q
    else score in
  Qmax 0 (Qmin 100 score).

Definition _calculate_spam_likelihood (profile : Profile) : Q :=
  let score := 0.0%Q in
  let headline := lower (get_or_empty (headline profile)) in
  let about := lower (get_or_empty (about profile)) in
  let title := lower (get_or_empty (current_role profile)) in
  let combined_text := headline +:+ " " +:+ about +:+ " " +:+ title in
  let spam_count :=
    len (filter (λ keyword, Is_true (contains keyword combined_text)) spam_keywords) in
  let score := (score + inject_Z spam_count * 20)%Q in
  let score :=
    if contains "dm me" combined_text || contains "message me" combined_text
    then (score + 15)%Q else score in
  let score :=
    if contains "opportunity" combined_text && contains "financial" combined_text
    then (score + 20)%Q else score in
  let score :=
    if contains "recruiter" title && contains "insurance" combined_text
    then (score + 15)%Q else score in
  let connections := get (connections profile) 0%Z in
  let score :=
    if (connections >? 8000)%Z && has_vague_title title
    then (score + 25)%Q else score in
  Qmin 100 score.

Definition _calculate_overall_red_flag_score
    (collector hopper ghost : bool) (engagement spam : Q) : Q :=
  let score := 0.0%Q in
  let score := if collector then (score + 25)%Q else score in
  let score := if hopper then (score + 20)%Q else score in
  let score := if ghost then (score + 30)%Q else score in
  let score := (score + (100 - engagement) * 0.15)%Q in
  let score := (score + spam * 0.20)%Q in
  Qmin 100 score.

(** [f"{n:,}"] for an integer: groups of three digits. *)
Fixpoint group_thousands (digits_rev : list ascii) : list ascii :=
  match digits_rev with
  | a :: b :: c :: ((_ :: _) as rest) => a :: b :: c :: ","%char :: group_thousands rest
  | _ => digits_rev
  end.

Definition format_thousands (n : Z) : string :=
  let digits := list_ascii_of_string (pretty (Z.abs n)) in
  let grouped := string_of_list_ascii (rev (group_thousands (rev digits))) in
  if (n <? 0)%Z then "-" +:+ grouped else grouped.

(** [f"{x:.0f}"]: the nearest integer, ties to even. *)
Definition format_0f (x : Q) : string := pretty (round_half_even x).

Definition _generate_red_flag_explanation
    (collector hopper ghost : bool) (engagement spam : Q) (profile : Profile)
    : string :=
  let reasons :=
    ((if collector then
        [ "Connection collector ("
            +:+ format_thousands (get (connections profile) 0%Z)
            +:+ " connections with generic title)" ]
      else [])
     ++ (if hopper then [ "Job hopper (3+ jobs in short period)" ] else [])
     ++ (if ghost
         then [ "Ghost profile (minimal information and activity)" ] else [])
     ++ (if ltb engagement 40
         then [ "Low engagement quality (" +:+ format_0f engagement +:+ "/100)" ]
         else [])
     ++ (if gtb spam 30
         then [ "Possible spam/MLM (" +:+ format_0f spam +:+ "% likelihood)" ]
         else []))%list in
  match reasons with
  | [] => "No significant red flags"
  | _ => join " | " reasons
  end.

Definition analyze_profile (profile : Profile) : RedFlagReport :=
  let collector := _is_connection_collector profile in
  let hopper := _is_job_hopper profile in
  let ghost := _is_ghost_profile profile in
  let engagement := _calculate_engagement_quality profile in
  let spam := _calculate_spam_likelihood profile in
  let overall :=
    _calculate_overall_red_flag_score collector hopper ghost engagement spam in
  let reasons :=
    _generate_red_flag_explanation collector hopper ghost engagement spam profile in
  mkRedFlagReport collector hopper ghost engagement spam overall reasons.

End RedFlags.

(** ** [src/features/hidden_gems_detector.py]: corpus skill statistics *)

Module HiddenGems.

(** [Counter(items)] *)
Definition Counter (items : list string) : gmap string nat :=
  foldl (λ counts item, <[item := S (default 0%nat (counts !! item))]> counts)
        ∅ items.

(** The [all_skills] list: the [skills] cell of every row that holds a
    list ([None] is a row whose cell is missing or not a list). *)
Definition all_skills (profiles_df : list Profile) : list string :=
  flat_map (λ profile,
              match skills profile with
              | Some skills => skills
              | None => []
              end) profiles_df.

(** The banding in the body of the loop over [skill_counts.items()]. *)
Definition rarity_of_frequency (frequency : Q) : Q :=
  if ltb frequency 0.05 then (90 + (0.05 - frequency) * 200)%Q
  else if ltb frequency 0.15 then (70 + (0.15 - frequency) * 100)%Q
  else if ltb frequency 0.30 then (40 + (0.30 - frequency) * 100)%Q
  else Qmax 10 (40 - frequency * 50).

(** The loop over [skill_counts.items()], writing [self.skill_rarity_map]. *)
Fixpoint assign_rarity (items : list (string * nat)) (total_profiles : Z)
    (skill_rarity_map : gmap string Q) : result (gmap string Q) :=
  match items with
  | [] => Ok skill_rarity_map
  | (skill, count) :: rest =>
      frequency ← truediv (inject_Z (Z.of_nat count)) (inject_Z total_profiles);
      assign_rarity rest total_profiles
                    (<[skill := rarity_of_frequency frequency]> skill_rarity_map)
  end.

(** [_calculate_skill_rarity]: the state it updates is the rarity map. *)
Definition _calculate_skill_rarity (skill_rarity_map : gmap string Q)
    (profiles_df : list Profile) : result (gmap string Q) :=
  let total_profiles := len profiles_df in
  let skill_counts := Counter (all_skills profiles_df) in
  assign_rarity (map_to_list skill_counts) total_profiles skill_rarity_map.

(** [__init__]: the rarity map of a detector built on [all_profiles]. *)
Definition __init__ (all_profiles : option (list Profile))
    : result (gmap string Q) :=
  let skill_rarity_map : gmap string Q := ∅ in
  match all_profiles with
  | Some profiles_df => _calculate_skill_rarity skill_rarity_map profiles_df
  | None => Ok skill_rarity_map
  end.

(** The frequency of a skill in a corpus, as the loop computes it. *)
Definition frequency_of (profiles_df : list Profile) (skill : string) : option Q :=
  count ← Counter (all_skills profiles_df) !! skill;
  Some (inject_Z (Z.of_nat count) / inject_Z (len profiles_df))%Q.

End HiddenGems.

(** ** [model-api/app.py]: the red-flag penalty of [predict_compatibility] *)

Module ModelApi.

(** The keys of the response that depend on the score. *)
Record Prediction : Type := mkPrediction {
  score : Q;
  raw_score : Q;
  red_flag_multiplier : Q
}.

(** The multiplier chosen from the target's [red_flag_score]. *)
Definition penalty_multiplier (red_flag : Q) : Q :=
  let multiplier := 1.0%Q in
  if gtb red_flag 75 then 0.80%Q
  else if gtb red_flag 50 then 0.90%Q
  else if gtb red_flag 25 then 0.95%Q
  else multiplier.

(** The local [final_score]. *)
Definition final_score (model_output : Q) (target_red_flag_score : option Q) : Q :=
  let red_flag := get target_red_flag_score 0%Q in
  (model_output * penalty_multiplier red_flag)%Q.

(** [predict_compatibility] from the line [score = float(model.predict(X)[0])]
    on: [model_output] is what the external regressor returned for the pair,
    [target_red_flag_score] the [red_flag_score] key of the target profile. *)
Definition predict_compatibility (model_output : Q)
    (target_red_flag_score : option Q) : Prediction :=
  let red_flag := get target_red_flag_score 0%Q in
  {| score := round (final_score model_output target_red_flag_score) 1;
     raw_score := round model_output 1;
     red_flag_multiplier := penalty_multiplier red_flag |}.

End ModelApi.

(** ** [src/models/connection_recommender.py] *)

Module Recommender.

(** A row of [pairs_df].  [compatibility_score] and the two ids are read
    with [row[...]]; the other columns are read with [.get(col, default)],
    [None] standing for a table without that column. *)
Record PairRow : Type := mkPairRow {
  profile_a_id : string;
  profile_b_id : string;
  compatibility_score : Q;
  predicted_job_opportunity_score : option Q;
  predicted_mentorship_value : option Q;
  predicted_collaboration_potential : option Q;
  roi_timeframe : option string;
  mutual_benefit_explanation : option string
}.

(** A row of [profiles_df].  The descriptive columns are optional; the
    detector columns hold a number whenever the table has the column. *)
Record ProfileRow : Type := mkProfileRow {
  name : option string;
  current_role : option string;
  current_company : option string;
  seniority_level : option string;
  industry : option string;
  years_experience : option Z;
  red_flag_score : Q;
  red_flag_reasons : option string;
  gem_score : Q;
  gem_type : string;
  gem_reason : string
}.

(** [profiles_df], keyed by its [profile_id] column (the identity of a
    profile, which [__init__] turns into the index of [profile_lookup]),
    with the columns whose presence the code tests or selects. *)
Record ProfilesDF : Type := mkProfilesDF {
  profile_rows : gmap string ProfileRow;
  has_red_flag_score : bool;
  has_gem_score : bool;
  has_gem_type : bool;
  has_gem_reason : bool
}.

(** The recommender object. *)
Record ConnectionRecommender : Type := mkConnectionRecommender {
  pairs_df : list PairRow;
  profiles_df : ProfilesDF;
  filter_red_flags : bool;
  red_flag_threshold : Q
}.

Definition __init__ (pairs_df : list PairRow) (profiles_df : ProfilesDF)
    (filter_red_flags : option bool) (red_flag_threshold : option Q)
    : ConnectionRecommender :=
  mkConnectionRecommender pairs_df profiles_df
    (get filter_red_flags true) (get red_flag_threshold 50.0%Q).

(** A pair row with the [candidate_id] column added. *)
Record UserPair : Type := mkUserPair {
  pair : PairRow;
  candidate_id : string
}.

(** The boolean mask selecting the rows that involve [user_id]. *)
Definition involves (user_id : string) (row : PairRow) : bool :=
  bool_decide (profile_a_id row = user_id)
  || bool_decide (profile_b_id row = user_id).

(** The lambda passed to [apply]: the other end of the pair. *)
Definition with_candidate (user_id : string) (row : PairRow) : UserPair :=
  mkUserPair row
    (if bool_decide (profile_a_id row = user_id)
     then profile_b_id row else profile_a_id row).

(** [_calculate_ranking_score], on one row of the frame. *)
Definition _calculate_ranking_score (row : PairRow) (strategy : string) : Q :=
  if bool_decide (strategy = "compatibility") then compatibility_score row
  else if bool_decide (strategy = "roi") then
    let job_score := get (predicted_job_opportunity_score row) 0%Q in
    let mentor_score := get (predicted_mentorship_value row) 0%Q in
    let collab_score := get (predicted_collaboration_potential row) 0%Q in
    (compatibility_score row * 0.4 + job_score * 0.25 + mentor_score * 0.2
     + collab_score * 0.15)%Q
  else if bool_decide (strategy = "mentorship") then
    let mentor_score := get (predicted_mentorship_value row) 0%Q in
    (mentor_score * 0.6 + compatibility_score row * 0.4)%Q
  else if bool_decide (strategy = "collaboration") then
    let collab_score := get (predicted_collaboration_potential row) 0%Q in
    (collab_score * 0.6 + compatibility_score row * 0.4)%Q
  else compatibility_score row.

(** [frame.nlargest(n, column)]: the [n] rows with the largest value, in
    descending order.  Rows with equal values are kept in their original
    order, which is what pandas does when [n] is below the number of rows
    (a stable selection); with [n] at or above the number of rows its sort
    leaves the order of equal rows open.  The properties below are stated
    so that they do not depend on the order of equal rows. *)
Fixpoint insert_desc {A} (gt : A → A → bool) (x : A) (sorted : list A) : list A :=
  match sorted with
  | [] => [x]
  | y :: rest => if gt y x then y :: insert_desc gt x rest else x :: sorted
  end.

Definition sort_desc {A} (gt : A → A → bool) (rows : list A) : list A :=
  foldr (insert_desc gt) [] rows.

Definition nlargest {A} (n : nat) (gt : A → A → bool) (rows : list A) : list A :=
  take n (sort_desc gt rows).

(** The columns [_enrich_recommendations] adds for a known candidate. *)
Record CandidateInfo : Type := mkCandidateInfo {
  candidate_name : string;
  candidate_role : string;
  candidate_company : string;
  candidate_seniority : string;
  candidate_industry : string
}.

(** The body of the loop of [_enrich_recommendations] for one row. *)
Definition enrich_row (self : ConnectionRecommender) (candidate_id : string)
    : option CandidateInfo :=
  match profile_rows (profiles_df self) !! candidate_id with
  | Some profile =>
      Some {| candidate_name := get (name profile) "Unknown";
              candidate_role := get (current_role profile) "Unknown";
              candidate_company := get (current_company profile) "Unknown";
              candidate_seniority := get (seniority_level profile) "Unknown";
              candidate_industry := get (industry profile) "Unknown" |}
  | None => None
  end.

(** A row of the frame [recommend_for_user] returns. *)
Record Recommendation : Type := mkRecommendation {
  rec_pair : UserPair;
  ranking_score : Q;
  rec_candidate : option CandidateInfo
}.

(** Rows with their ranking score, before enrichment. *)
Definition gt_ranking (x y : UserPair * Q) : bool := gtb (snd x) (snd y).

Definition _enrich_recommendations (self : ConnectionRecommender)
    (recommendations : list (UserPair * Q)) : list Recommendation :=
  (λ r, mkRecommendation (fst r) (snd r)
          (enrich_row self (candidate_id (fst r)))) <$> recommendations.

(** [set(profiles_df[profiles_df['red_flag_score'] > threshold]['profile_id'])] *)
Definition red_flag_profiles (self : ConnectionRecommender) : gset string :=
  dom (filter (λ kv : string * ProfileRow,
                 Is_true (gtb (red_flag_score kv.2) (red_flag_threshold self)))
              (profile_rows (profiles_df self))).

Definition recommend_for_user (self : ConnectionRecommender) (user_id : string)
    (top_n : nat) (min_compatibility : Q) (strategy : string)
    : list Recommendation :=
  let user_pairs := List.filter (involves user_id) (pairs_df self) in
  if (len user_pairs =? 0)%Z then []
  else
    let user_pairs := with_candidate user_id <$> user_pairs in
    let user_pairs :=
      List.filter (λ up, geb (compatibility_score (pair up)) min_compatibility)
                  user_pairs in
    let user_pairs :=
      if filter_red_flags self && has_red_flag_score (profiles_df self) then
        List.filter (λ up, negb (bool_decide (candidate_id up ∈ red_flag_profiles self)))
                    user_pairs
      else user_pairs in
    let ranked :=
      (λ up, (up, _calculate_ranking_score (pair up) strategy)) <$> user_pairs in
    let recommendations := nlargest top_n gt_ranking ranked in
    _enrich_recommendations self recommendations.

(** The columns the left merge of [get_hidden_gems] brings in; [None] is a
    pair whose candidate has no row in [profiles_df]. *)
Record GemColumns : Type := mkGemColumns {
  merged_gem_score : Q;
  merged_gem_type : string;
  merged_gem_reason : string
}.

Definition gem_columns_of (profile : ProfileRow) : GemColumns :=
  mkGemColumns (gem_score profile) (gem_type profile) (gem_reason profile).

(** A row of the frame [get_hidden_gems] returns. *)
Record GemRecommendation : Type := mkGemRecommendation {
  gem_pair : UserPair;
  gem_columns : option GemColumns;
  gem_candidate : option CandidateInfo
}.

(** Descending order on the merged [gem_score], missing values last. *)
Definition gt_gem (x y : UserPair * option GemColumns) : bool :=
  match snd x, snd y with
  | Some gx, Some gy => gtb (merged_gem_score gx) (merged_gem_score gy)
  | Some _, None => true
  | None, _ => false
  end.

(** [profiles_df[profiles_df['gem_score'] >= min_gem_score]['profile_id']] *)
Definition gem_profiles (self : ConnectionRecommender) (min_gem_score : Q)
    : gset string :=
  dom (filter (λ kv : string * ProfileRow,
                 Is_true (geb (gem_score kv.2) min_gem_score))
              (profile_rows (profiles_df self))).

Definition get_hidden_gems (self : ConnectionRecommender) (user_id : string)
    (top_n : nat) (min_gem_score : Q) : result (list GemRecommendation) :=
  let user_pairs := List.filter (involves user_id) (pairs_df self) in
  if (len user_pairs =? 0)%Z then Ok []
  else
    let user_pairs := with_candidate user_id <$> user_pairs in
    let user_pairs :=
      if has_gem_score (profiles_df self) then
        List.filter (λ up, bool_decide (candidate_id up ∈ gem_profiles self min_gem_score))
                    user_pairs
      else user_pairs in
    (* profiles_df[['profile_id', 'gem_score', 'gem_type', 'gem_reason']] *)
    if negb (has_gem_score (profiles_df self) && has_gem_type (profiles_df self)
             && has_gem_reason (profiles_df self))
    then Raise KeyError
    else
      let gems :=
        (λ up, (up, gem_columns_of
                      <$> profile_rows (profiles_df self) !! candidate_id up))
          <$> user_pairs in
      let gems := nlargest top_n gt_gem gems in
      Ok ((λ g, mkGemRecommendation (fst g) (snd g)
                  (enrich_row self (candidate_id (fst g)))) <$> gems).

(** The dict [evaluate_connection] returns on success. *)
Record RoiMetrics : Type := mkRoiMetrics {
  job_opportunity : Q;
  mentorship_value : Q;
  collaboration_potential : Q;
  expected_timeframe : string
}.

Record CandidateBlock : Type := mkCandidateBlock {
  info_name : string;
  info_role : string;
  info_company : string;
  info_seniority : string;
  info_industry : string;
  info_years_experience : Z
}.

Record RedFlagBlock : Type := mkRedFlagBlock {
  has_red_flags : bool;
  block_red_flag_score : Q;
  reasons : string
}.

Record HiddenGemBlock : Type := mkHiddenGemBlock {
  is_gem : bool;
  block_gem_score : Q;
  block_gem_type : string
}.

Record Evaluation : Type := mkEvaluation {
  eval_compatibility_score : Q;
  recommendation : string;
  roi_metrics : RoiMetrics;
  candidate_info : CandidateBlock;
  red_flags : RedFlagBlock;
  hidden_gem : HiddenGemBlock;
  explanation : string
}.

(** What [evaluate_connection] returns: the evaluation, or the dict
    [{'error': message}]. *)
Inductive EvaluationResult : Type :=
| EvaluationError (error : string)
| EvaluationOk (evaluation : Evaluation).

(** The mask of [evaluate_connection]: the pair in either direction. *)
Definition is_pair_of (user_id candidate_id : string) (row : PairRow) : bool :=
  (bool_decide (profile_a_id row = user_id)
   && bool_decide (profile_b_id row = candidate_id))
  || (bool_decide (profile_a_id row = candidate_id)
      && bool_decide (profile_b_id row = user_id)).

Definition evaluate_connection (self : ConnectionRecommender)
    (user_id candidate_id : string) : EvaluationResult :=
  match List.filter (is_pair_of user_id candidate_id) (pairs_df self) with
  | [] => EvaluationError "Connection pair not found"
  | pair :: _ =>
      match profile_rows (profiles_df self) !! candidate_id with
      | None => EvaluationError "Candidate profile not found"
      | Some candidate =>
          let candidate_red_flag_score :=
            if has_red_flag_score (profiles_df self)
            then red_flag_score candidate else 0%Q in
          let candidate_gem_score :=
            if has_gem_score (profiles_df self) then gem_score candidate else 0%Q in
          EvaluationOk
            {| eval_compatibility_score := compatibility_score pair;
               recommendation :=
                 if geb (compatibility_score pair) 70 then "CONNECT"
                 else if geb (compatibility_score pair) 50 then "CONSIDER"
                 else "SKIP";
               roi_metrics :=
                 {| job_opportunity := get (predicted_job_opportunity_score pair) 0%Q;
                    mentorship_value := get (predicted_mentorship_value pair) 0%Q;
                    collaboration_potential :=
                      get (predicted_collaboration_potential pair) 0%Q;
                    expected_timeframe := get (roi_timeframe pair) "unknown" |};
               candidate_info :=
                 {| info_name := get (name candidate) "Unknown";
                    info_role := get (current_role candidate) "Unknown";
                    info_company := get (current_company candidate) "Unknown";
                    info_seniority := get (seniority_level candidate) "Unknown";
                    info_industry := get (industry candidate) "Unknown";
                    info_years_experience := get (years_experience candidate) 0%Z |};
               red_flags :=
                 {| has_red_flags := gtb candidate_red_flag_score 50;
                    block_red_flag_score := candidate_red_flag_score;
                    reasons := get (red_flag_reasons candidate) "None" |};
               hidden_gem :=
                 {| is_gem := gtb candidate_gem_score 70;
                    block_gem_score := candidate_gem_score;
                    block_gem_type :=
                      if has_gem_type (profiles_df self)
                      then gem_type candidate else "None" |};
               explanation := get (mutual_benefit_explanation pair) EmptyString |}
      end
  end.

End Recommender.

(** ** Predicates used to state the properties *)

Module Spec.

(** A score on the 0-100 scale. *)
Definition in_range (x : Q) : Prop := (0 <= x)%Q ∧ (x <= 100)%Q.

(** The field values the engine relies on: a connection count is not
    negative. *)
Definition valid_profile (profile : Profile) : Prop :=
  (0 ≤ get (connections profile) 0)%Z.

Definition weights_nonneg (self : Features.FeatureWeights) : Prop :=
  (0 <= Features.w_skill_complementarity self)%Q
  ∧ (0 <= Features.w_network_value self)%Q
  ∧ (0 <= Features.w_career_alignment self)%Q
  ∧ (0 <= Features.w_geographic_proximity self)%Q.

(** The value every key the feature engine reads takes when it is absent:
    0 for the numbers, the empty list for the collections, the empty string
    for [industry] and [location], ["mid"] for [seniority_level], and the
    placeholders of the explanation for role and company.
    [remote_preference] has no default (an absent key is just not
    ["remote"]); the remaining keys are not read by the engine. *)
Definition fill_defaults (profile : Profile) : Profile :=
  {| years_experience := Some (get (years_experience profile) 0%Z);
     seniority_level := Some (get (seniority_level profile) "mid");
     industry := Some (get_or_empty (industry profile));
     location := Some (get_or_empty (location profile));
     connections := Some (get (connections profile) 0%Z);
     skills := Some (get (skills profile) []);
     needs := Some (get (needs profile) []);
     can_offer := Some (get (can_offer profile) []);
     remote_preference := remote_preference profile;
     current_role := Some (get (current_role profile) "professional");
     current_company := Some (get (current_company profile) "their company");
     headline := headline profile;
     about := about profile;
     experience := experience profile;
     education := education profile |}.

(** The four ghost signals of a profile, as the specification lists them. *)
Definition ghost_signals (profile : Profile) : list bool :=
  let title := lower (get_or_empty (current_role profile)) in
  [ bool_decide (length (get (skills profile) []) < 3)%nat;
    existsb (λ vague, contains vague title) RedFlags.vague_titles
      && bool_decide (length (split title) ≤ 2)%nat;
    bool_decide (String.length (get (about profile) EmptyString) < 50)%nat;
    bool_decide (length (get (experience profile) []) < 2)%nat ].

Definition count_true (signals : list bool) : nat :=
  length (List.filter id signals).

(** The pair table holds a record linking the two profiles, in either
    direction. *)
Definition pair_exists (self : Recommender.ConnectionRecommender)
    (user_id candidate_id : string) : Prop :=
  ∃ row, row ∈ Recommender.pairs_df self
         ∧ ((Recommender.profile_a_id row = user_id
             ∧ Recommender.profile_b_id row = candidate_id)
            ∨ (Recommender.profile_a_id row = candidate_id
               ∧ Recommender.profile_b_id row = user_id)).

(** The user appears in no pair record. *)
Definition user_unknown (self : Recommender.ConnectionRecommender)
    (user_id : string) : Prop :=
  ∀ row, row ∈ Recommender.pairs_df self →
         Recommender.profile_a_id row ≠ user_id
         ∧ Recommender.profile_b_id row ≠ user_id.

(** Descending order of the ranking score. *)
Definition ranked_descending (recommendations : list Recommender.Recommendation)
    : Prop :=
  StronglySorted
    (λ first second,
       (Recommender.ranking_score second <= Recommender.ranking_score first)%Q)
    recommendations.

(** The red-flag penalty as the specification words it: the multiplier
    chosen from the target's [red_flag_score], and the refined score, which
    is the predicted score times that multiplier, clamped to [0,100]. *)
Definition penalty (red_flag_score : Q) : Q :=
  if gtb red_flag_score 75 then 0.80%Q
  else if gtb red_flag_score 50 then 0.90%Q
  else if gtb red_flag_score 25 then 0.95%Q
  else 1.00%Q.

Definition clamp (x : Q) : Q := Qmax 0 (Qmin 100 x).

Definition refined_score (S red_flag_score : Q) : Q :=
  clamp (S * penalty red_flag_score).

(** The ranking score of the mentorship strategy, as the specification
    gives it. *)
Definition mentorship_score (row : Recommender.PairRow) : Q :=
  (0.6 * get (Recommender.predicted_mentorship_value row) 0
   + 0.4 * Recommender.compatibility_score row)%Q.

(** The pair records [recommend_for_user] chooses from: those that involve
    the user and reach the minimum compatibility, without those whose
    candidate is a known profile above the red-flag threshold when the
    recommender filters red flags and the profile table has the column. *)
Definition eligible (self : Recommender.ConnectionRecommender)
    (user_id : string) (min_compatibility : Q) (row : Recommender.PairRow)
    : bool :=
  Recommender.involves user_id row
  && geb (Recommender.compatibility_score row) min_compatibility
  && (if Recommender.filter_red_flags self
         && Recommender.has_red_flag_score (Recommender.profiles_df self)
      then
        match Recommender.profile_rows (Recommender.profiles_df self)
                !! Recommender.candidate_id
                     (Recommender.with_candidate user_id row) with
        | Some profile =>
            negb (gtb (Recommender.red_flag_score profile)
                      (Recommender.red_flag_threshold self))
        | None => true
        end
      else true).

Definition eligible_pairs (self : Recommender.ConnectionRecommender)
    (user_id : string) (min_compatibility : Q) : list Recommender.PairRow :=
  List.filter (eligible self user_id min_compatibility)
              (Recommender.pairs_df self).

(** The weighted sum of the default configuration. *)
Definition default_weighted_sum (f : Features.BaseFeatures) : Q :=
  (0.40 * ((Features.skill_match_score f
            + Features.skill_complementarity_score f) / 2)
   + 0.30 * ((Features.network_value_a_to_b f
              + Features.network_value_b_to_a f) / 2)
   + 0.20 * Features.career_alignment_score f
   + 0.10 * Features.geographic_score f)%Q.

End Spec.

(** ** Sample data *)

Module Examples.

(** A junior analyst and a senior engineer. *)
Definition analyst : Profile :=
  {| years_experience := Some 1%Z;
     seniority_level := Some "entry";
     industry := Some "Technology";
     location := Some "Seattle, WA";
     connections := Some 300%Z;
     skills := Some ["python"; "sql"];
     needs := Some ["mentorship"];
     can_offer := Some ["python"];
     remote_preference := None;
     current_role := Some "Data Analyst";
     current_company := Some "Initech";
     headline := None;
     about := None;
     experience := None;
     education := None |}.

Definition engineer : Profile :=
  {| years_experience := Some 5%Z;
     seniority_level := Some "senior";
     industry := Some "Information Technology";
     location := Some "Portland, WA";
     connections := Some 1500%Z;
     skills := Some ["python"; "go"];
     needs := Some ["python"];
     can_offer := Some ["mentorship"];
     remote_preference := None;
     current_role := Some "Engineer";
     current_company := Some "Globex";
     headline := None;
     about := None;
     experience := None;
     education := None |}.

(** Two profiles that record nothing but their years of experience. *)
Definition newcomer : Profile :=
  {| years_experience := Some 0%Z;
     seniority_level := None; industry := None; location := None;
     connections := None; skills := None; needs := None; can_offer := None;
     remote_preference := None; current_role := None; current_company := None;
     headline := None; about := None; experience := None; education := None |}.

Definition veteran : Profile :=
  {| years_experience := Some 101%Z;
     seniority_level := None; industry := None; location := None;
     connections := None; skills := None; needs := None; can_offer := None;
     remote_preference := None; current_role := None; current_company := None;
     headline := None; about := None; experience := None; education := None |}.

(** The profile with no key at all, but for an entry-level seniority. *)
Definition entry_level : Profile :=
  {| years_experience := None;
     seniority_level := Some "entry"; industry := None; location := None;
     connections := None; skills := None; needs := None; can_offer := None;
     remote_preference := None; current_role := None; current_company := None;
     headline := None; about := None; experience := None; education := None |}.

(** A pair table for user ["u1"]: candidate ["c1"] has compatibility 80
    and mentorship value 40, candidate ["c2"] compatibility 50 and
    mentorship value 90. *)
Definition pair_c1 : Recommender.PairRow :=
  {| Recommender.profile_a_id := "u1";
     Recommender.profile_b_id := "c1";
     Recommender.compatibility_score := 80;
     Recommender.predicted_job_opportunity_score := Some 30%Q;
     Recommender.predicted_mentorship_value := Some 40%Q;
     Recommender.predicted_collaboration_potential := Some 55%Q;
     Recommender.roi_timeframe := Some "weeks";
     Recommender.mutual_benefit_explanation := Some "PEER COLLABORATION" |}.

Definition pair_c2 : Recommender.PairRow :=
  {| Recommender.profile_a_id := "c2";
     Recommender.profile_b_id := "u1";
     Recommender.compatibility_score := 50;
     Recommender.predicted_job_opportunity_score := Some 45%Q;
     Recommender.predicted_mentorship_value := Some 90%Q;
     Recommender.predicted_collaboration_potential := Some 20%Q;
     Recommender.roi_timeframe := Some "6-12 months";
     Recommender.mutual_benefit_explanation := Some "MENTORSHIP" |}.

Definition sample_pairs : list Recommender.PairRow := [pair_c1; pair_c2].

Definition profile_row (who : string) (red_flag gem : Q) : Recommender.ProfileRow :=
  {| Recommender.name := Some who;
     Recommender.current_role := Some "Engineer";
     Recommender.current_company := None;
     Recommender.seniority_level := Some "senior";
     Recommender.industry := Some "Technology";
     Recommender.years_experience := Some 7%Z;
     Recommender.red_flag_score := red_flag;
     Recommender.red_flag_reasons := None;
     Recommender.gem_score := gem;
     Recommender.gem_type := "Rising Star";
     Recommender.gem_reason := "Rising star: senior level at 7 years" |}.

(** Both candidates are clean. *)
Definition clean_profiles : Recommender.ProfilesDF :=
  {| Recommender.profile_rows :=
       <["c1" := profile_row "Ada" 10 65]>
         (<["c2" := profile_row "Grace" 20 30]> ∅);
     Recommender.has_red_flag_score := true;
     Recommender.has_gem_score := true;
     Recommender.has_gem_type := true;
     Recommender.has_gem_reason := true |}.

(** Candidate ["c2"] carries a red-flag score of 90. *)
Definition flagged_profiles : Recommender.ProfilesDF :=
  {| Recommender.profile_rows :=
       <["c1" := profile_row "Ada" 10 65]>
         (<["c2" := profile_row "Grace" 90 30]> ∅);
     Recommender.has_red_flag_score := true;
     Recommender.has_gem_score := true;
     Recommender.has_gem_type := true;
     Recommender.has_gem_reason := true |}.

(** The recommender with its default settings, and one built with
    [filter_red_flags=False]. *)
Definition clean_recommender : Recommender.ConnectionRecommender :=
  Recommender.__init__ sample_pairs clean_profiles None None.

Definition filtering_recommender : Recommender.ConnectionRecommender :=
  Recommender.__init__ sample_pairs flagged_profiles None None.

Definition unfiltered_recommender : Recommender.ConnectionRecommender :=
  Recommender.__init__ sample_pairs flagged_profiles (Some false) None.

(** A small corpus: ["python"] on three profiles of four, ["rust"] on one. *)
Definition with_skills (skills : list string) : Profile :=
  {| years_experience := None;
     seniority_level := None; industry := None; location := None;
     connections := None; skills := Some skills; needs := None;
     can_offer := None; remote_preference := None; current_role := None;
     current_company := None; headline := None; about := None;
     experience := None; education := None |}.

Definition corpus : list Profile :=
  [ with_skills ["python"; "rust"]; with_skills ["python"];
    with_skills ["python"]; with_skills [] ].

End Examples.


(** ** More Python string primitives *)

Module PyText.

(** [s.strip()]: leading and trailing separators removed. *)
Fixpoint lstrip (s : string) : string :=
  match s with
  | EmptyString => EmptyString
  | String c t => if is_space c then lstrip t else s
  end.

Fixpoint rstrip (s : string) : string :=
  match s with
  | EmptyString => EmptyString
  | String c t =>
      match rstrip t with
      | EmptyString => if is_space c then EmptyString else String c EmptyString
      | rest => String c rest
      end
  end.

Definition strip (s : string) : string := rstrip (lstrip s).

(** [s.replace(old, new)] for one-character [old] and [new]. *)
Fixpoint replace_char (old new : ascii) (s : string) : string :=
  match s with
  | EmptyString => EmptyString
  | String c t =>
      String (if Ascii.eqb c old then new else c) (replace_char old new t)
  end.

Definition is_upper (c : ascii) : bool :=
  let n := nat_of_ascii c in (65 <=? n)%nat && (n <=? 90)%nat.
Definition is_lower (c : ascii) : bool :=
  let n := nat_of_ascii c in (97 <=? n)%nat && (n <=? 122)%nat.
Definition is_cased (c : ascii) : bool := is_upper c || is_lower c.

Definition upper_ascii (c : ascii) : ascii :=
  if is_lower c then ascii_of_nat (nat_of_ascii c - 32) else c.

(** [s.title()]: a cased character is upper-cased when it follows an
    uncased one (or starts the string) and lower-cased otherwise. *)
Fixpoint title_go (previous_is_cased : bool) (s : string) : string :=
  match s with
  | EmptyString => EmptyString
  | String c t =>
      String (if previous_is_cased then lower_ascii c else upper_ascii c)
             (title_go (is_cased c) t)
  end.

Definition title (s : string) : string := title_go false s.

End PyText.

(** ** [src/features/hidden_gems_detector.py]: profile analysis *)

Module GemAnalysis.

Import PyText.

(** The detector object: the rarity map [__init__] computed and the set
    of in-demand skills. *)
Record HiddenGemsDetector : Type := mkHiddenGemsDetector {
  skill_rarity_map : gmap string Q;
  high_value_skills : gset string
}.

Definition default_high_value_skills : gset string :=
  list_to_set
    [ "Machine Learning"; "Deep Learning"; "AI"; "Data Science";
      "Python"; "Cloud Architecture"; "Kubernetes"; "AWS";
      "Product Management"; "Fundraising"; "Growth Marketing";
      "UI/UX Design"; "React"; "TypeScript"; "Go"; "Rust" ].

(** [HiddenGemsDetector(config, all_profiles)] *)
Definition __init__ (all_profiles : option (list Profile))
    : result HiddenGemsDetector :=
  skill_rarity_map ← HiddenGems.__init__ all_profiles;
  Ok (mkHiddenGemsDetector skill_rarity_map default_high_value_skills).

(** The dict [analyze_profile] returns. *)
Record GemReport : Type := mkGemReport {
  undervalued_score : Q;
  rising_star_score : Q;
  super_connector_score : Q;
  skill_rarity_score : Q;
  gem_score : Q;
  gem_reason : string;
  gem_type : string
}.

Definition _calculate_undervalued_score (profile : Profile) : Q :=
  let score := 0.0%Q in
  let years_exp := get (years_experience profile) 0%Z in
  let connections := get (connections profile) 0%Z in
  let expected_connections := (years_exp * 100)%Z in
  let score :=
    if ltb (inject_Z connections) (inject_Z expected_connections * 0.3)
       && (years_exp >=? 3)%Z then (score + 40)%Q
    else if ltb (inject_Z connections) (inject_Z expected_connections * 0.5)
            && (years_exp >=? 2)%Z then (score + 25)%Q
    else score in
  let skills_count := len (get (skills profile) []) in
  let score :=
    if (skills_count >=? 12)%Z && (connections <? 500)%Z
    then (score + 30)%Q else score in
  let education := get (education profile) [] in
  let score :=
    if (len education >=? 1)%Z && (connections <? 300)%Z
    then (score + 15)%Q else score in
  let seniority := get (seniority_level profile) "mid" in
  let score :=
    if bool_decide (seniority ∈ ["senior"; "executive"]) && (connections <? 1000)%Z
    then (score + 15)%Q else score in
  Qmin 100 score.

Definition top_companies : list string :=
  [ "Google"; "Microsoft"; "Amazon"; "Meta"; "Apple";
    "Netflix"; "Tesla"; "Uber"; "Airbnb"; "Stripe" ].

Definition _calculate_rising_star_score (profile : Profile) : Q :=
  let score := 0.0%Q in
  let years_exp := get (years_experience profile) 0%Z in
  let seniority := get (seniority_level profile) "mid" in
  let skills_count := len (get (skills profile) []) in
  let score :=
    if bool_decide (seniority = "senior")
       && (5 <=? years_exp)%Z && (years_exp <=? 8)%Z then (score + 40)%Q
    else if bool_decide (seniority = "executive")
            && (10 <=? years_exp)%Z && (years_exp <=? 15)%Z then (score + 50)%Q
    else score in
  let expected_skills := (5 + inject_Z years_exp * 1.5)%Q in
  let score :=
    if gtb (inject_Z skills_count) (expected_skills * 1.5)
    then (score + 30)%Q else score in
  let company := get (current_company profile) EmptyString in
  let score :=
    if existsb (λ top, contains top company) top_companies && (years_exp <? 5)%Z
    then (score + 30)%Q else score in
  Qmin 100 score.

Definition specialized_domains : list (gset string) :=
  [ list_to_set ["Machine Learning"; "Deep Learning"; "AI"];
    list_to_set ["Product Management"; "Strategy"; "Growth"];
    list_to_set ["Fundraising"; "VC"; "Investment"];
    list_to_set ["Design"; "UI/UX Design"; "Figma"] ].

Definition valuable_industries : list string :=
  [ "Technology"; "Finance"; "Consulting" ].

Definition _calculate_super_connector_score (profile : Profile) : Q :=
  let score := 0.0%Q in
  let connections := get (connections profile) 0%Z in
  let skills : gset string := list_to_set (get (skills profile) []) in
  let industry := get (industry profile) EmptyString in
  let score :=
    if (1000 <=? connections)%Z && (connections <=? 4000)%Z then (score + 40)%Q
    else if (500 <=? connections)%Z && (connections <=? 1000)%Z then (score + 25)%Q
    else score in
  let score :=
    if existsb (λ domain : gset string, (2 <=? size (skills ∩ domain))%nat)
               specialized_domains
    then (score + 30)%Q else score in
  let seniority := get (seniority_level profile) "mid" in
  let score :=
    if bool_decide (seniority = "executive") then (score + 20)%Q
    else if bool_decide (seniority = "senior") then (score + 10)%Q
    else score in
  let score :=
    if existsb (λ ind, contains ind industry) valuable_industries
    then (score + 10)%Q else score in
  Qmin 100 score.

Definition _calculate_skill_rarity_fallback (self : HiddenGemsDetector)
    (profile : Profile) : Q :=
  let skills : gset string := list_to_set (get (skills profile) []) in
  let valuable_skills := skills ∩ high_value_skills self in
  if (4 <=? size valuable_skills)%nat then 80
  else if (2 <=? size valuable_skills)%nat then 60
  else if (1 <=? size valuable_skills)%nat then 40
  else 20.

(** [np.mean(values)] of a list that is not empty. *)
Definition mean (values : list Q) : Q :=
  (foldr Qplus 0 values / inject_Z (len values))%Q.

Definition _calculate_skill_rarity_score (self : HiddenGemsDetector)
    (profile : Profile) : Q :=
  if bool_decide (skill_rarity_map self = ∅)
  then _calculate_skill_rarity_fallback self profile
  else
    let skills := get (skills profile) [] in
    match skills with
    | [] => 0.0
    | _ =>
        let rarity_scores :=
          (λ skill, default 30%Q (skill_rarity_map self !! skill)) <$> skills in
        let avg_rarity := mean rarity_scores in
        let rare_skills :=
          List.filter
            (λ s, gtb (default 0%Q (skill_rarity_map self !! s)) 70) skills in
        if (len rare_skills >=? 3)%Z then Qmin 100 (avg_rarity * 1.3)
        else if (len rare_skills >=? 2)%Z then Qmin 100 (avg_rarity * 1.2)
        else avg_rarity
    end.

Definition _calculate_overall_gem_score
    (undervalued rising_star super_connector skill_rarity : Q) : Q :=
  let score :=
    (0 + undervalued * 0.30 + rising_star * 0.25 + super_connector * 0.25
     + skill_rarity * 0.20)%Q in
  Qmin 100 score.

(** [max(scores, key=scores.get)]: the first key whose value is maximal. *)
Fixpoint max_by_value (best : string * Q) (rest : list (string * Q)) : string * Q :=
  match rest with
  | [] => best
  | entry :: rest =>
      max_by_value (if gtb (snd entry) (snd best) then entry else best) rest
  end.

Definition _categorize_gem_type
    (undervalued rising_star super_connector skill_rarity : Q) : string :=
  let '(max_type, max_score) :=
    max_by_value ("undervalued", undervalued)
                 [ ("rising_star", rising_star);
                   ("super_connector", super_connector);
                   ("rare_skills", skill_rarity) ] in
  if ltb max_score 40 then "none"
  else title (replace_char "_" " " max_type).

Definition _generate_gem_explanation
    (undervalued rising_star super_connector skill_rarity : Q)
    (profile : Profile) : string :=
  let years_exp := get (years_experience profile) 0%Z in
  let connections := get (connections profile) 0%Z in
  let reasons :=
    ((if gtb undervalued 50 then
        [ "Undervalued: " +:+ pretty years_exp
            +:+ " years experience but only " +:+ pretty connections
            +:+ " connections" ]
      else [])
     ++ (if gtb rising_star 50 then
           [ "Rising star: " +:+ get (seniority_level profile) "mid"
               +:+ " level at " +:+ pretty years_exp +:+ " years" ]
         else [])
     ++ (if gtb super_connector 50 then
           [ "Super connector: " +:+ RedFlags.format_thousands connections
               +:+ " connections in " +:+ get (industry profile) EmptyString ]
         else [])
     ++ (if gtb skill_rarity 60 then
           [ "Rare skills: has in-demand, uncommon expertise" ]
         else []))%list in
  match reasons with
  | [] => "Not a significant hidden gem"
  | _ => join " | " reasons
  end.

Definition analyze_profile (self : HiddenGemsDetector) (profile : Profile)
    : GemReport :=
  let undervalued := _calculate_undervalued_score profile in
  let rising_star := _calculate_rising_star_score profile in
  let super_connector := _calculate_super_connector_score profile in
  let skill_rarity := _calculate_skill_rarity_score self profile in
  let overall :=
    _calculate_overall_gem_score undervalued rising_star super_connector
                                 skill_rarity in
  let reason :=
    _generate_gem_explanation undervalued rising_star super_connector
                              skill_rarity profile in
  let type :=
    _categorize_gem_type undervalued rising_star super_connector skill_rarity in
  mkGemReport undervalued rising_star super_connector skill_rarity overall
              reason type.

End GemAnalysis.

(** ** Profile frames *)

Module Frames.

(** A cell of a column of a [DataFrame].  A frame gives every row every one
    of its columns; a cell that was never given a value holds NaN (or
    [None]), whatever the other rows hold there. *)
Inductive Cell (A : Type) : Type :=
| NaN
| Filled (value : A).
Arguments NaN {A}.
Arguments Filled {A} value.

(** A row of a profile frame: its [profile_id] and, for each column the
    engines read, the cell of the row ([None]: the frame has no such
    column). *)
Record FrameRow : Type := mkFrameRow {
  profile_id : string;
  cell_years_experience : option (Cell Z);
  cell_seniority_level : option (Cell string);
  cell_industry : option (Cell string);
  cell_location : option (Cell string);
  cell_connections : option (Cell Z);
  cell_skills : option (Cell (list string));
  cell_needs : option (Cell (list string));
  cell_can_offer : option (Cell (list string));
  cell_remote_preference : option (Cell string);
  cell_current_role : option (Cell string);
  cell_current_company : option (Cell string);
  cell_headline : option (Cell string);
  cell_about : option (Cell string);
  cell_experience : option (Cell (list Job));
  cell_education : option (Cell (list string))
}.

(** The value of a key of the row: absent when the frame has no such
    column, the value of a filled cell, and nothing at all for NaN. *)
Definition read {A} (cell : option (Cell A)) : option (option A) :=
  match cell with
  | None => Some None
  | Some (Filled value) => Some (Some value)
  | Some NaN => None
  end.

(** The row as a [Series] of values, when none of its cells is NaN. *)
Definition series (row : FrameRow) : option Profile :=
  years_experience ← read (cell_years_experience row);
  seniority_level ← read (cell_seniority_level row);
  industry ← read (cell_industry row);
  location ← read (cell_location row);
  connections ← read (cell_connections row);
  skills ← read (cell_skills row);
  needs ← read (cell_needs row);
  can_offer ← read (cell_can_offer row);
  remote_preference ← read (cell_remote_preference row);
  current_role ← read (cell_current_role row);
  current_company ← read (cell_current_company row);
  headline ← read (cell_headline row);
  about ← read (cell_about row);
  experience ← read (cell_experience row);
  education ← read (cell_education row);
  Some (mkProfile years_experience seniority_level industry location
                  connections skills needs can_offer remote_preference
                  current_role current_company headline about experience
                  education).

(** The columns the frame of a row has, of those the engines read. *)
Definition columns (row : FrameRow) : list bool :=
  [ bool_decide (is_Some (cell_years_experience row));
    bool_decide (is_Some (cell_seniority_level row));
    bool_decide (is_Some (cell_industry row));
    bool_decide (is_Some (cell_location row));
    bool_decide (is_Some (cell_connections row));
    bool_decide (is_Some (cell_skills row));
    bool_decide (is_Some (cell_needs row));
    bool_decide (is_Some (cell_can_offer row));
    bool_decide (is_Some (cell_remote_preference row));
    bool_decide (is_Some (cell_current_role row));
    bool_decide (is_Some (cell_current_company row));
    bool_decide (is_Some (cell_headline row));
    bool_decide (is_Some (cell_about row));
    bool_decide (is_Some (cell_experience row));
    bool_decide (is_Some (cell_education row)) ].

(** The rows are those of one frame: all have the same columns. *)
Definition uniform (frame : list FrameRow) : bool :=
  match frame with
  | [] => true
  | first :: rest =>
      forallb (λ row, bool_decide (columns row = columns first)) rest
  end.

(** The rows are those of one frame, and no cell of it is NaN. *)
Definition complete (frame : list FrameRow) : bool :=
  uniform frame && forallb (λ row, bool_decide (is_Some (series row))) frame.

(** The cell holds no value. *)
Definition missing {A} (cell : option (Cell A)) : bool :=
  match cell with
  | Some NaN => true
  | _ => false
  end.

(** No cell of the two columns of integers is NaN: one NaN there turns
    every cell of the column into a float. *)
Definition numeric_filled (frame : list FrameRow) : bool :=
  forallb (λ row, negb (missing (cell_years_experience row))
                  && negb (missing (cell_connections row))) frame.

(** The row as the [Series] that [iterrows] or [to_dict("index")] hands to
    an engine, where this model covers it: a row without NaN of a frame
    whose columns of integers hold integers. *)
Definition series_in (frame : list FrameRow) (row : FrameRow) : option Profile :=
  if uniform frame && numeric_filled frame then series row else None.

(** The row has a [skills] cell that holds no list. *)
Definition no_skills_list (row : FrameRow) : bool := missing (cell_skills row).

(** The frame is one whose columns of integers hold integers, and each of
    its rows either has no NaN or satisfies [allowed]. *)
Definition nan_rows (allowed : FrameRow → bool) (frame : list FrameRow) : bool :=
  uniform frame && numeric_filled frame
  && forallb (λ row, bool_decide (is_Some (series row)) || allowed row) frame.

(** What the corpus statistics read of a row: the [skills] cell when it
    holds a list. *)
Definition skills_view (row : FrameRow) : Profile :=
  mkProfile None None None None None
            match cell_skills row with
            | Some (Filled skills) => Some skills
            | _ => None
            end
            None None None None None None None None None.

(** [frame.set_index("profile_id").to_dict("index")] on a frame with a
    [profile_id] column: refused when two rows share an id. *)
Definition to_dict_index (frame : list FrameRow) : result (gmap string FrameRow) :=
  if bool_decide (NoDup (profile_id <$> frame))
  then Ok (list_to_map ((λ row, (profile_id row, row)) <$> frame))
  else Raise ValueError.

(** The row with its [skills] cell emptied. *)
Definition without_skills (row : FrameRow) : FrameRow :=
  mkFrameRow (profile_id row)
    (cell_years_experience row) (cell_seniority_level row) (cell_industry row)
    (cell_location row) (cell_connections row) (Some NaN)
    (cell_needs row) (cell_can_offer row) (cell_remote_preference row)
    (cell_current_role row) (cell_current_company row) (cell_headline row)
    (cell_about row) (cell_experience row) (cell_education row).

(** The frame row of a [Series]: every key a filled cell. *)
Definition of_series (id : string) (profile : Profile) : FrameRow :=
  mkFrameRow id
    (Filled <$> years_experience profile) (Filled <$> seniority_level profile)
    (Filled <$> industry profile) (Filled <$> location profile)
    (Filled <$> connections profile) (Filled <$> skills profile)
    (Filled <$> needs profile) (Filled <$> can_offer profile)
    (Filled <$> remote_preference profile) (Filled <$> current_role profile)
    (Filled <$> current_company profile) (Filled <$> headline profile)
    (Filled <$> about profile) (Filled <$> experience profile)
    (Filled <$> education profile).

End Frames.

(** ** [batch_analyze] of [hidden_gems_detector.py] *)

Module GemBatch.

Import GemAnalysis.

Section Runtime.

(** What [analyze_profile] does with the other rows that hold a NaN or
    whose integers have become floats: the model of the detector does not
    cover such values. *)
Variable analyze_profile_nan :
  list Frames.FrameRow → HiddenGemsDetector → Frames.FrameRow → result GemReport.

(** [self.analyze_profile(profile)] on a row of the frame.  The first score
    computed is [_calculate_undervalued_score], which compares and multiplies
    the two numbers and then takes [len(profile.get("skills", []))]: on a
    [skills] cell without a list that is a [TypeError], and so is any
    failure before it. *)
Definition analyze_row (profiles_df : list Frames.FrameRow)
    (self : HiddenGemsDetector) (row : Frames.FrameRow) : result GemReport :=
  if Frames.no_skills_list row then Raise TypeError
  else
    match Frames.series_in profiles_df row with
    | Some profile => Ok (analyze_profile self profile)
    | None => analyze_profile_nan profiles_df self row
    end.

(** The loop over [profiles_df.iterrows()], appending to [gem_data]. *)
Fixpoint analyze_rows (profiles_df : list Frames.FrameRow)
    (self : HiddenGemsDetector) (rows : list Frames.FrameRow)
    (gem_data : list GemReport) : result (list GemReport) :=
  match rows with
  | [] => Ok gem_data
  | row :: rest =>
      gems ← analyze_row profiles_df self row;
      analyze_rows profiles_df self rest (gem_data ++ [gems])
  end.

(** [batch_analyze]: the rarity map is computed first when the detector
    has none; the result pairs every row with its report.  The statistics
    line reads [gems_df["gem_score"]], a column the frame built from an
    empty [gem_data] does not have. *)
Definition batch_analyze (self : HiddenGemsDetector)
    (profiles_df : list Frames.FrameRow)
    : result (list (Frames.FrameRow * GemReport)) :=
  skill_rarity_map ←
    (if bool_decide (skill_rarity_map self = ∅)
     then HiddenGems._calculate_skill_rarity (skill_rarity_map self)
            (Frames.skills_view <$> profiles_df)
     else Ok (skill_rarity_map self));
  let self := mkHiddenGemsDetector skill_rarity_map (high_value_skills self) in
  gem_data ← analyze_rows profiles_df self profiles_df [];
  match gem_data with
  | [] => Raise KeyError
  | _ => Ok (zip profiles_df gem_data)
  end.

(** [analyze_profiles_for_gems] *)
Definition analyze_profiles_for_gems (profiles_df : list Frames.FrameRow)
    : result (list (Frames.FrameRow * GemReport)) :=
  detector ← __init__ (Some (Frames.skills_view <$> profiles_df));
  batch_analyze detector profiles_df.

End Runtime.

End GemBatch.

(** ** [batch_analyze] of [red_flags_detector.py] *)

Module RedFlagsBatch.

Section Runtime.

(** What [analyze_profile] does with the other rows that hold a NaN or
    whose integers have become floats. *)
Variable analyze_profile_nan :
  list Frames.FrameRow → Frames.FrameRow → result RedFlags.RedFlagReport.

(** The row has a [skills] cell that holds no list, and its [current_role]
    cell, if the frame has the column, holds a text. *)
Definition no_skills_list_but_role (row : Frames.FrameRow) : bool :=
  Frames.no_skills_list row && negb (Frames.missing (Frames.cell_current_role row)).

(** [self.analyze_profile(profile)] on a row of the frame.  With a
    [current_role] that is a text, [_is_connection_collector] and
    [_is_job_hopper] can fail only with a [TypeError] (a comparison with
    [None], [len] of a NaN), and [_is_ghost_profile] then takes
    [len(skills)], a [TypeError] on a cell without a list. *)
Definition analyze_row (profiles_df : list Frames.FrameRow)
    (row : Frames.FrameRow) : result RedFlags.RedFlagReport :=
  if no_skills_list_but_role row then Raise TypeError
  else
    match Frames.series_in profiles_df row with
    | Some profile => Ok (RedFlags.analyze_profile profile)
    | None => analyze_profile_nan profiles_df row
    end.

(** The loop over [profiles_df.iterrows()], appending to [red_flag_data]. *)
Fixpoint analyze_rows (profiles_df rows : list Frames.FrameRow)
    (red_flag_data : list RedFlags.RedFlagReport)
    : result (list RedFlags.RedFlagReport) :=
  match rows with
  | [] => Ok red_flag_data
  | row :: rest =>
      red_flags ← analyze_row profiles_df row;
      analyze_rows profiles_df rest (red_flag_data ++ [red_flags])
  end.

(** [batch_analyze]: every row with its report.  The statistics line reads
    [red_flags_df['is_connection_collector']], a column the frame built from
    an empty [red_flag_data] does not have. *)
Definition batch_analyze (profiles_df : list Frames.FrameRow)
    : result (list (Frames.FrameRow * RedFlags.RedFlagReport)) :=
  red_flag_data ← analyze_rows profiles_df profiles_df [];
  match red_flag_data with
  | [] => Raise KeyError
  | _ => Ok (zip profiles_df red_flag_data)
  end.

(** [analyze_profiles_for_red_flags] *)
Definition analyze_profiles_for_red_flags (profiles_df : list Frames.FrameRow)
    : result (list (Frames.FrameRow * RedFlags.RedFlagReport)) :=
  batch_analyze profiles_df.

End Runtime.

End RedFlagsBatch.

(** ** [calculate_batch_features] of [compatibility_features.py] *)

Module FeaturesBatch.

(** A row of [pairs_df]. *)
Record PairKey : Type := mkPairKey {
  pair_id : string;
  profile_a_id : string;
  profile_b_id : string
}.

(** A row of the frame returned: the features and the three ids. *)
Record BatchRow : Type := mkBatchRow {
  row_features : Features.FeatureVector;
  row_pair_id : string;
  row_profile_a_id : string;
  row_profile_b_id : string
}.

Section Runtime.

Variable list_of_set : gset string → list string.

(** What [calculate_features] does with the other rows that hold a NaN or
    whose integers have become floats: the model of the engine does not
    cover such values. *)
Variable calculate_features_nan :
  list Frames.FrameRow → Features.FeatureWeights
  → Frames.FrameRow → Frames.FrameRow → result Features.FeatureVector.

(** [engine.calculate_features(profile_a, profile_b)] on two rows of the
    lookup.  The first thing it evaluates is [_calculate_skill_match], which
    takes [set(profile_a.get("skills", []))] and then the same of
    [profile_b]: a [TypeError] on a cell without a list. *)
Definition features_of_rows (profiles_df : list Frames.FrameRow)
    (engine : Features.FeatureWeights) (row_a row_b : Frames.FrameRow)
    : result Features.FeatureVector :=
  if Frames.no_skills_list row_a || Frames.no_skills_list row_b
  then Raise TypeError
  else
    match Frames.series_in profiles_df row_a, Frames.series_in profiles_df row_b with
    | Some profile_a, Some profile_b =>
        Features.calculate_features list_of_set engine profile_a profile_b
    | _, _ => calculate_features_nan profiles_df engine row_a row_b
    end.

(** The loop over [pairs_df.iterrows()], appending to [results]. *)
Fixpoint batch_loop (profiles_df : list Frames.FrameRow)
    (engine : Features.FeatureWeights)
    (profiles_dict : gmap string Frames.FrameRow) (pairs : list PairKey)
    (results : list BatchRow) : result (list BatchRow) :=
  match pairs with
  | [] => Ok results
  | row :: rest =>
      match profiles_dict !! profile_a_id row, profiles_dict !! profile_b_id row with
      | Some profile_a, Some profile_b =>
          features ← features_of_rows profiles_df engine profile_a profile_b;
          batch_loop profiles_df engine profiles_dict rest
            (results ++ [mkBatchRow features (pair_id row)
                           (profile_a_id row) (profile_b_id row)])
      | _, _ => batch_loop profiles_df engine profiles_dict rest results
      end
  end.

Definition calculate_batch_features (pairs_df : list PairKey)
    (profiles_df : list Frames.FrameRow) (config : option Features.Config)
    : result (list BatchRow) :=
  let engine := Features.__init__ config in
  profiles_dict ← Frames.to_dict_index profiles_df;
  batch_loop profiles_df engine profiles_dict pairs_df [].

End Runtime.

End FeaturesBatch.

(** ** [batch_recommend] of [connection_recommender.py] *)

Module RecommenderBatch.

Import Recommender.

(** The dict from user id to recommendations; a user without any is left
    out. *)
Definition batch_recommend (self : ConnectionRecommender)
    (user_ids : list string) (top_n : nat) (strategy : string)
    : gmap string (list Recommendation) :=
  foldl
    (λ recommendations user_id,
       let recs := recommend_for_user self user_id top_n 40.0 strategy in
       if (len recs >? 0)%Z then <[user_id := recs]> recommendations
       else recommendations)
    ∅ user_ids.

End RecommenderBatch.

(** ** [batch_items] of [helpers.py] *)

Module HelpersMore.

(** [range(0, stop, step)] for a positive [step]. *)
Definition range_step (stop step : nat) : list nat :=
  (λ k, k * step)%nat <$> seq 0 ((stop + step - 1) / step)%nat.

(** [items[i:i + n]] *)
Definition slice {A} (items : list A) (i n : nat) : list A :=
  take n (drop i items).

Definition batch_items {A} (items : list A) (batch_size : Z)
    : result (list (list A)) :=
  if (batch_size =? 0)%Z then Raise ValueError
  else if (batch_size <? 0)%Z then Ok []
  else
    let n := Z.to_nat batch_size in
    Ok ((λ i, slice items i n) <$> range_step (length items) n).

End HelpersMore.

(** ** [src/data/processors.py]: experience and seniority inference *)

Module Processors.

Definition _estimate_experience (profile : Profile) : Z :=
  let experience := get (experience profile) [] in
  if bool_decide (experience = []) then 0%Z
  else Z.min (len experience * 2) 30.

Definition executive_words : list string :=
  ["vp"; "cto"; "ceo"; "cfo"; "chief"; "head of"].
Definition senior_words : list string :=
  ["senior"; "lead"; "principal"; "staff"].
Definition entry_words : list string :=
  ["junior"; "associate"; "entry"].

Definition _infer_seniority (profile : Profile) : string :=
  let role := lower (get_or_empty (current_role profile)) in
  let years := _estimate_experience profile in
  if existsb (λ word, contains word role) executive_words then "executive"
  else if existsb (λ word, contains word role) senior_words then "senior"
  else if existsb (λ word, contains word role) entry_words then "entry"
  else if (years >=? 15)%Z then "executive"
  else if (years >=? 8)%Z then "senior"
  else if (years >=? 3)%Z then "mid"
  else "entry".

End Processors.

(** ** [model-api/app.py]: the component scores *)

Module ModelApiScores.

Import PyText.

(** A profile of the request body: the keys the scoring code reads, [None]
    for a key the dict does not have. *)
Record ApiProfile : Type := mkApiProfile {
  years_experience : option Z;
  connections : option Z;
  company : option string;
  skills : option (list string);
  job_category : option string;
  needs : option (list string);
  can_offer : option (list string);
  university : option string;
  seniority_level : option string;
  industry : option string;
  location : option string;
  engagement_quality_score : option Q;
  rising_star_score : option Q;
  undervalued_score : option Q;
  headline : option string;
  about : option string;
  red_flag_score : option Q
}.

Definition PRESTIGIOUS : list string :=
  ["google"; "meta"; "facebook"; "amazon"; "apple"; "microsoft";
   "netflix"; "tesla"; "uber"; "airbnb"; "stripe"; "linkedin";
   "nvidia"; "adobe"; "salesforce"; "oracle"; "ibm"].

Definition SENIORITY_MAP : list (string * Z) :=
  [("entry", 0%Z); ("mid", 1%Z); ("senior", 2%Z); ("executive", 3%Z)].

Definition RELATED_ROLES : list (string * list string) :=
  [("data_science", ["data_analytics"; "data_engineering"; "software_dev"; "product"]);
   ("data_analytics", ["data_science"; "data_engineering"; "product"]);
   ("software_dev", ["data_engineering"; "data_science"; "product"]);
   ("other", [])].

(** The dict [categories] of [infer_job_category], in its order. *)
Definition categories : list (string * list string) :=
  [("data_science", ["data scientist"; "machine learning"; "ml engineer"; "ai";
                     "data science"]);
   ("data_analytics", ["data analyst"; "business intelligence"; "bi analyst";
                       "analytics"]);
   ("data_engineering", ["data engineer"; "etl"; "pipeline"; "spark engineer"]);
   ("software_dev", ["software engineer"; "developer"; "sde"; "programmer";
                     "full stack"]);
   ("product", ["product manager"; "pm"; "product owner"]);
   ("design", ["designer"; "ux"; "ui"]);
   ("executive", ["ceo"; "cto"; "director"; "vp"])].

(** The loop over [categories.items()]. *)
Fixpoint first_category (text : string) (items : list (string * list string))
    : string :=
  match items with
  | [] => "other"
  | (category, keywords) :: rest =>
      if existsb (λ kw, contains kw text) keywords then category
      else first_category text rest
  end.

Definition infer_job_category (headline about : string) : string :=
  let text := lower (headline +:+ " " +:+ about) in
  first_category text categories.

Definition infer_seniority (title : string) (years_exp : Z) : string :=
  let title_lower := lower title in
  if existsb (λ word, contains word title_lower)
       ["ceo"; "cto"; "cfo"; "vp"; "director"; "head of"] then "executive"
  else if existsb (λ word, contains word title_lower)
            ["senior"; "lead"; "principal"; "staff"] then "senior"
  else if existsb (λ word, contains word title_lower)
            ["junior"; "associate"; "intern"]
          || (years_exp <? 2)%Z then "entry"
  else "mid".

(** The dict [scores]. *)
Record Scores : Type := mkScores {
  mentorship_score : Z;
  network_score : Z;
  skill_learning_score : Z;
  role_synergy_score : Z;
  goal_alignment_score : Z;
  alumni_score : Z;
  career_score : Z;
  industry_score : Z;
  geographic_score : Z;
  engagement_score : Q;
  rising_star_score_calc : Q
}.

(** [int(x)]: truncation towards zero. *)
Definition int_of (x : Q) : Z := Z.quot (Qnum x) (Z.pos (Qden x)).

(** [set([s.lower() for s in items])] *)
Definition lower_set (items : list string) : gset string :=
  list_to_set (lower <$> items).

(** [calculate_scores].  The quotient of the goal-alignment score is taken
    exactly; binary floating point can land just below a whole number, which
    [int] then rounds down by one. *)
Definition calculate_scores (user target : ApiProfile) : Scores :=
  (* 1. Mentorship *)
  let exp_gap :=
    (get (years_experience target) 0 - get (years_experience user) 0)%Z in
  let mentorship :=
    if (3 <=? exp_gap)%Z && (exp_gap <=? 10)%Z then 100%Z
    else if (exp_gap >? 10)%Z then 70%Z
    else if (exp_gap >? 0)%Z then 60%Z
    else 20%Z in
  (* 2. Network *)
  let conn := get (connections target) 0%Z in
  let network :=
    if (conn >=? 5000)%Z then 100%Z
    else if (conn >=? 2000)%Z then 85%Z
    else if (conn >=? 1000)%Z then 70%Z
    else if (conn >=? 500)%Z then 55%Z
    else 40%Z in
  let company := lower (get_or_empty (company target)) in
  let network :=
    if existsb (λ p, contains p company) PRESTIGIOUS
    then Z.min (network + 15) 100 else network in
  (* 3. Skill learning *)
  let user_skills := lower_set (get (skills user) []) in
  let target_skills := lower_set (get (skills target) []) in
  let new_skills := Z.of_nat (size (target_skills ∖ user_skills)) in
  let skill_learning :=
    if (new_skills >=? 5)%Z then 70%Z
    else if (new_skills >=? 3)%Z then 50%Z
    else 40%Z in
  (* 4. Role synergy *)
  let ur := get (job_category user) "other" in
  let tr := get (job_category target) "other" in
  let role_synergy :=
    if bool_decide (ur = tr) then 100%Z
    else if bool_decide (tr ∈ Features.dict_get RELATED_ROLES ur []) then 70%Z
    else 40%Z in
  (* 5. Goal alignment *)
  let user_needs := lower_set (get (needs user) []) in
  let target_offers := lower_set (get (can_offer target) []) in
  let goal_alignment :=
    if negb (bool_decide (user_needs = ∅))
       && negb (bool_decide (target_offers = ∅)) then
      let overlap := user_needs ∩ target_offers in
      int_of (Features.of_nat (size overlap) / Features.of_nat (size user_needs)
              * 100)
    else 50%Z in
  (* 6. Alumni *)
  let user_uni := lower (get_or_empty (university user)) in
  let target_uni := lower (get_or_empty (university target)) in
  let alumni :=
    if negb (bool_decide (user_uni = EmptyString))
       && negb (bool_decide (target_uni = EmptyString))
       && (contains user_uni target_uni || contains target_uni user_uni)
    then 100%Z else 0%Z in
  (* 7. Career *)
  let sen_scores :=
    [("entry", 30%Z); ("mid", 50%Z); ("senior", 75%Z); ("executive", 95%Z)] in
  let career :=
    Features.dict_get sen_scores (get (seniority_level target) "entry") 30%Z in
  (* 8. Industry *)
  let industry_points :=
    if bool_decide (lower (get_or_empty (industry user))
                    = lower (get_or_empty (industry target)))
    then 100%Z else 30%Z in
  (* 9. Geographic *)
  let user_loc := split_on "," (get_or_empty (location user)) in
  let target_loc := split_on "," (get_or_empty (location target)) in
  let geographic :=
    if (len user_loc >=? 1)%Z && (len target_loc >=? 1)%Z then
      if bool_decide (lower (strip (hd EmptyString user_loc))
                      = lower (strip (hd EmptyString target_loc))) then 100%Z
      else if (len user_loc >? 1)%Z && (len target_loc >? 1)%Z
              && bool_decide (lower (strip (last_item user_loc))
                              = lower (strip (last_item target_loc))) then 70%Z
      else 40%Z
    else 50%Z in
  (* 10. Engagement *)
  let engagement := get (engagement_quality_score target) 50%Q in
  (* 11. Rising star *)
  let rising := get (rising_star_score target) 30%Q in
  let hidden := get (undervalued_score target) 30%Q in
  {| mentorship_score := mentorship;
     network_score := network;
     skill_learning_score := skill_learning;
     role_synergy_score := role_synergy;
     goal_alignment_score := goal_alignment;
     alumni_score := alumni;
     career_score := career;
     industry_score := industry_points;
     geographic_score := geographic;
     engagement_score := engagement;
     rising_star_score_calc := ((rising + hidden) / 2)%Q |}.

Definition set_job_category (value : string) (p : ApiProfile) : ApiProfile :=
  {| years_experience := years_experience p; connections := connections p;
     company := company p; skills := skills p; job_category := Some value;
     needs := needs p; can_offer := can_offer p; university := university p;
     seniority_level := seniority_level p; industry := industry p;
     location := location p;
     engagement_quality_score := engagement_quality_score p;
     rising_star_score := rising_star_score p;
     undervalued_score := undervalued_score p; headline := headline p;
     about := about p; red_flag_score := red_flag_score p |}.

Definition set_seniority_level (value : string) (p : ApiProfile) : ApiProfile :=
  {| years_experience := years_experience p; connections := connections p;
     company := company p; skills := skills p; job_category := job_category p;
     needs := needs p; can_offer := can_offer p; university := university p;
     seniority_level := Some value; industry := industry p;
     location := location p;
     engagement_quality_score := engagement_quality_score p;
     rising_star_score := rising_star_score p;
     undervalued_score := undervalued_score p; headline := headline p;
     about := about p; red_flag_score := red_flag_score p |}.

(** The first part of [predict_compatibility]: the keys it writes into the
    two profile dicts when they are missing. *)
Definition infer_missing_fields (user_profile target_profile : ApiProfile)
    : ApiProfile * ApiProfile :=
  let user_profile :=
    match job_category user_profile with
    | Some _ => user_profile
    | None =>
        set_job_category
          (infer_job_category (get_or_empty (headline user_profile))
                              (get_or_empty (about user_profile)))
          user_profile
    end in
  let target_profile :=
    match job_category target_profile with
    | Some _ => target_profile
    | None =>
        set_job_category
          (infer_job_category (get_or_empty (headline target_profile))
                              (get_or_empty (about target_profile)))
          target_profile
    end in
  let target_profile :=
    match seniority_level target_profile with
    | Some _ => target_profile
    | None =>
        set_seniority_level
          (infer_seniority (get_or_empty (headline target_profile))
                           (get (years_experience target_profile) 0%Z))
          target_profile
    end in
  (user_profile, target_profile).

(** The [breakdown] key of the response of [predict_compatibility]. *)
Definition breakdown (user_profile target_profile : ApiProfile) : Scores :=
  let '(user_profile, target_profile) :=
    infer_missing_fields user_profile target_profile in
  calculate_scores user_profile target_profile.

End ModelApiScores.

(** ** [src/api/main.py]: the scoring endpoints *)

Module ApiMain.

(** [CompatibilityRequest] of [schemas.py]. *)
Record CompatibilityRequest : Type := mkCompatibilityRequest {
  skill_match_score : Q;
  skill_complementarity_score : Q;
  network_value_a_to_b : Q;
  network_value_b_to_a : Q;
  career_alignment_score : Q;
  experience_gap : Z;
  industry_match : Q;
  geographic_score : Q;
  seniority_match : Q
}.

(** The one-row frame [_prepare_features] returns: the nine request columns
    and the engineered ones. *)
Record FeatureRow : Type := mkFeatureRow {
  request_columns : CompatibilityRequest;
  network_value_avg : Q;
  network_value_diff : Q;
  skill_total : Q;
  skill_balance : Q;
  exp_gap_squared : Z;
  is_mentorship_gap : Z;
  is_peer : Z;
  skill_x_network : Q;
  career_x_industry : Q
}.

(** [.astype(int)] on a boolean column *)
Definition astype_int (b : bool) : Z := if b then 1%Z else 0%Z.

(** [column ** 2] on the [experience_gap] column.  The frame stores a gap
    that fits as int64, and the square of an int64 column wraps around;
    a gap from [2^63] on is stored as uint64, whose square wraps likewise,
    and one that fits neither stays a Python integer, squared exactly. *)
Definition int64_wrap (z : Z) : Z := ((z + 2 ^ 63) mod 2 ^ 64 - 2 ^ 63)%Z.

Definition column_square (gap : Z) : Z :=
  if (- 2 ^ 63 <=? gap)%Z && (gap <? 2 ^ 63)%Z then int64_wrap (gap ^ 2)
  else if (2 ^ 63 <=? gap)%Z && (gap <? 2 ^ 64)%Z then (gap ^ 2 mod 2 ^ 64)%Z
  else (gap ^ 2)%Z.

Definition _prepare_features (request : CompatibilityRequest) : FeatureRow :=
  let network_value_avg :=
    ((network_value_a_to_b request + network_value_b_to_a request) / 2)%Q in
  {| request_columns := request;
     network_value_avg := network_value_avg;
     network_value_diff :=
       Qabs (network_value_a_to_b request - network_value_b_to_a request);
     skill_total :=
       (skill_match_score request + skill_complementarity_score request)%Q;
     skill_balance :=
       (skill_match_score request * skill_complementarity_score request / 100)%Q;
     exp_gap_squared := column_square (experience_gap request);
     is_mentorship_gap :=
       astype_int ((experience_gap request >=? 3)%Z
                   && (experience_gap request <=? 7)%Z);
     is_peer := astype_int (experience_gap request <=? 2)%Z;
     skill_x_network :=
       (skill_complementarity_score request * network_value_avg / 100)%Q;
     career_x_industry :=
       (career_alignment_score request * industry_match request / 100)%Q |}.

Definition _get_recommendation (score : Q) : string :=
  if geb score 80 then "Highly Recommended - Excellent mutual benefit potential"
  else if geb score 60 then "Recommended - Good compatibility"
  else if geb score 40 then "Consider - Moderate compatibility"
  else "Not Recommended - Limited mutual benefit".

Definition _generate_explanation (request : CompatibilityRequest) (score : Q)
    : string :=
  let explanations : list string := [] in
  let explanations :=
    if gtb (skill_complementarity_score request) 70
    then (explanations ++ ["Strong skill complementarity"])%list
    else explanations in
  let explanations :=
    if gtb (career_alignment_score request) 70
    then (explanations ++ ["Good career stage alignment"])%list
    else explanations in
  let explanations :=
    if gtb (network_value_a_to_b request) 60
       || gtb (network_value_b_to_a request) 60
    then (explanations ++ ["Valuable network connections"])%list
    else explanations in
  let explanations :=
    if gtb (industry_match request) 80
    then (explanations ++ ["Same industry"])%list else explanations in
  let explanations :=
    if gtb (geographic_score request) 80
    then (explanations ++ ["Geographic proximity"])%list else explanations in
  let explanations :=
    if bool_decide (explanations = [])
    then (explanations ++ ["Limited mutual benefit factors"])%list
    else explanations in
  join " | " explanations.

(** The body of a successful response. *)
Record CompatibilityResponse : Type := mkCompatibilityResponse {
  compatibility_score : Q;
  recommendation : string;
  explanation : string
}.

(** What an endpoint does: it raises [HTTPException] with a status code or
    returns its response. *)
Inductive Http (A : Type) : Type :=
| HTTPException (status_code : Z)
| Response (body : A).
Arguments HTTPException {A} status_code.
Arguments Response {A} body.

(** [score = max(0, min(100, score))] *)
Definition clip (score : Q) : Q := Qmax 0 (Qmin 100 score).

(** [calculate_compatibility].  [model] is the global of that name: [None]
    until a pipeline has been loaded, then its [predict] on one row, which
    may raise. *)
Definition calculate_compatibility (model : option (FeatureRow → result Q))
    (request : CompatibilityRequest) : Http CompatibilityResponse :=
  match model with
  | None => HTTPException 503
  | Some predict =>
      let features := _prepare_features request in
      match predict features with
      | Raise _ => HTTPException 500
      | Ok score =>
          let score := clip score in
          Response {| compatibility_score := round score 2;
                      recommendation := _get_recommendation score;
                      explanation := _generate_explanation request score |}
      end
  end.

(** [BatchScoreItem] and [BatchScoreResultItem]. *)
Record BatchScoreItem : Type := mkBatchScoreItem {
  pair_id : string;
  item_features : CompatibilityRequest
}.

Record BatchScoreResultItem : Type := mkBatchScoreResultItem {
  result_pair_id : string;
  result_compatibility_score : Q;
  result_recommendation : string
}.

(** The loop of [batch_score], inside its [try]. *)
Fixpoint batch_score_loop (predict : FeatureRow → result Q)
    (pairs : list BatchScoreItem) (results : list BatchScoreResultItem)
    : result (list BatchScoreResultItem) :=
  match pairs with
  | [] => Ok results
  | item :: rest =>
      let features := _prepare_features (item_features item) in
      score ← predict features;
      let score := clip score in
      batch_score_loop predict rest
        (results ++ [ {| result_pair_id := pair_id item;
                         result_compatibility_score := round score 2;
                         result_recommendation := _get_recommendation score |} ])
  end.

Definition batch_score (model : option (FeatureRow → result Q))
    (pairs : list BatchScoreItem) : Http (list BatchScoreResultItem) :=
  match model with
  | None => HTTPException 503
  | Some predict =>
      match batch_score_loop predict pairs [] with
      | Raise _ => HTTPException 500
      | Ok results => Response results
      end
  end.

(** The field constraints of the request schema. *)
Definition valid_request (request : CompatibilityRequest) : Prop :=
  (0 <= skill_match_score request <= 100)%Q
  ∧ (0 <= skill_complementarity_score request <= 100)%Q
  ∧ (0 <= network_value_a_to_b request <= 100)%Q
  ∧ (0 <= network_value_b_to_a request <= 100)%Q
  ∧ (0 <= career_alignment_score request <= 100)%Q
  ∧ (0 ≤ experience_gap request)%Z
  ∧ (0 <= industry_match request <= 100)%Q
  ∧ (0 <= geographic_score request <= 100)%Q
  ∧ (0 <= seniority_match request <= 100)%Q.

End ApiMain.

(** ** More predicates and sample data *)

Module More.

(** Every rarity a map holds lies on the 0-100 scale. *)
Definition rarities_on_scale (rarity_map : gmap string Q) : Prop :=
  ∀ skill r, rarity_map !! skill = Some r → (0 <= r)%Q ∧ (r <= 100)%Q.

(** The number of jobs shorter than six months among the five most recent
    entries; an entry without [duration_months] counts as twelve months. *)
Definition short_recent_jobs (profile : Profile) : nat :=
  length (filter (λ job, (get (duration_months job) 12 < 6)%Z)
                 (take 5 (get (experience profile) []))).

(** The points the three boolean flags add to the red-flag score. *)
Definition flag_points (report : RedFlags.RedFlagReport) : Q :=
  ((if RedFlags.is_connection_collector report then 25 else 0)
   + (if RedFlags.is_job_hopper report then 20 else 0)
   + (if RedFlags.is_ghost_profile report then 30 else 0))%Q.

(** A profile with its [connections] key set. *)
Definition with_connections (count : Z) (profile : Profile) : Profile :=
  {| years_experience := years_experience profile;
     seniority_level := seniority_level profile;
     industry := industry profile;
     location := location profile;
     connections := Some count;
     skills := skills profile;
     needs := needs profile;
     can_offer := can_offer profile;
     remote_preference := remote_preference profile;
     current_role := current_role profile;
     current_company := current_company profile;
     headline := headline profile;
     about := about profile;
     experience := experience profile;
     education := education profile |}.

(** The skills of a profile as the set the engine builds from them. *)
Definition skill_set (profile : Profile) : gset string :=
  list_to_set (get (skills profile) []).

(** A pair of [pairs_df] both of whose ids are profile ids of the frame. *)
Definition both_known (profiles_df : list Frames.FrameRow)
    (row : FeaturesBatch.PairKey) : bool :=
  bool_decide (FeaturesBatch.profile_a_id row
                 ∈ Frames.profile_id <$> profiles_df)
  && bool_decide (FeaturesBatch.profile_b_id row
                    ∈ Frames.profile_id <$> profiles_df).

(** [row] is the output row of [pair]: the three ids of the pair and the
    features of the two rows of the frame that carry its profile ids. *)
Definition row_of (list_of_set : gset string → list string)
    (engine : Features.FeatureWeights) (profiles_df : list Frames.FrameRow)
    (row : FeaturesBatch.BatchRow) (pair : FeaturesBatch.PairKey) : Prop :=
  FeaturesBatch.row_pair_id row = FeaturesBatch.pair_id pair
  ∧ FeaturesBatch.row_profile_a_id row = FeaturesBatch.profile_a_id pair
  ∧ FeaturesBatch.row_profile_b_id row = FeaturesBatch.profile_b_id pair
  ∧ ∃ row_a row_b profile_a profile_b,
      row_a ∈ profiles_df ∧ row_b ∈ profiles_df
      ∧ Frames.profile_id row_a = FeaturesBatch.profile_a_id pair
      ∧ Frames.profile_id row_b = FeaturesBatch.profile_b_id pair
      ∧ Frames.series row_a = Some profile_a
      ∧ Frames.series row_b = Some profile_b
      ∧ Features.calculate_features list_of_set engine profile_a profile_b
        = Ok (FeaturesBatch.row_features row).

(** A pair of [pairs_df] both of whose ids are profile ids of the frame,
    one of them of a row whose [skills] cell holds no list. *)
Definition no_skills_pair (profiles_df : list Frames.FrameRow)
    (pair : FeaturesBatch.PairKey) : Prop :=
  ∃ row_a row_b,
    row_a ∈ profiles_df ∧ row_b ∈ profiles_df
    ∧ Frames.profile_id row_a = FeaturesBatch.profile_a_id pair
    ∧ Frames.profile_id row_b = FeaturesBatch.profile_b_id pair
    ∧ Frames.no_skills_list row_a || Frames.no_skills_list row_b = true.

(** A frame of two profiles without NaN, and two pairs, one of which names
    a profile the frame does not have. *)
Definition sample_frame : list Frames.FrameRow :=
  [ Frames.of_series "p1" Examples.analyst;
    Frames.of_series "p2" Examples.engineer ].

(** The same frame with the [skills] cell of the second profile empty. *)
Definition sample_nan_frame : list Frames.FrameRow :=
  [ Frames.of_series "p1" Examples.analyst;
    Frames.without_skills (Frames.of_series "p2" Examples.engineer) ].

Definition sample_pair_keys : list FeaturesBatch.PairKey :=
  [ FeaturesBatch.mkPairKey "pair_1" "p1" "p2";
    FeaturesBatch.mkPairKey "pair_2" "p1" "p9" ].

(** The report of a row of a frame without NaN. *)
Definition gem_report_of (detector : GemAnalysis.HiddenGemsDetector)
    (out : Frames.FrameRow * GemAnalysis.GemReport) (row : Frames.FrameRow)
    : Prop :=
  out.1 = row
  ∧ ∃ profile, Frames.series row = Some profile
               ∧ out.2 = GemAnalysis.analyze_profile detector profile.

Definition red_flag_report_of
    (out : Frames.FrameRow * RedFlags.RedFlagReport) (row : Frames.FrameRow)
    : Prop :=
  out.1 = row
  ∧ ∃ profile, Frames.series row = Some profile
               ∧ out.2 = RedFlags.analyze_profile profile.







(** An eligible pair record is returned, or the list is full and none of
    its rows scores below the record. *)
Definition returned_or_outranked (strategy : string) (user_id : string)
    (top_n : nat) (recommendations : list Recommender.Recommendation)
    (row : Recommender.PairRow) : Prop :=
  (∃ r, r ∈ recommendations
        ∧ Recommender.rec_pair r = Recommender.with_candidate user_id row)
  ∨ (length recommendations = top_n
     ∧ Forall (λ r, (Recommender._calculate_ranking_score row strategy
                     <= Recommender.ranking_score r)%Q) recommendations).

(** What [evaluate_connection] says about a recommended candidate [r] of
    [user_id]. *)
Definition evaluates_as (self : Recommender.ConnectionRecommender)
    (user_id : string) (r : Recommender.Recommendation) : Prop :=
  let candidate := Recommender.candidate_id (Recommender.rec_pair r) in
  match Recommender.rec_candidate r with
  | None =>
      Recommender.evaluate_connection self user_id candidate
      = Recommender.EvaluationError "Candidate profile not found"
  | Some info =>
      ∃ evaluation,
        Recommender.evaluate_connection self user_id candidate
        = Recommender.EvaluationOk evaluation
        ∧ Recommender.info_name (Recommender.candidate_info evaluation)
          = Recommender.candidate_name info
        ∧ Recommender.info_role (Recommender.candidate_info evaluation)
          = Recommender.candidate_role info
        ∧ Recommender.info_company (Recommender.candidate_info evaluation)
          = Recommender.candidate_company info
        ∧ Recommender.info_seniority (Recommender.candidate_info evaluation)
          = Recommender.candidate_seniority info
        ∧ Recommender.info_industry (Recommender.candidate_info evaluation)
          = Recommender.candidate_industry info
        ∧ (Recommender.filter_red_flags self = true →
           (Recommender.red_flag_threshold self <= 50)%Q →
           Recommender.has_red_flags (Recommender.red_flags evaluation) = false)
  end.

(** A request profile with only its [location] and [job_category] keys. *)
Definition api_profile (location job_category : option string)
    : ModelApiScores.ApiProfile :=
  {| ModelApiScores.years_experience := None;
     ModelApiScores.connections := None;
     ModelApiScores.company := None;
     ModelApiScores.skills := None;
     ModelApiScores.job_category := job_category;
     ModelApiScores.needs := None;
     ModelApiScores.can_offer := None;
     ModelApiScores.university := None;
     ModelApiScores.seniority_level := None;
     ModelApiScores.industry := None;
     ModelApiScores.location := location;
     ModelApiScores.engagement_quality_score := None;
     ModelApiScores.rising_star_score := None;
     ModelApiScores.undervalued_score := None;
     ModelApiScores.headline := None;
     ModelApiScores.about := None;
     ModelApiScores.red_flag_score := None |}.

(** [f] is at most [g] on the six features the aggregate score reads. *)
Definition features_le (f g : Features.BaseFeatures) : Prop :=
  (Features.skill_match_score f <= Features.skill_match_score g)%Q
  ∧ (Features.skill_complementarity_score f
     <= Features.skill_complementarity_score g)%Q
  ∧ (Features.network_value_a_to_b f <= Features.network_value_a_to_b g)%Q
  ∧ (Features.network_value_b_to_a f <= Features.network_value_b_to_a g)%Q
  ∧ (Features.career_alignment_score f <= Features.career_alignment_score g)%Q
  ∧ (Features.geographic_score f <= Features.geographic_score g)%Q.

(** Two feature dicts: the second is better on the six features and worse
    on the three others. *)
Definition modest_features : Features.BaseFeatures :=
  Features.mkBaseFeatures 20 30 40 50 60 2 100 30 100.

Definition better_features : Features.BaseFeatures :=
  Features.mkBaseFeatures 25 30 45 50 80 9 0 100 50.

(** The example request of the schema, and a model that answers 130 for
    every row. *)
Definition example_request : ApiMain.CompatibilityRequest :=
  ApiMain.mkCompatibilityRequest 75 85 65 70 80 5 90 60 70.

Definition eager_model (row : ApiMain.FeatureRow) : result Q := Ok 130%Q.

(** A response of the scoring endpoint is well formed: its score is the
    clipped prediction rounded to two decimals and lies on the scale, its
    recommendation is the one of the clipped prediction, and its explanation
    is not empty. *)
Definition response_of (prediction : Q) (request : ApiMain.CompatibilityRequest)
    (response : ApiMain.CompatibilityResponse) : Prop :=
  ApiMain.compatibility_score response = round (ApiMain.clip prediction) 2
  ∧ (0 <= ApiMain.compatibility_score response)%Q
  ∧ (ApiMain.compatibility_score response <= 100)%Q
  ∧ (Qabs (ApiMain.compatibility_score response - ApiMain.clip prediction)
     <= 5 / 1000)%Q
  ∧ ApiMain.recommendation response
    = ApiMain._get_recommendation (ApiMain.clip prediction)
  ∧ ApiMain.explanation response ≠ EmptyString.

(** A row of the batch response is the row of its item: the same pair id,
    and score and recommendation as the single-pair endpoint gives them. *)
Definition result_of (predict : ApiMain.FeatureRow → result Q)
    (row : ApiMain.BatchScoreResultItem) (item : ApiMain.BatchScoreItem)
    : Prop :=
  ApiMain.result_pair_id row = ApiMain.pair_id item
  ∧ ∃ prediction,
      predict (ApiMain._prepare_features (ApiMain.item_features item))
      = Ok prediction
      ∧ ApiMain.result_compatibility_score row
        = round (ApiMain.clip prediction) 2
      ∧ (0 <= ApiMain.result_compatibility_score row)%Q
      ∧ (ApiMain.result_compatibility_score row <= 100)%Q
      ∧ ApiMain.result_recommendation row
        = ApiMain._get_recommendation (ApiMain.clip prediction).

(** The prediction for an item raises. *)
Definition prediction_fails (predict : ApiMain.FeatureRow → result Q)
    (item : ApiMain.BatchScoreItem) : Prop :=
  ∃ e, predict (ApiMain._prepare_features (ApiMain.item_features item))
       = Raise e.

(** The seniority levels the feature engine knows. *)
Definition seniority_levels : list string :=
  ["entry"; "mid"; "senior"; "executive"].

(** A consultant with six thousand connections, and an intern. *)
Definition consultant : Profile :=
  {| years_experience := Some 12%Z;
     seniority_level := Some "senior"; industry := Some "Consulting";
     location := Some "Austin, TX";
     connections := Some 6000%Z; skills := Some ["Strategy"; "Growth"];
     needs := None; can_offer := None; remote_preference := None;
     current_role := Some "Consultant"; current_company := None;
     headline := None; about := None; experience := None; education := None |}.

Definition intern : Profile :=
  {| years_experience := Some 0%Z;
     seniority_level := Some "intern"; industry := Some "Consulting";
     location := None;
     connections := Some 40%Z; skills := Some ["Excel"];
     needs := None; can_offer := None; remote_preference := None;
     current_role := Some "Intern"; current_company := None;
     headline := None; about := None; experience := None; education := None |}.

End More.

(** * Properties *)

(** ** Numbers *)

Lemma geb_true (x y : Q) : geb x y = true ↔ (y <= x)%Q.
Proof. unfold geb. apply Qle_bool_iff. Qed.

Lemma leb_true (x y : Q) : leb x y = true ↔ (x <= y)%Q.
Proof. unfold leb. apply Qle_bool_iff. Qed.

Lemma gtb_true (x y : Q) : gtb x y = true ↔ (y < x)%Q.
Proof.
  unfold gtb. rewrite negb_true_iff, <- not_true_iff_false, Qle_bool_iff.
  split; [apply Qnot_le_lt | apply Qlt_not_le].
Qed.

Lemma ltb_true (x y : Q) : ltb x y = true ↔ (x < y)%Q.
Proof.
  unfold ltb. rewrite negb_true_iff, <- not_true_iff_false, Qle_bool_iff.
  split; [apply Qnot_le_lt | apply Qlt_not_le].
Qed.

Lemma gtb_false (x y : Q) : gtb x y = false ↔ (x <= y)%Q.
Proof. unfold gtb. rewrite negb_false_iff. apply Qle_bool_iff. Qed.

Lemma ltb_false (x y : Q) : ltb x y = false ↔ (y <= x)%Q.
Proof. unfold ltb. rewrite negb_false_iff. apply Qle_bool_iff. Qed.

Lemma geb_false (x y : Q) : geb x y = false ↔ (x < y)%Q.
Proof.
  unfold geb. rewrite <- not_true_iff_false, Qle_bool_iff.
  split; [apply Qnot_le_lt | apply Qlt_not_le].
Qed.

(** Case analysis on a comparison, leaving the order fact in the context. *)
Ltac case_cmp :=
  match goal with
  | |- context [gtb ?x ?y] =>
      let H := fresh "Hcmp" in
      destruct (gtb x y) eqn:H; [apply gtb_true in H | apply gtb_false in H]
  | |- context [ltb ?x ?y] =>
      let H := fresh "Hcmp" in
      destruct (ltb x y) eqn:H; [apply ltb_true in H | apply ltb_false in H]
  | |- context [geb ?x ?y] =>
      let H := fresh "Hcmp" in
      destruct (geb x y) eqn:H; [apply geb_true in H | apply geb_false in H]
  end.

Lemma Qmin_bounds (x y lo : Q) :
  (lo <= x)%Q → (lo <= y)%Q → (lo <= Qmin x y)%Q ∧ (Qmin x y <= y)%Q.
Proof.
  intros Hx Hy. split; [by apply Q.min_glb | apply Q.le_min_r].
Qed.

Lemma round_half_even_floor (x : Q) :
  (Qfloor x ≤ round_half_even x ≤ Qfloor x + 1)%Z.
Proof.
  unfold round_half_even.
  destruct (ltb _ _); [lia |].
  destruct (gtb _ _); [lia |].
  destruct (Z.even _); lia.
Qed.

Lemma round_half_even_nonneg (x : Q) : (0 <= x)%Q → (0 ≤ round_half_even x)%Z.
Proof.
  intros Hx. pose proof (round_half_even_floor x) as [Hlo _].
  apply (Qfloor_resp_le 0 x) in Hx. change (Qfloor 0) with 0%Z in Hx. lia.
Qed.

Lemma round_half_even_le (x : Q) (k : Z) :
  (x <= inject_Z k)%Q → (round_half_even x ≤ k)%Z.
Proof.
  intros Hx.
  pose proof (Qfloor_resp_le _ _ Hx) as Hfl. rewrite Qfloor_Z in Hfl.
  destruct (Z.eq_dec (Qfloor x) k) as [Heq | Hne].
  - unfold round_half_even.
    assert (Hr : (x - inject_Z (Qfloor x) <= 0)%Q) by (rewrite Heq; lra).
    destruct (ltb _ _) eqn:Hlt; [lia |].
    apply ltb_false in Hlt. lra.
  - pose proof (round_half_even_floor x). lia.
Qed.

Lemma scale_pos (ndigits : nat) : (0 < inject_Z (10 ^ Z.of_nat ndigits))%Q.
Proof.
  change 0%Q with (inject_Z 0). rewrite <- Zlt_Qlt.
  apply Z.pow_pos_nonneg; lia.
Qed.

Lemma round_nonneg (x : Q) (ndigits : nat) : (0 <= x)%Q → (0 <= round x ndigits)%Q.
Proof.
  intros Hx. unfold round.
  pose proof (scale_pos ndigits) as Hs.
  apply Qle_shift_div_l; [done |]. rewrite Qmult_0_l.
  change 0%Q with (inject_Z 0). rewrite <- Zle_Qle.
  apply round_half_even_nonneg. apply Qmult_le_0_compat; [done | lra].
Qed.

Lemma round_le (x : Q) (k : Z) (ndigits : nat) :
  (x <= inject_Z k)%Q → (round x ndigits <= inject_Z k)%Q.
Proof.
  intros Hx. unfold round.
  pose proof (scale_pos ndigits) as Hs.
  apply Qle_shift_div_r; [done |].
  rewrite <- inject_Z_mult, <- Zle_Qle.
  apply round_half_even_le. rewrite inject_Z_mult.
  apply Qmult_le_compat_r; [done | lra].
Qed.

Lemma round_half_even_mono (x y : Q) :
  (x <= y)%Q → (round_half_even x ≤ round_half_even y)%Z.
Proof.
  intros Hxy.
  pose proof (Qfloor_resp_le _ _ Hxy) as Hfloor.
  pose proof (round_half_even_floor x) as [_ Hx].
  pose proof (round_half_even_floor y) as [Hy _].
  destruct (Z.eq_dec (Qfloor x) (Qfloor y)) as [Heq | Hne]; [| lia].
  clear Hx Hy Hfloor. unfold round_half_even. rewrite Heq.
  assert (Hr : (x - inject_Z (Qfloor y) <= y - inject_Z (Qfloor y))%Q) by lra.
  set (rx := (x - inject_Z (Qfloor y))%Q) in *.
  set (ry := (y - inject_Z (Qfloor y))%Q) in *.
  destruct (ltb rx (1 # 2)) eqn:Hx1; destruct (ltb ry (1 # 2)) eqn:Hy1;
    destruct (gtb rx (1 # 2)) eqn:Hx2; destruct (gtb ry (1 # 2)) eqn:Hy2;
    rewrite ?ltb_true, ?ltb_false, ?gtb_true, ?gtb_false in *;
    try lia; try lra; destruct (Z.even (Qfloor y)); try lia; lra.
Qed.

Lemma round_mono (x y : Q) (ndigits : nat) :
  (x <= y)%Q → (round x ndigits <= round y ndigits)%Q.
Proof.
  intros Hxy. unfold round.
  pose proof (scale_pos ndigits) as Hs.
  set (scale := inject_Z (10 ^ Z.of_nat ndigits)) in *.
  apply Qmult_le_compat_r; [| apply Qlt_le_weak, Qinv_lt_0_compat, Hs].
  rewrite <- Zle_Qle. apply round_half_even_mono.
  apply Qmult_le_compat_r; [done | lra].
Qed.

(** ** The feature engine *)

Section FeatureEngine.

Import Helpers Features Spec.

Lemma safe_divide_ok (n d dflt : Q) :
  safe_divide n d dflt = Ok (if Qeq_bool d 0 then dflt else (n / d)%Q).
Proof.
  unfold safe_divide, truediv. by destruct (Qeq_bool d 0).
Qed.

Lemma of_nat_nonneg (n : nat) : (0 <= of_nat n)%Q.
Proof.
  unfold of_nat. change 0%Q with (inject_Z 0). rewrite <- Zle_Qle. lia.
Qed.

Lemma of_nat_le (n m : nat) : (n ≤ m)%nat → (of_nat n <= of_nat m)%Q.
Proof. intros H. unfold of_nat. rewrite <- Zle_Qle. lia. Qed.

Lemma of_nat_eq_0 (n : nat) : Qeq_bool (of_nat n) 0 = true → n = 0%nat.
Proof.
  intros H. apply Qeq_bool_eq in H. unfold of_nat, Qeq in H. simpl in H. lia.
Qed.

(** A percentage of a part in a whole lies on the scale. *)
Lemma percentage_in_range (part whole : nat) :
  (part ≤ whole)%nat →
  in_range (if Qeq_bool (of_nat whole) 0 then 0 else of_nat part * 100 / of_nat whole)%Q.
Proof.
  intros Hle. destruct (Qeq_bool _ _) eqn:Hz.
  - split; lra.
  - assert (Hpos : (0 < of_nat whole)%Q).
    { pose proof (of_nat_nonneg whole) as Hn.
      apply Qle_lt_or_eq in Hn as [Hn | Hn]; [done |].
      symmetry in Hn. apply Qeq_eq_bool in Hn. congruence. }
    pose proof (of_nat_nonneg part). pose proof (of_nat_le _ _ Hle).
    split.
    + apply Qle_shift_div_l; [done | lra].
    + apply Qle_shift_div_r; [done | lra].
Qed.

Lemma intersection_within_union (X Y : gset string) : X ∩ Y ⊆ X ∪ Y.
Proof.
  transitivity X; [apply intersection_subseteq_l | apply union_subseteq_l].
Qed.

Lemma skill_match_in_range (a b : Profile) :
  ∃ v, _calculate_skill_match a b = Ok v ∧ in_range v.
Proof.
  unfold _calculate_skill_match.
  destruct (_ || _).
  - eexists; split; [done | split; lra].
  - rewrite safe_divide_ok. eexists; split; [done |].
    apply percentage_in_range. apply subseteq_size, intersection_within_union.
Qed.

Lemma skill_complementarity_in_range (a b : Profile) :
  ∃ v, _calculate_skill_complementarity a b = Ok v ∧ in_range v.
Proof.
  unfold _calculate_skill_complementarity.
  rewrite safe_divide_ok. eexists; split; [done |].
  apply percentage_in_range.
  apply Nat.add_le_mono;
    (destruct (bool_decide _);
       [lia | apply subseteq_size, intersection_subseteq_l]).
Qed.

Lemma calculate_similarity_unit (text1 text2 : string) :
  ∃ v, calculate_similarity text1 text2 = Ok v ∧ (0 <= v)%Q ∧ (v <= 1)%Q.
Proof.
  unfold calculate_similarity.
  destruct (_ || _); [eexists; split; [done | split; lra] |].
  set (inter := size (_ ∩ _)). set (union := size (_ ∪ _)).
  assert (Hle : (inter ≤ union)%nat)
    by apply subseteq_size, intersection_within_union.
  destruct (Nat.eqb_spec union 0) as [Hz | Hnz];
    [eexists; split; [done | split; lra] |].
  unfold truediv. fold (of_nat inter) (of_nat union).
  destruct (Qeq_bool (of_nat union) 0) eqn:Hq;
    [apply of_nat_eq_0 in Hq; lia |].
  eexists; split; [done |].
  assert (Hpos : (0 < of_nat union)%Q).
  { pose proof (of_nat_nonneg union) as Hn.
    apply Qle_lt_or_eq in Hn as [Hn | Hn]; [done |].
    symmetry in Hn. apply Qeq_eq_bool in Hn. congruence. }
  pose proof (of_nat_nonneg inter). pose proof (of_nat_le _ _ Hle).
  split.
  - apply Qle_shift_div_l; [done | lra].
  - apply Qle_shift_div_r; [done | lra].
Qed.

Lemma industry_match_in_range (a b : Profile) :
  ∃ v, _calculate_industry_match a b = Ok v ∧ in_range v.
Proof.
  unfold _calculate_industry_match.
  destruct (_ || _); [eexists; split; [done | split; lra] |].
  case_bool_decide; [eexists; split; [done | split; lra] |].
  destruct (calculate_similarity_unit
              (lower (get_or_empty (industry a)))
              (lower (get_or_empty (industry b)))) as (v & -> & Hv0 & Hv1).
  simpl. eexists; split; [done | split; lra].
Qed.

Lemma seniority_bonus_bounds (seniority : string) :
  let bonus :=
    dict_get [("entry", 0%Q); ("mid", 10%Q); ("senior", 20%Q); ("executive", 30%Q)]
             seniority 10%Q in
  (0 <= bonus)%Q ∧ (bonus <= 30)%Q.
Proof.
  simpl. repeat case_bool_decide; split; lra.
Qed.

Lemma network_value_in_range (a b : Profile) :
  ∃ v, _calculate_network_value a b = Ok v ∧ (valid_profile a → in_range v).
Proof.
  unfold _calculate_network_value.
  destruct (industry_match_in_range a b) as (im & -> & Him0 & Him1). simpl.
  eexists; split; [done |]. intros Hconn.
  pose proof (seniority_bonus_bounds (get (seniority_level a) "mid")) as [Hb0 Hb1].
  simpl in Hb0, Hb1.
  assert (Hc : (0 <= Qmin (of_Z (get (connections a) 0%Z) / 1000 * 50) 50)%Q).
  { apply Q.min_glb; [| lra].
    unfold valid_profile in Hconn. unfold of_Z.
    assert (0 <= inject_Z (get (connections a) 0%Z))%Q
      by (change 0%Q with (inject_Z 0); by rewrite <- Zle_Qle).
    apply Qmult_le_0_compat; [| lra].
    apply Qle_shift_div_l; lra. }
  split; [| apply Q.le_min_r].
  apply Q.min_glb; lra.
Qed.

Lemma career_alignment_in_range (a b : Profile) :
  in_range (_calculate_career_alignment a b).
Proof.
  unfold _calculate_career_alignment.
  repeat (match goal with |- context [if ?c then _ else _] => destruct c end);
    split; lra.
Qed.

Lemma geographic_score_in_range (a b : Profile) :
  in_range (_calculate_geographic_score a b).
Proof.
  unfold _calculate_geographic_score.
  repeat (match goal with |- context [if ?c then _ else _] => destruct c end);
    split; lra.
Qed.

Lemma index_from_raises (i : nat) (x : string) (l : list string) :
  (∃ k, index_from i x l = Ok k) ∨ index_from i x l = Raise ValueError.
Proof.
  revert i. induction l as [| y l IH]; intros i; simpl; [by right |].
  case_bool_decide; [left; by eexists | apply IH].
Qed.

Lemma seniority_match_in_range (a b : Profile) :
  ∃ v, _calculate_seniority_match a b = Ok v ∧ in_range v.
Proof.
  unfold _calculate_seniority_match, index.
  set (levels := ["entry"; "mid"; "senior"; "executive"]).
  destruct (index_from_raises 0 (get (seniority_level a) "mid") levels)
    as [[ka ->] | ->];
    destruct (index_from_raises 0 (get (seniority_level b) "mid") levels)
      as [[kb ->] | ->];
    simpl; try (eexists; split; [done | split; lra]).
  repeat (match goal with |- context [if ?c then _ else _] => destruct c end);
    simpl; eexists; (split; [done | split; lra]).
Qed.

Lemma overall_compatibility_in_range (self : FeatureWeights) (f : BaseFeatures) :
  weights_nonneg self →
  in_range (skill_match_score f) →
  in_range (skill_complementarity_score f) →
  in_range (network_value_a_to_b f) →
  in_range (network_value_b_to_a f) →
  in_range (career_alignment_score f) →
  in_range (geographic_score f) →
  in_range (_calculate_overall_compatibility self f).
Proof.
  intros (Hw1 & Hw2 & Hw3 & Hw4) [? ?] [? ?] [? ?] [? ?] [? ?] [? ?].
  unfold _calculate_overall_compatibility.
  split; [| eapply Qle_trans; [apply Q.le_min_r | lra]].
  apply Q.min_glb; [| lra].
  apply round_nonneg.
  assert (0 <= (skill_match_score f + skill_complementarity_score f) / 2
               * w_skill_complementarity self)%Q
    by (apply Qmult_le_0_compat; [apply Qle_shift_div_l; lra | done]).
  assert (0 <= (network_value_a_to_b f + network_value_b_to_a f) / 2
               * w_network_value self)%Q
    by (apply Qmult_le_0_compat; [apply Qle_shift_div_l; lra | done]).
  assert (0 <= career_alignment_score f * w_career_alignment self)%Q
    by (apply Qmult_le_0_compat; lra).
  assert (0 <= geographic_score f * w_geographic_proximity self)%Q
    by (apply Qmult_le_0_compat; lra).
  lra.
Qed.

Lemma default_weights_nonneg : weights_nonneg (__init__ None).
Proof. unfold weights_nonneg; simpl. repeat split; lra. Qed.

Lemma job_opportunity_in_range (f : BaseFeatures) :
  in_range (network_value_a_to_b f) → in_range (network_value_b_to_a f) →
  in_range (_predict_job_opportunity f).
Proof.
  intros [? ?] [? ?]. unfold _predict_job_opportunity.
  split; [| apply Q.le_min_l].
  assert (0 <= (network_value_a_to_b f + network_value_b_to_a f) / 2)%Q
    by (apply Qle_shift_div_l; lra).
  apply Q.min_glb; [lra |].
  repeat (match goal with |- context [if ?c then _ else _] => destruct c end); lra.
Qed.

Lemma mentorship_value_in_range (f : BaseFeatures) :
  in_range (network_value_a_to_b f) → in_range (network_value_b_to_a f) →
  in_range (_predict_mentorship_value f).
Proof.
  intros [? ?] [? ?]. unfold _predict_mentorship_value.
  split; [| apply Q.le_min_l].
  assert (0 <= (network_value_a_to_b f + network_value_b_to_a f) / 2)%Q
    by (apply Qle_shift_div_l; lra).
  apply Q.min_glb; [lra |].
  repeat (match goal with |- context [if ?c then _ else _] => destruct c end); lra.
Qed.

Lemma collaboration_in_range (f : BaseFeatures) :
  in_range (_predict_collaboration f).
Proof.
  unfold _predict_collaboration.
  split; [| apply Q.le_min_l].
  apply Q.min_glb; [lra |].
  repeat (match goal with |- context [if ?c then _ else _] => destruct c end); lra.
Qed.

End FeatureEngine.

(** *** The engine returns, whatever is missing *)

Section FeatureEngineTotal.

Import Helpers Features Spec.

Variable list_of_set : gset string → list string.

Lemma calculate_features_ok (self : FeatureWeights) (a b : Profile) :
  ∃ sm sc nab nba im sen,
    _calculate_skill_match a b = Ok sm
    ∧ _calculate_skill_complementarity a b = Ok sc
    ∧ _calculate_network_value a b = Ok nab
    ∧ _calculate_network_value b a = Ok nba
    ∧ _calculate_industry_match a b = Ok im
    ∧ _calculate_seniority_match a b = Ok sen
    ∧ in_range sm ∧ in_range sc
    ∧ (valid_profile a → in_range nab) ∧ (valid_profile b → in_range nba)
    ∧ in_range im ∧ in_range sen
    ∧ ∃ fv, calculate_features list_of_set self a b = Ok fv
            ∧ base fv = mkBaseFeatures sm sc nab nba
                          (_calculate_career_alignment a b)
                          (_calculate_experience_gap a b) im
                          (_calculate_geographic_score a b) sen
            ∧ compatibility_score fv
              = _calculate_overall_compatibility self (base fv)
            ∧ predicted_job_opportunity_score fv
              = _predict_job_opportunity (base fv)
            ∧ predicted_mentorship_value fv
              = _predict_mentorship_value (base fv)
            ∧ predicted_collaboration_potential fv
              = _predict_collaboration (base fv).
Proof.
  destruct (skill_match_in_range a b) as (sm & Hsm & ?).
  destruct (skill_complementarity_in_range a b) as (sc & Hsc & ?).
  destruct (network_value_in_range a b) as (nab & Hnab & ?).
  destruct (network_value_in_range b a) as (nba & Hnba & ?).
  destruct (industry_match_in_range a b) as (im & Him & ?).
  destruct (seniority_match_in_range a b) as (sen & Hsen & ?).
  exists sm, sc, nab, nba, im, sen.
  repeat (split; [done |]).
  unfold calculate_features.
  rewrite Hsm, Hsc, Hnab, Hnba, Him, Hsen. simpl.
  eexists; split; [reflexivity |]. simpl. done.
Qed.

Lemma get_or_empty_idem (field : option string) :
  get_or_empty (Some (get_or_empty field)) = get_or_empty field.
Proof.
  destruct field as [v |]; simpl; [| done].
  destruct (bool_decide (v = EmptyString)) eqn:Hv; simpl; [done |].
  by rewrite Hv.
Qed.

Lemma calculate_features_fill_defaults (self : FeatureWeights) (a b : Profile) :
  calculate_features list_of_set self (fill_defaults a) (fill_defaults b)
  = calculate_features list_of_set self a b.
Proof.
  unfold calculate_features, _calculate_skill_match,
    _calculate_skill_complementarity, _calculate_network_value,
    _calculate_industry_match, _calculate_career_alignment,
    _calculate_experience_gap, _calculate_geographic_score,
    _calculate_seniority_match, _generate_explanation, fill_defaults.
  cbn [years_experience seniority_level industry location connections skills
       needs can_offer remote_preference current_role current_company get].
  rewrite !get_or_empty_idem. reflexivity.
Qed.

End FeatureEngineTotal.

(** *** Claims on the feature engine *)

(** C1 (as stated, refuted).  A newcomer with 0 years of experience and a
    veteran with 101 are both valid profiles, and the [experience_gap] the
    engine reports for them is 101, outside the 0-100 scale. *)
Lemma C1_experience_gap_counterexample :
  Spec.valid_profile Examples.newcomer
  ∧ Spec.valid_profile Examples.veteran
  ∧ ∃ fv, Features.calculate_features elements (Features.__init__ None)
            Examples.newcomer Examples.veteran = Ok fv
          ∧ Features.experience_gap (Features.base fv) = 101%Z
          ∧ ¬ (0 ≤ Features.experience_gap (Features.base fv) ≤ 100)%Z.
Proof.
  split; [unfold Spec.valid_profile; simpl; lia |].
  split; [unfold Spec.valid_profile; simpl; lia |].
  eexists. split; [vm_compute; reflexivity |].
  simpl. split; [reflexivity | lia].
Qed.

(** C1 (amended).  For every pair of profiles whose connection counts are
    not negative, and every engine whose weights are not negative (the
    default ones are), [calculate_features] returns a feature vector in which
    [skill_match_score], [skill_complementarity_score], both network values,
    [career_alignment_score], [industry_match], [geographic_score],
    [seniority_match], the three ROI predictors and the aggregate
    [compatibility_score] all lie in [0,100].  [experience_gap] is the
    absolute difference of the years of experience: it is never negative,
    and it is at most 100 when both profiles have between 0 and 100 years. *)
Theorem C1_subscores_in_range
    (list_of_set : gset string → list string)
    (self : Features.FeatureWeights) (a b : Profile) :
  Spec.valid_profile a → Spec.valid_profile b → Spec.weights_nonneg self →
  ∃ fv, Features.calculate_features list_of_set self a b = Ok fv
    ∧ Spec.in_range (Features.skill_match_score (Features.base fv))
    ∧ Spec.in_range (Features.skill_complementarity_score (Features.base fv))
    ∧ Spec.in_range (Features.network_value_a_to_b (Features.base fv))
    ∧ Spec.in_range (Features.network_value_b_to_a (Features.base fv))
    ∧ Spec.in_range (Features.career_alignment_score (Features.base fv))
    ∧ Spec.in_range (Features.industry_match (Features.base fv))
    ∧ Spec.in_range (Features.geographic_score (Features.base fv))
    ∧ Spec.in_range (Features.seniority_match (Features.base fv))
    ∧ Spec.in_range (Features.predicted_job_opportunity_score fv)
    ∧ Spec.in_range (Features.predicted_mentorship_value fv)
    ∧ Spec.in_range (Features.predicted_collaboration_potential fv)
    ∧ Spec.in_range (Features.compatibility_score fv)
    ∧ Features.experience_gap (Features.base fv)
      = Z.abs (get (years_experience a) 0%Z - get (years_experience b) 0%Z)
    ∧ (0 ≤ Features.experience_gap (Features.base fv))%Z
    ∧ ((0 ≤ get (years_experience a) 0 ≤ 100)%Z →
       (0 ≤ get (years_experience b) 0 ≤ 100)%Z →
       (Features.experience_gap (Features.base fv) ≤ 100)%Z).
Proof.
  intros Ha Hb Hw.
  destruct (calculate_features_ok list_of_set self a b)
    as (sm & sc & nab & nba & im & sen & _ & _ & _ & _ & _ & _
        & Hsm & Hsc & Hnab & Hnba & Him & Hsen
        & fv & Hfv & Hbase & Hcompat & Hjob & Hment & Hcollab).
  specialize (Hnab Ha). specialize (Hnba Hb).
  pose proof (career_alignment_in_range a b) as Hcareer.
  pose proof (geographic_score_in_range a b) as Hgeo.
  exists fv. split; [exact Hfv |].
  rewrite Hjob, Hment, Hcollab, Hcompat, Hbase. cbn [Features.skill_match_score
    Features.skill_complementarity_score Features.network_value_a_to_b
    Features.network_value_b_to_a Features.career_alignment_score
    Features.experience_gap Features.industry_match Features.geographic_score
    Features.seniority_match].
  repeat (split; [done |]).
  split; [by apply job_opportunity_in_range |].
  split; [by apply mentorship_value_in_range |].
  split; [by apply collaboration_in_range |].
  split; [by apply overall_compatibility_in_range |].
  unfold Features._calculate_experience_gap.
  split; [reflexivity |]. split; lia.
Qed.

(** The bounds of C1 on the analyst/engineer pair, default weights. *)
Lemma C1_subscores_in_range_witness :
  ∃ fv, Features.calculate_features elements (Features.__init__ None)
          Examples.analyst Examples.engineer = Ok fv
    ∧ Spec.in_range (Features.skill_match_score (Features.base fv))
    ∧ Spec.in_range (Features.skill_complementarity_score (Features.base fv))
    ∧ Spec.in_range (Features.network_value_a_to_b (Features.base fv))
    ∧ Spec.in_range (Features.network_value_b_to_a (Features.base fv))
    ∧ Spec.in_range (Features.career_alignment_score (Features.base fv))
    ∧ Spec.in_range (Features.industry_match (Features.base fv))
    ∧ Spec.in_range (Features.geographic_score (Features.base fv))
    ∧ Spec.in_range (Features.seniority_match (Features.base fv))
    ∧ Spec.in_range (Features.predicted_job_opportunity_score fv)
    ∧ Spec.in_range (Features.predicted_mentorship_value fv)
    ∧ Spec.in_range (Features.predicted_collaboration_potential fv)
    ∧ Spec.in_range (Features.compatibility_score fv)
    ∧ Features.experience_gap (Features.base fv) = Z.abs (1 - 5)
    ∧ (0 ≤ Features.experience_gap (Features.base fv))%Z
    ∧ ((0 ≤ 1 ≤ 100)%Z → (0 ≤ 5 ≤ 100)%Z →
       (Features.experience_gap (Features.base fv) ≤ 100)%Z).
Proof.
  apply (C1_subscores_in_range elements (Features.__init__ None)
           Examples.analyst Examples.engineer).
  - unfold Spec.valid_profile. simpl. lia.
  - unfold Spec.valid_profile. simpl. lia.
  - unfold Spec.weights_nonneg. simpl. repeat split; discriminate.
Defined.

Lemma round_half_even_comp (x y : Q) :
  (x == y)%Q → round_half_even x = round_half_even y.
Proof.
  intros Hxy. unfold round_half_even, ltb, gtb.
  rewrite (Qfloor_comp _ _ Hxy).
  assert (Hr : (x - inject_Z (Qfloor y) == y - inject_Z (Qfloor y))%Q)
    by (rewrite Hxy; reflexivity).
  by rewrite (Qleb_comp _ _ (Qeq_refl (1 # 2)) _ _ Hr),
             (Qleb_comp _ _ Hr _ _ (Qeq_refl (1 # 2))).
Qed.

Lemma round_comp (x y : Q) (ndigits : nat) :
  (x == y)%Q → (round x ndigits == round y ndigits)%Q.
Proof.
  intros Hxy. unfold round.
  set (scale := inject_Z (10 ^ Z.of_nat ndigits)).
  rewrite (round_half_even_comp (x * scale) (y * scale)); [reflexivity |].
  by rewrite Hxy.
Qed.

Lemma overall_compatibility_default (config : option Features.Config)
    (f : Features.BaseFeatures) :
  config = None ∨ config = Some Features.empty_config →
  (Features._calculate_overall_compatibility (Features.__init__ config) f
   == Qmin (round (Spec.default_weighted_sum f) 2) 100)%Q.
Proof.
  intros Hconfig.
  assert (Hw : Features.__init__ config = Features.__init__ None)
    by (destruct Hconfig as [-> | ->]; reflexivity).
  rewrite Hw. unfold Features._calculate_overall_compatibility.
  cbn [Features.__init__ get Features.empty_config
       Features.skill_weight Features.network_weight Features.career_weight
       Features.geographic_weight Features.w_skill_complementarity
       Features.w_network_value Features.w_career_alignment
       Features.w_geographic_proximity].
  apply Q.min_compat; [| reflexivity].
  apply round_comp. unfold Spec.default_weighted_sum. ring.
Qed.

(** C4.  With the default weight configuration (no config, or a config
    without weight keys) the aggregate is
    [min(round(0.40*skill + 0.30*network + 0.20*career + 0.10*geo, 2), 100)],
    where [skill] is the mean of [skill_match_score] and
    [skill_complementarity_score] and [network] the mean of the two
    directional network values; and this is the [compatibility_score] of
    the vector [calculate_features] returns. *)
Theorem C4_default_weighted_sum :
  (∀ f : Features.BaseFeatures,
     (Features._calculate_overall_compatibility (Features.__init__ None) f
      == Qmin (round (Spec.default_weighted_sum f) 2) 100)%Q)
  ∧ (∀ f : Features.BaseFeatures,
       (Features._calculate_overall_compatibility
          (Features.__init__ (Some Features.empty_config)) f
        == Qmin (round (Spec.default_weighted_sum f) 2) 100)%Q)
  ∧ (∀ (list_of_set : gset string → list string) (a b : Profile),
       ∃ fv, Features.calculate_features list_of_set (Features.__init__ None) a b
             = Ok fv
           ∧ (Features.compatibility_score fv
              == Qmin (round (Spec.default_weighted_sum (Features.base fv)) 2) 100)%Q
           ∧ (Features.compatibility_score fv <= 100)%Q).
Proof.
  split; [intros f; apply overall_compatibility_default; by left |].
  split; [intros f; apply overall_compatibility_default; by right |].
  intros list_of_set a b.
  destruct (calculate_features_ok list_of_set (Features.__init__ None) a b)
    as (sm & sc & nab & nba & im & sen & _ & _ & _ & _ & _ & _
        & _ & _ & _ & _ & _ & _ & fv & Hfv & _ & Hcompat & _).
  exists fv. split; [exact Hfv |]. rewrite Hcompat.
  split; [apply overall_compatibility_default; by left |].
  unfold Features._calculate_overall_compatibility.
  eapply Qle_trans; [apply Q.le_min_r | lra].
Qed.

(** C3 (as stated, refuted).  A profile without [seniority_level] does not
    get the entry-level bonus: its network value is 10 (the mid-level
    bonus), while the same profile marked ["entry"] has network value 0. *)
Lemma C3_missing_seniority_counterexample :
  seniority_level empty_profile = None
  ∧ ∃ missing entry,
      Features._calculate_network_value empty_profile empty_profile = Ok missing
      ∧ Features._calculate_network_value Examples.entry_level empty_profile
        = Ok entry
      ∧ (missing == 10)%Q ∧ (entry == 0)%Q ∧ ¬ (missing == entry)%Q.
Proof.
  split; [reflexivity |].
  eexists _, _. split; [vm_compute; reflexivity |].
  split; [vm_compute; reflexivity |].
  split; [reflexivity |]. split; [reflexivity |]. discriminate.
Qed.

(** C3 (amended).  [calculate_features] returns for every pair of profiles,
    whatever keys are absent, and an absent key is read as its default: 0
    for [years_experience] and [connections], the empty collection for
    [skills], [needs] and [can_offer], the empty string for [industry] and
    [location], and ["mid"] for [seniority_level]; so a profile that has
    neither seniority, connections nor industry contributes the mid-level
    bonus, 10, as its network value. *)
Theorem C3_missing_fields_default
    (list_of_set : gset string → list string)
    (self : Features.FeatureWeights) (a b : Profile) :
  (∃ fv, Features.calculate_features list_of_set self a b = Ok fv)
  ∧ Features.calculate_features list_of_set self
      (Spec.fill_defaults a) (Spec.fill_defaults b)
    = Features.calculate_features list_of_set self a b
  ∧ (∃ v, Features._calculate_network_value empty_profile b = Ok v
          ∧ (v == 10)%Q)
  ∧ (∃ v, Features._calculate_seniority_match empty_profile empty_profile = Ok v
          ∧ (v == 85)%Q).
Proof.
  split.
  { destruct (calculate_features_ok list_of_set self a b)
      as (sm & sc & nab & nba & im & sen & _ & _ & _ & _ & _ & _
          & _ & _ & _ & _ & _ & _ & fv & Hfv & _).
    by exists fv. }
  split; [apply calculate_features_fill_defaults |].
  split.
  - unfold Features._calculate_network_value, Features._calculate_industry_match.
    simpl. eexists; split; [reflexivity | reflexivity].
  - eexists; split; [vm_compute; reflexivity | reflexivity].
Qed.

(** ** The red-flag detector *)

(** C8.  [analyze_profile] reports [is_ghost_profile] exactly when at least
    three of the four ghost signals hold (fewer than 3 skills; a vague title
    of at most two words; an about section shorter than 50 characters; fewer
    than 2 experience entries).  In particular a profile whose about text,
    skills and experience are all empty (or absent) is a ghost profile. *)
Theorem C8_ghost_profile_three_of_four :
  (∀ profile : Profile,
     RedFlags.is_ghost_profile (RedFlags.analyze_profile profile) = true
     ↔ (3 ≤ Spec.count_true (Spec.ghost_signals profile))%nat)
  ∧ (∀ profile : Profile,
       get (about profile) EmptyString = EmptyString →
       get (skills profile) [] = [] →
       get (experience profile) [] = [] →
       RedFlags.is_ghost_profile (RedFlags.analyze_profile profile) = true).
Proof.
  assert (Hiff : ∀ profile : Profile,
     RedFlags._is_ghost_profile profile = true
     ↔ (3 ≤ Spec.count_true (Spec.ghost_signals profile))%nat).
  { intros profile.
    unfold RedFlags._is_ghost_profile, Spec.ghost_signals, Spec.count_true,
      RedFlags.few_skills, RedFlags.vague_short_title, RedFlags.short_about,
      RedFlags.few_experience_entries, RedFlags.has_vague_title, len, len_str.
    cbn [RedFlags.ghost_profile_skill_threshold RedFlags.min_experience_entries
         RedFlags.thresholds].
    set (title := lower (get_or_empty (current_role profile))).
    set (vague := existsb _ _).
    set (n_skills := length (get (skills profile) [])).
    set (n_words := length (split title)).
    set (n_about := String.length (get (about profile) EmptyString)).
    set (n_jobs := length (get (experience profile) [])).
    destruct (Z.ltb_spec (Z.of_nat n_skills) 3);
      destruct (Z.leb_spec (Z.of_nat n_words) 2);
      destruct (Z.ltb_spec (Z.of_nat n_about) 50);
      destruct (Z.ltb_spec (Z.of_nat n_jobs) 2);
      destruct vague;
      repeat case_bool_decide; try lia; simpl; split; (lia || done). }
  split; [exact Hiff |].
  intros profile Habout Hskills Hjobs.
  change (RedFlags._is_ghost_profile profile = true).
  unfold RedFlags._is_ghost_profile, RedFlags.few_skills, RedFlags.short_about,
    RedFlags.few_experience_entries.
  rewrite Habout, Hskills, Hjobs. simpl.
  by destruct (RedFlags.vague_short_title profile).
Qed.

(** The profile without any key is a ghost profile. *)
Lemma C8_ghost_profile_witness :
  RedFlags.is_ghost_profile (RedFlags.analyze_profile empty_profile) = true.
Proof.
  apply (proj2 C8_ghost_profile_three_of_four empty_profile); reflexivity.
Defined.

(** ** The red-flag penalty of the model API *)

Lemma penalty_multiplier_bounds (red_flag : Q) :
  (0 < ModelApi.penalty_multiplier red_flag)%Q
  ∧ (ModelApi.penalty_multiplier red_flag <= 1)%Q.
Proof.
  unfold ModelApi.penalty_multiplier.
  repeat case_cmp; split; lra.
Qed.

Lemma final_score_in_range (model_output : Q) (target : option Q) :
  Spec.in_range model_output →
  Spec.in_range (ModelApi.final_score model_output target).
Proof.
  intros [H0 H100]. unfold ModelApi.final_score.
  pose proof (penalty_multiplier_bounds (get target 0%Q)) as [Hm0 Hm1].
  set (m := ModelApi.penalty_multiplier _) in *.
  split; [apply Qmult_le_0_compat; lra |].
  assert (0 <= model_output * (1 - m))%Q by (apply Qmult_le_0_compat; lra).
  lra.
Qed.

Lemma penalty_multiplier_spec (red_flag : Q) :
  (ModelApi.penalty_multiplier red_flag == Spec.penalty red_flag)%Q.
Proof.
  unfold ModelApi.penalty_multiplier, Spec.penalty.
  repeat case_cmp; reflexivity.
Qed.

(** Clamping leaves exactly the scores on the scale unchanged. *)
Lemma clamp_fixed (x : Q) : (Spec.clamp x == x)%Q ↔ Spec.in_range x.
Proof.
  unfold Spec.clamp, Spec.in_range.
  destruct (Q.min_spec 100 x) as [[Hmin Hmn] | [Hmin Hmn]];
    destruct (Q.max_spec 0 (Qmin 100 x)) as [[Hmax Hmx] | [Hmax Hmx]];
    set (mn := Qmin 100 x) in *; set (mx := Qmax 0 mn) in *;
    (split; [intros Heq; split; lra | intros Hr; destruct Hr; lra]).
Qed.

Lemma clamp_in_range (x : Q) : Spec.in_range (Spec.clamp x).
Proof.
  unfold Spec.clamp. split; [apply Q.le_max_l |].
  apply Q.max_lub; [lra | apply Q.le_min_l].
Qed.

(** C2 (the failing input).  For a model output of 150 and a target whose
    [red_flag_score] is 0 the response reports a score of 150, outside
    [0,100]; the refined score of the specification, which is clamped, is
    100. *)
Lemma C2_clamp_counterexample :
  (ModelApi.score (ModelApi.predict_compatibility 150 (Some 0%Q)) == 150)%Q
  ∧ ¬ (ModelApi.score (ModelApi.predict_compatibility 150 (Some 0%Q)) <= 100)%Q
  ∧ (Spec.refined_score 150 0 == 100)%Q
  ∧ ¬ (ModelApi.score (ModelApi.predict_compatibility 150 (Some 0%Q))
       == Spec.refined_score 150 0)%Q.
Proof.
  repeat split; try reflexivity; vm_compute; congruence.
Qed.

(** C2.  For every predicted score [S] and every target profile the score
    [predict_compatibility] computes is [S * 0.80] when the target's
    [red_flag_score] is above 75, [S * 0.90] when it is above 50 and at most
    75, [S * 0.95] when it is above 25 and at most 50, and [S] otherwise (a
    target without the key counts as 0), and a target with [red_flag_score]
    80 yields [0.80 * S]; the response reports it rounded to one decimal.
    That score is not clamped: it is the refined score of the
    specification exactly when the product already lies in [0,100], and for
    every [S] above 100 and a target with a red-flag score of at most 25 it
    is [S] itself, above 100, where the specification requires 100. *)
Theorem C2_red_flag_penalty (S : Q) (target : option Q) :
  ((75 < get target 0)%Q → (ModelApi.final_score S target == S * 0.80)%Q)
  ∧ ((50 < get target 0)%Q → (get target 0 <= 75)%Q →
     (ModelApi.final_score S target == S * 0.90)%Q)
  ∧ ((25 < get target 0)%Q → (get target 0 <= 50)%Q →
     (ModelApi.final_score S target == S * 0.95)%Q)
  ∧ ((get target 0 <= 25)%Q → (ModelApi.final_score S target == S)%Q)
  ∧ (ModelApi.score (ModelApi.predict_compatibility S target)
     == round (ModelApi.final_score S target) 1)%Q
  ∧ (Spec.in_range S →
     Spec.in_range (ModelApi.final_score S target)
     ∧ Spec.in_range (ModelApi.score (ModelApi.predict_compatibility S target)))
  ∧ (ModelApi.final_score S (Some 80%Q) == 0.80 * S)%Q
  ∧ ((ModelApi.final_score S target == Spec.refined_score S (get target 0))%Q
     ↔ Spec.in_range (S * Spec.penalty (get target 0%Q)))
  ∧ ((100 < S)%Q → (get target 0 <= 25)%Q →
     (100 < ModelApi.final_score S target)%Q
     ∧ (100 <= ModelApi.score (ModelApi.predict_compatibility S target))%Q
     ∧ (Spec.refined_score S (get target 0) == 100)%Q).
Proof.
  assert (Hbands :
    ((75 < get target 0)%Q → (ModelApi.final_score S target == S * 0.80)%Q)
    ∧ ((50 < get target 0)%Q → (get target 0 <= 75)%Q →
       (ModelApi.final_score S target == S * 0.90)%Q)
    ∧ ((25 < get target 0)%Q → (get target 0 <= 50)%Q →
       (ModelApi.final_score S target == S * 0.95)%Q)
    ∧ ((get target 0 <= 25)%Q → (ModelApi.final_score S target == S)%Q)).
  { unfold ModelApi.final_score, ModelApi.penalty_multiplier.
    split; [intros H; repeat case_cmp; lra |].
    split; [intros H1 H2; repeat case_cmp; lra |].
    split; [intros H1 H2; repeat case_cmp; lra |].
    intros H; repeat case_cmp; lra. }
  destruct Hbands as (H80 & H90 & H95 & H100).
  assert (Hproduct : (ModelApi.final_score S target
                      == S * Spec.penalty (get target 0%Q))%Q).
  { unfold ModelApi.final_score.
    by rewrite (penalty_multiplier_spec (get target 0%Q)). }
  split; [exact H80 |]. split; [exact H90 |]. split; [exact H95 |].
  split; [exact H100 |].
  split; [reflexivity |].
  split.
  { intros HS.
    pose proof (final_score_in_range S target HS) as [H0 Hle].
    split; [by split |].
    unfold ModelApi.predict_compatibility. cbn [ModelApi.score].
    split; [by apply round_nonneg | by apply (round_le _ 100)]. }
  split.
  { unfold ModelApi.final_score, ModelApi.penalty_multiplier. simpl. ring. }
  split.
  { unfold Spec.refined_score. rewrite <- clamp_fixed.
    set (x := (S * Spec.penalty (get target 0%Q))%Q) in *.
    split; intros Heq; lra. }
  intros HS Hflag. specialize (H100 Hflag).
  split; [lra |]. split.
  - unfold ModelApi.predict_compatibility. cbn [ModelApi.score].
    apply (Qle_trans _ (round 100 1));
      [unfold Qle; vm_compute; discriminate | apply round_mono; lra].
  - unfold Spec.refined_score.
    set (x := (S * Spec.penalty (get target 0%Q))%Q) in *.
    assert (Hx : (100 < x)%Q) by lra.
    unfold Spec.clamp.
    destruct (Q.min_spec 100 x) as [[Hmin Hmn] | [Hmin Hmn]];
      destruct (Q.max_spec 0 (Qmin 100 x)) as [[Hmax Hmx] | [Hmax Hmx]];
      set (mn := Qmin 100 x) in *; set (mx := Qmax 0 mn) in *; lra.
Qed.

(** The four bands of C2 on a predicted score of 50. *)
Lemma C2_red_flag_penalty_witness :
  (ModelApi.final_score 50 (Some 80%Q) == 50 * 0.80)%Q
  ∧ (ModelApi.final_score 50 (Some 60%Q) == 50 * 0.90)%Q
  ∧ (ModelApi.final_score 50 (Some 30%Q) == 50 * 0.95)%Q
  ∧ (ModelApi.final_score 50 None == 50)%Q
  ∧ Spec.in_range (ModelApi.score (ModelApi.predict_compatibility 50 (Some 80%Q)))
  ∧ (100 < ModelApi.final_score 150 None)%Q.
Proof.
  destruct (C2_red_flag_penalty 50 (Some 80%Q))
    as (H80 & _ & _ & _ & _ & Hrange & _).
  destruct (C2_red_flag_penalty 50 (Some 60%Q)) as (_ & H90 & _).
  destruct (C2_red_flag_penalty 50 (Some 30%Q)) as (_ & _ & H95 & _).
  destruct (C2_red_flag_penalty 50 None) as (_ & _ & _ & H100 & _).
  destruct (C2_red_flag_penalty 150 None)
    as (_ & _ & _ & _ & _ & _ & _ & _ & Hover).
  split; [apply H80; reflexivity |].
  split; [apply H90; simpl; lra |].
  split; [apply H95; simpl; lra |].
  split; [apply H100; simpl; lra |].
  split; [apply Hrange; split; lra |].
  apply Hover; simpl; lra.
Defined.

(** ** Corpus skill statistics *)

Section SkillRarity.

Import HiddenGems.

(** The banding never increases with the frequency. *)
Lemma rarity_of_frequency_antitone (f1 f2 : Q) :
  (f1 < f2)%Q → (rarity_of_frequency f2 <= rarity_of_frequency f1)%Q.
Proof.
  intros Hlt. unfold rarity_of_frequency.
  repeat case_cmp; try lra.
  all: apply Q.max_lub; try lra.
  all: try apply Q.le_max_l.
  all: eapply Qle_trans; [| apply Q.le_max_r]; lra.
Qed.

Lemma rarity_of_frequency_bands (f : Q) :
  ((f < 0.05)%Q → (90 <= rarity_of_frequency f)%Q)
  ∧ ((f < 0.15)%Q → (70 <= rarity_of_frequency f)%Q)
  ∧ ((f < 0.30)%Q → (40 <= rarity_of_frequency f)%Q)
  ∧ ((0.30 <= f)%Q →
     (10 <= rarity_of_frequency f)%Q ∧ (rarity_of_frequency f <= 40)%Q).
Proof.
  unfold rarity_of_frequency.
  split; [intros Hf; repeat case_cmp; lra |].
  split; [intros Hf; repeat case_cmp; lra |].
  split; [intros Hf; repeat case_cmp; lra |].
  intros Hf; repeat case_cmp; try lra.
  split; [apply Q.le_max_l | apply Q.max_lub; lra].
Qed.

(** [Counter] counts occurrences. *)
Lemma Counter_foldl (items : list string) (counts : gmap string nat) (skill : string) :
  default 0%nat
    (foldl (λ counts item, <[item := S (default 0%nat (counts !! item))]> counts)
           counts items !! skill)
  = (default 0%nat (counts !! skill) + count_occ string_dec items skill)%nat.
Proof.
  revert counts. induction items as [| item items IH]; intros counts; simpl.
  - lia.
  - rewrite IH. destruct (string_dec item skill) as [-> | Hne].
    + rewrite lookup_insert_eq. simpl. lia.
    + by rewrite lookup_insert_ne.
Qed.

Lemma Counter_positive (items : list string) (counts : gmap string nat) (skill : string) (n : nat) :
  (∀ k c, counts !! k = Some c → (0 < c)%nat) →
  foldl (λ counts item, <[item := S (default 0%nat (counts !! item))]> counts)
        counts items !! skill = Some n →
  (0 < n)%nat.
Proof.
  revert counts. induction items as [| item items IH]; intros counts Hpos; simpl.
  - apply Hpos.
  - apply IH. intros k c.
    destruct (decide (item = k)) as [-> | Hne].
    + rewrite lookup_insert_eq. intros [= <-]. lia.
    + rewrite lookup_insert_ne by done. apply Hpos.
Qed.

Lemma Counter_lookup (items : list string) (skill : string) (n : nat) :
  Counter items !! skill = Some n
  ↔ n = count_occ string_dec items skill ∧ (0 < n)%nat.
Proof.
  unfold Counter. split.
  - intros Hn. split.
    + pose proof (Counter_foldl items ∅ skill) as H.
      rewrite Hn, lookup_empty in H. simpl in H. done.
    + eapply Counter_positive; [| exact Hn]. intros k c. by rewrite lookup_empty.
  - intros [-> Hpos].
    pose proof (Counter_foldl items ∅ skill) as H.
    rewrite lookup_empty in H. simpl in H.
    destruct (foldl _ _ _ !! skill) as [m |] eqn:Hm; simpl in H; [by subst |].
    lia.
Qed.

Lemma all_skills_nil (profiles_df : list Profile) :
  profiles_df = [] → all_skills profiles_df = [].
Proof. by intros ->. Qed.

(** With a non-empty corpus the loop writes one rarity per counted skill
    and touches nothing else. *)
Lemma assign_rarity_ok (items : list (string * nat)) (total : Z)
    (rarity_map : gmap string Q) :
  total ≠ 0%Z → NoDup items.*1 →
  ∃ result_map,
    assign_rarity items total rarity_map = Ok result_map
    ∧ (∀ skill count, (skill, count) ∈ items →
         result_map !! skill
         = Some (rarity_of_frequency
                   (inject_Z (Z.of_nat count) / inject_Z total)))
    ∧ (∀ skill, skill ∉ items.*1 → result_map !! skill = rarity_map !! skill).
Proof.
  intros Htotal. revert rarity_map.
  induction items as [| [skill count] items IH]; intros rarity_map Hnodup.
  - exists rarity_map. split; [done |]. split; [| done].
    intros skill count Hin. by apply elem_of_nil in Hin.
  - simpl. unfold truediv.
    assert (Hq : Qeq_bool (inject_Z total) 0 = false).
    { apply not_true_iff_false. intros H. apply Qeq_bool_eq in H.
      unfold Qeq in H. simpl in H. lia. }
    rewrite Hq. simpl.
    apply NoDup_cons in Hnodup as [Hfresh Hnodup].
    destruct (IH (<[skill := rarity_of_frequency
                               (inject_Z (Z.of_nat count) / inject_Z total)]>
                    rarity_map) Hnodup)
      as (result_map & Hrun & Hin & Hout).
    exists result_map. split; [exact Hrun |]. split.
    + intros skill' count' Hmem.
      apply elem_of_cons in Hmem as [[= -> ->] | Hmem]; [| by apply Hin].
      rewrite (Hout skill Hfresh). apply lookup_insert_eq.
    + intros skill' Hnot. simpl in Hnot.
      apply not_elem_of_cons in Hnot as [Hne Hnot].
      rewrite (Hout skill' Hnot). by apply lookup_insert_ne.
Qed.

Lemma skill_rarity_map_ok (profiles_df : list Profile) :
  ∃ rarity_map,
    __init__ (Some profiles_df) = Ok rarity_map
    ∧ ∀ skill, rarity_map !! skill
               = rarity_of_frequency <$> frequency_of profiles_df skill.
Proof.
  unfold __init__, _calculate_skill_rarity, frequency_of.
  destruct profiles_df as [| profile profiles_df].
  - exists ∅. split; [done |]. intros skill. simpl.
    unfold Counter. simpl. by rewrite !lookup_empty.
  - set (df := profile :: profiles_df).
    destruct (assign_rarity_ok (map_to_list (Counter (all_skills df)))
                (len df) ∅) as (result_map & Hrun & Hin & Hout).
    { unfold len, df. simpl. lia. }
    { apply NoDup_fst_map_to_list. }
    exists result_map. split; [exact Hrun |].
    intros skill.
    destruct (Counter (all_skills df) !! skill) as [count |] eqn:Hcount; simpl.
    + apply Hin. by apply elem_of_map_to_list.
    + rewrite Hout; [apply lookup_empty |].
      intros Hmem. apply list_elem_of_fmap in Hmem as ([k c] & -> & Hmem).
      apply elem_of_map_to_list in Hmem. cbn [fst] in Hcount. congruence.
Qed.

End SkillRarity.

(** C5.  Building the detector on a corpus returns a rarity map that gives
    every observed skill the banded rarity of its frequency (occurrences
    over number of profiles).  For two skills with frequencies [f1 < f2] the
    rarity of the first is at least that of the second; and a frequency
    below 5% gives a rarity of at least 90, below 15% at least 70, below 30%
    at least 40, and otherwise between 10 and 40. *)
Theorem C5_rarity_monotone_in_frequency (profiles_df : list Profile) :
  ∃ rarity_map,
    HiddenGems.__init__ (Some profiles_df) = Ok rarity_map
    ∧ (∀ skill, skill ∈ HiddenGems.all_skills profiles_df →
         ∃ f r, HiddenGems.frequency_of profiles_df skill = Some f
                ∧ rarity_map !! skill = Some r)
    ∧ (∀ skill1 skill2 f1 f2,
         HiddenGems.frequency_of profiles_df skill1 = Some f1 →
         HiddenGems.frequency_of profiles_df skill2 = Some f2 →
         (f1 < f2)%Q →
         ∃ r1 r2, rarity_map !! skill1 = Some r1
                  ∧ rarity_map !! skill2 = Some r2
                  ∧ (r2 <= r1)%Q)
    ∧ (∀ skill f,
         HiddenGems.frequency_of profiles_df skill = Some f →
         ∃ r, rarity_map !! skill = Some r
              ∧ ((f < 0.05)%Q → (90 <= r)%Q)
              ∧ ((f < 0.15)%Q → (70 <= r)%Q)
              ∧ ((f < 0.30)%Q → (40 <= r)%Q)
              ∧ ((0.30 <= f)%Q → (10 <= r)%Q ∧ (r <= 40)%Q)).
Proof.
  destruct (skill_rarity_map_ok profiles_df) as (rarity_map & Hrun & Hmap).
  exists rarity_map. split; [exact Hrun |]. split; [| split].
  - intros skill Hin.
    assert (Hocc : (0 < count_occ string_dec (HiddenGems.all_skills profiles_df) skill)%nat).
    { apply count_occ_In. by apply list_elem_of_In. }
    pose proof (proj2 (Counter_lookup (HiddenGems.all_skills profiles_df) skill _)
                  (conj eq_refl Hocc)) as Hcount.
    rewrite Hmap. unfold HiddenGems.frequency_of. rewrite Hcount. simpl.
    by eexists _, _.
  - intros skill1 skill2 f1 f2 Hf1 Hf2 Hlt.
    exists (HiddenGems.rarity_of_frequency f1), (HiddenGems.rarity_of_frequency f2).
    rewrite !Hmap, Hf1, Hf2. simpl.
    split; [done |]. split; [done |]. by apply rarity_of_frequency_antitone.
  - intros skill f Hf.
    exists (HiddenGems.rarity_of_frequency f).
    rewrite Hmap, Hf. simpl. split; [done |]. apply rarity_of_frequency_bands.
Qed.

(** ** The recommender *)

Section NLargest.

Import Recommender.

Context {A : Type} (gt : A → A → bool) (R : relation A).

Lemma insert_desc_elem (x y : A) (sorted : list A) :
  y ∈ insert_desc gt x sorted ↔ y = x ∨ y ∈ sorted.
Proof.
  induction sorted as [| z sorted IH]; simpl.
  - rewrite list_elem_of_singleton, elem_of_nil. tauto.
  - destruct (gt z x); rewrite !elem_of_cons; [rewrite IH |]; tauto.
Qed.

Lemma sort_desc_elem (y : A) (rows : list A) :
  y ∈ sort_desc gt rows ↔ y ∈ rows.
Proof.
  unfold sort_desc. induction rows as [| x rows IH]; simpl; [done |].
  rewrite insert_desc_elem, elem_of_cons, IH. tauto.
Qed.

Lemma nlargest_elem (n : nat) (y : A) (rows : list A) :
  y ∈ nlargest n gt rows → y ∈ rows.
Proof.
  unfold nlargest. intros Hin. apply sort_desc_elem.
  by apply (subseteq_take n).
Qed.

Lemma nlargest_length (n : nat) (rows : list A) :
  (length (nlargest n gt rows) ≤ n)%nat.
Proof. unfold nlargest. rewrite length_take. lia. Qed.

(** [R first second]: [first] may stand before [second]. *)
Hypothesis gt_before : ∀ y x, gt y x = true → R y x.
Hypothesis not_gt_before : ∀ y x, gt y x = false → R x y.
Hypothesis R_trans : Transitive R.

Lemma insert_desc_sorted (x : A) (sorted : list A) :
  StronglySorted R sorted → StronglySorted R (insert_desc gt x sorted).
Proof.
  induction sorted as [| y sorted IH]; simpl; intros Hsorted.
  - repeat constructor.
  - apply StronglySorted_cons in Hsorted as [Hall Hsorted].
    destruct (gt y x) eqn:Hgt.
    + apply StronglySorted_cons. split; [| by apply IH].
      apply Forall_forall. intros z Hz.
      apply insert_desc_elem in Hz as [-> | Hz]; [by apply gt_before |].
      by apply (proj1 (Forall_forall _ _) Hall).
    + apply StronglySorted_cons. split; [| by apply StronglySorted_cons].
      apply Forall_cons. split; [by apply not_gt_before |].
      apply Forall_forall. intros z Hz.
      transitivity y; [by apply not_gt_before |].
      by apply (proj1 (Forall_forall _ _) Hall).
Qed.

Lemma sort_desc_sorted (rows : list A) : StronglySorted R (sort_desc gt rows).
Proof.
  unfold sort_desc. induction rows as [| x rows IH]; simpl.
  - constructor.
  - by apply insert_desc_sorted.
Qed.

Lemma nlargest_sorted (n : nat) (rows : list A) :
  StronglySorted R (nlargest n gt rows).
Proof.
  unfold nlargest.
  apply (StronglySorted_app_1_l R _ (drop n (sort_desc gt rows))).
  rewrite take_drop. apply sort_desc_sorted.
Qed.

Lemma insert_desc_perm (x : A) (sorted : list A) :
  insert_desc gt x sorted ≡ₚ x :: sorted.
Proof.
  induction sorted as [| y sorted IH]; simpl; [done |].
  destruct (gt y x); [| done].
  rewrite IH. apply perm_swap.
Qed.

Lemma sort_desc_perm (rows : list A) : sort_desc gt rows ≡ₚ rows.
Proof.
  unfold sort_desc. induction rows as [| x rows IH]; simpl; [done |].
  by rewrite insert_desc_perm, IH.
Qed.

Lemma StronglySorted_lookup_lt (l : list A) (i j : nat) (a b : A) :
  StronglySorted R l → (i < j)%nat → l !! i = Some a → l !! j = Some b → R a b.
Proof.
  intros Hsorted. revert i j.
  induction Hsorted as [| x l Hsorted IH Hall]; intros i j Hlt Ha Hb;
    [by rewrite lookup_nil in Ha |].
  destruct j as [| j]; [lia |]. simpl in Hb.
  destruct i as [| i]; simpl in Ha.
  - injection Ha as ->.
    rewrite Forall_forall in Hall. apply Hall.
    by apply list_elem_of_lookup_2 in Hb.
  - apply (IH i j); [lia | done | done].
Qed.

(** A row that beats another strictly stands before it. *)
Hypothesis gt_strict : ∀ x y, gt x y = true → ¬ R y x.

Lemma nlargest_above (n : nat) (rows : list A) (x y : A) (j : nat) :
  x ∈ rows → nlargest n gt rows !! j = Some y → gt x y = true →
  ∃ i, (i < j)%nat ∧ nlargest n gt rows !! i = Some x.
Proof.
  unfold nlargest. intros Hx Hy Hgt.
  apply lookup_take_Some in Hy as [Hy Hjn].
  apply sort_desc_elem, list_elem_of_lookup_1 in Hx as [i Hi].
  destruct (lt_eq_lt_dec i j) as [[Hlt | ->] | Hlt].
  - exists i. split; [done |]. apply lookup_take_Some. split; [done | lia].
  - rewrite Hi in Hy. injection Hy as ->.
    exfalso. apply (gt_strict _ _ Hgt). by apply gt_before.
  - exfalso. apply (gt_strict _ _ Hgt).
    apply (StronglySorted_lookup_lt (sort_desc gt rows) j i); try done.
    apply sort_desc_sorted.
Qed.

End NLargest.

Section RecommenderFacts.

Import Recommender.

Lemma red_flag_profiles_spec (self : ConnectionRecommender) (candidate : string) :
  candidate ∈ red_flag_profiles self
  ↔ ∃ profile, profile_rows (profiles_df self) !! candidate = Some profile
               ∧ (red_flag_threshold self < red_flag_score profile)%Q.
Proof.
  unfold red_flag_profiles. rewrite elem_of_dom. unfold is_Some.
  setoid_rewrite map_lookup_filter_Some. simpl.
  setoid_rewrite Is_true_true. setoid_rewrite gtb_true. done.
Qed.

(** Where a recommendation comes from. *)
Lemma recommend_for_user_elem (self : ConnectionRecommender) (user_id : string)
    (top_n : nat) (min_compatibility : Q) (strategy : string)
    (r : Recommendation) :
  r ∈ recommend_for_user self user_id top_n min_compatibility strategy →
  ∃ row,
    row ∈ pairs_df self
    ∧ involves user_id row = true
    ∧ rec_pair r = with_candidate user_id row
    ∧ ranking_score r = _calculate_ranking_score row strategy
    ∧ rec_candidate r = enrich_row self (candidate_id (rec_pair r))
    ∧ (min_compatibility <= compatibility_score row)%Q
    ∧ (filter_red_flags self && has_red_flag_score (profiles_df self) = true →
       candidate_id (rec_pair r) ∉ red_flag_profiles self).
Proof.
  unfold recommend_for_user.
  destruct (len _ =? 0)%Z; [intros H; by apply elem_of_nil in H |].
  unfold _enrich_recommendations. intros Hr.
  apply list_elem_of_fmap in Hr as ([up q] & -> & Hin).
  apply nlargest_elem in Hin.
  apply list_elem_of_fmap in Hin as (up' & [= <- ->] & Hin).
  cbn [fst snd rec_pair ranking_score rec_candidate].
  assert (Hbase : up ∈ List.filter
            (λ up, geb (compatibility_score (pair up)) min_compatibility)
            (with_candidate user_id <$> List.filter (involves user_id) (pairs_df self))
          ∧ (filter_red_flags self && has_red_flag_score (profiles_df self) = true →
             candidate_id up ∉ red_flag_profiles self)).
  { destruct (filter_red_flags self && has_red_flag_score (profiles_df self)).
    - apply list_elem_of_In, filter_In in Hin as [Hin Hflag].
      split; [by apply list_elem_of_In |]. intros _.
      apply negb_true_iff, bool_decide_eq_false in Hflag. done.
    - split; [done | discriminate]. }
  destruct Hbase as [Hbase Hflag].
  apply list_elem_of_In, filter_In in Hbase as [Hbase Hcompat].
  apply list_elem_of_In, list_elem_of_fmap in Hbase as (row & -> & Hrow).
  apply list_elem_of_In, filter_In in Hrow as [Hrow Hinv].
  exists row. cbn [pair] in *.
  split; [by apply list_elem_of_In |].
  repeat (split; [done |]).
  split; [by apply geb_true |]. done.
Qed.

Lemma recommend_for_user_sorted (self : ConnectionRecommender) (user_id : string)
    (top_n : nat) (min_compatibility : Q) (strategy : string) :
  Spec.ranked_descending
    (recommend_for_user self user_id top_n min_compatibility strategy).
Proof.
  unfold Spec.ranked_descending, recommend_for_user.
  destruct (len _ =? 0)%Z; [constructor |].
  unfold _enrich_recommendations.
  apply (StronglySorted_fmap _ (λ x y : UserPair * Q, (snd y <= snd x)%Q));
    [done |].
  apply nlargest_sorted.
  - intros y x Hgt. apply gtb_true in Hgt. lra.
  - intros y x Hgt. by apply gtb_false in Hgt.
  - intros x y z Hxy Hyz. lra.
Qed.

Lemma recommend_for_user_length (self : ConnectionRecommender) (user_id : string)
    (top_n : nat) (min_compatibility : Q) (strategy : string) :
  (length (recommend_for_user self user_id top_n min_compatibility strategy)
   ≤ top_n)%nat.
Proof.
  unfold recommend_for_user.
  destruct (len _ =? 0)%Z; [simpl; lia |].
  unfold _enrich_recommendations. rewrite length_fmap. apply nlargest_length.
Qed.

(** A user that appears in no pair selects no row. *)
Lemma involves_none (user_id : string) (rows : list PairRow) :
  (∀ row, row ∈ rows → profile_a_id row ≠ user_id ∧ profile_b_id row ≠ user_id) →
  List.filter (involves user_id) rows = [].
Proof.
  induction rows as [| row rows IH]; intros Hunknown; [done |].
  simpl.
  destruct (Hunknown row) as [Ha Hb]; [by left |].
  unfold involves at 1.
  rewrite (bool_decide_eq_false_2 _ Ha), (bool_decide_eq_false_2 _ Hb). simpl.
  apply IH. intros row' Hin. apply Hunknown. by right.
Qed.

Lemma user_unknown_no_pairs (self : ConnectionRecommender) (user_id : string) :
  Spec.user_unknown self user_id →
  List.filter (involves user_id) (pairs_df self) = [].
Proof. apply involves_none. Qed.

(** One filter for the chain of filters of [recommend_for_user]. *)
Lemma filter_andb {A} (f g : A → bool) (l : list A) :
  List.filter (λ x, f x && g x) l = List.filter g (List.filter f l).
Proof.
  induction l as [| x l IH]; simpl; [done |].
  destruct (f x); simpl; [destruct (g x); by rewrite IH | done].
Qed.

Lemma filter_fmap {A B} (g : A → B) (h : B → bool) (l : list A) :
  List.filter h (g <$> l) = g <$> List.filter (λ x, h (g x)) l.
Proof.
  induction l as [| x l IH]; simpl; [done |].
  change (list_fmap A B g l) with (g <$> l).
  destruct (h (g x)); simpl; by rewrite IH.
Qed.

Lemma filter_true {A} (l : list A) : List.filter (λ _, true) l = l.
Proof. induction l as [| x l IH]; simpl; [done | by rewrite IH]. Qed.

Lemma red_flag_profiles_test (self : ConnectionRecommender) (candidate : string) :
  bool_decide (candidate ∈ red_flag_profiles self)
  = match profile_rows (profiles_df self) !! candidate with
    | Some profile => gtb (red_flag_score profile) (red_flag_threshold self)
    | None => false
    end.
Proof.
  destruct (profile_rows (profiles_df self) !! candidate) as [profile |] eqn:Hrow.
  - destruct (gtb (red_flag_score profile) (red_flag_threshold self)) eqn:Hgt.
    + apply bool_decide_eq_true_2, red_flag_profiles_spec.
      exists profile. split; [done | by apply gtb_true].
    + apply bool_decide_eq_false_2. rewrite red_flag_profiles_spec.
      intros (profile' & Hrow' & Hlt). rewrite Hrow in Hrow'.
      injection Hrow' as <-. apply gtb_true in Hlt. congruence.
  - apply bool_decide_eq_false_2. rewrite red_flag_profiles_spec.
    intros (profile' & Hrow' & _). congruence.
Qed.

(** [recommend_for_user] ranks the eligible pair records of the user and
    keeps the best [top_n]. *)
Lemma recommend_for_user_ranking (self : ConnectionRecommender)
    (user_id : string) (top_n : nat) (min_compatibility : Q)
    (strategy : string) :
  recommend_for_user self user_id top_n min_compatibility strategy
  = _enrich_recommendations self
      (nlargest top_n gt_ranking
         ((λ up, (up, _calculate_ranking_score (pair up) strategy))
            <$> (with_candidate user_id
                   <$> Spec.eligible_pairs self user_id min_compatibility))).
Proof.
  unfold recommend_for_user, Spec.eligible_pairs, Spec.eligible.
  rewrite !filter_andb.
  destruct (List.filter (involves user_id) (pairs_df self))
    as [| first others] eqn:Hinvolves;
    [simpl; unfold nlargest, sort_desc; simpl; by rewrite take_nil |].
  replace (len (first :: others) =? 0)%Z with false
    by (symmetry; apply Z.eqb_neq; unfold len; simpl; lia).
  do 3 f_equal.
  rewrite filter_fmap. cbn [pair with_candidate].
  destruct (filter_red_flags self && has_red_flag_score (profiles_df self)).
  - rewrite filter_fmap. f_equal. apply List.filter_ext. intros row.
    by rewrite red_flag_profiles_test;
      destruct (profile_rows (profiles_df self) !! _).
  - by rewrite filter_true.
Qed.

Lemma eligible_pairs_elem (self : ConnectionRecommender) (user_id : string)
    (min_compatibility : Q) (row : PairRow) :
  row ∈ Spec.eligible_pairs self user_id min_compatibility
  → row ∈ pairs_df self ∧ involves user_id row = true
    ∧ (min_compatibility <= compatibility_score row)%Q.
Proof.
  unfold Spec.eligible_pairs, Spec.eligible. intros Hrow.
  apply list_elem_of_In, filter_In in Hrow as [Hrow Htest].
  apply andb_true_iff in Htest as [Htest _].
  apply andb_true_iff in Htest as [Hinv Hcompat].
  split_and!; [by apply list_elem_of_In | done | by apply geb_true].
Qed.

End RecommenderFacts.

(** *** Claims on the recommender *)

(** C6 (as stated, refuted).  A recommender built with
    [filter_red_flags=False] returns candidate ["c2"], whose red-flag score
    of 90 exceeds the threshold of 50. *)
Lemma C6_unfiltered_counterexample :
  ∃ r profile,
    Recommender.recommend_for_user Examples.unfiltered_recommender
      "u1" 10 40 "balanced" !! 1%nat = Some r
    ∧ Recommender.profile_rows
        (Recommender.profiles_df Examples.unfiltered_recommender)
        !! Recommender.candidate_id (Recommender.rec_pair r) = Some profile
    ∧ (Recommender.red_flag_threshold Examples.unfiltered_recommender
       < Recommender.red_flag_score profile)%Q.
Proof.
  eexists _, _. split; [vm_compute; reflexivity |].
  split; [vm_compute; reflexivity |]. reflexivity.
Qed.

(** C6 (amended).  For every user, [top_n], minimum compatibility [X] and
    strategy, the list [recommend_for_user] returns is in descending order
    of [ranking_score], has at most [top_n] entries, holds no pair whose
    [compatibility_score] is below [X], and, when red-flag filtering is on
    ([filter_red_flags], the default) and the profile table has a
    [red_flag_score] column, holds no candidate whose [red_flag_score]
    exceeds the configured threshold.  Every entry is a pair record of the
    user, ranked by the strategy's score. *)
Theorem C6_recommendations_ranked_and_filtered
    (self : Recommender.ConnectionRecommender) (user_id : string)
    (top_n : nat) (min_compatibility : Q) (strategy : string) :
  Spec.ranked_descending
    (Recommender.recommend_for_user self user_id top_n min_compatibility strategy)
  ∧ (length (Recommender.recommend_for_user self user_id top_n
               min_compatibility strategy) ≤ top_n)%nat
  ∧ (∀ r,
       r ∈ Recommender.recommend_for_user self user_id top_n
             min_compatibility strategy →
       (min_compatibility
        <= Recommender.compatibility_score
             (Recommender.pair (Recommender.rec_pair r)))%Q)
  ∧ (Recommender.filter_red_flags self = true →
     Recommender.has_red_flag_score (Recommender.profiles_df self) = true →
     ∀ r profile,
       r ∈ Recommender.recommend_for_user self user_id top_n
             min_compatibility strategy →
       Recommender.profile_rows (Recommender.profiles_df self)
         !! Recommender.candidate_id (Recommender.rec_pair r) = Some profile →
       (Recommender.red_flag_score profile
        <= Recommender.red_flag_threshold self)%Q)
  ∧ (∀ r,
       r ∈ Recommender.recommend_for_user self user_id top_n
             min_compatibility strategy →
       ∃ row,
         row ∈ Recommender.pairs_df self
         ∧ Recommender.involves user_id row = true
         ∧ Recommender.rec_pair r = Recommender.with_candidate user_id row
         ∧ Recommender.ranking_score r
           = Recommender._calculate_ranking_score row strategy).
Proof.
  split; [apply recommend_for_user_sorted |].
  split; [apply recommend_for_user_length |].
  split; [| split].
  - intros r Hr.
    apply recommend_for_user_elem in Hr
      as (row & _ & _ & -> & _ & _ & Hcompat & _). done.
  - intros Hfilter Hcolumn r profile Hr Hprofile.
    apply recommend_for_user_elem in Hr
      as (row & _ & _ & _ & _ & _ & _ & Hflag).
    rewrite Hfilter, Hcolumn in Hflag. specialize (Hflag eq_refl).
    apply Qnot_lt_le. intros Hlt. apply Hflag.
    apply red_flag_profiles_spec. by exists profile.
  - intros r Hr.
    apply recommend_for_user_elem in Hr
      as (row & Hin & Hinv & Hpair & Hrank & _).
    by exists row.
Qed.

(** With filtering on, no recommendation for ["u1"] is above the
    threshold: the flagged candidate ["c2"] is left out. *)
Lemma C6_recommendations_witness :
  Forall
    (λ r, ∀ profile,
       Recommender.profile_rows
         (Recommender.profiles_df Examples.filtering_recommender)
         !! Recommender.candidate_id (Recommender.rec_pair r) = Some profile →
       (Recommender.red_flag_score profile
        <= Recommender.red_flag_threshold Examples.filtering_recommender)%Q)
    (Recommender.recommend_for_user Examples.filtering_recommender
       "u1" 10 40 "balanced").
Proof.
  apply Forall_forall. intros r Hr profile.
  apply (C6_recommendations_ranked_and_filtered Examples.filtering_recommender
           "u1" 10 40 "balanced"); [reflexivity | reflexivity | exact Hr].
Defined.

(** C7.  Under strategy ["mentorship"] the ranking score of every pair is
    [0.6 * predicted_mentorship_value + 0.4 * compatibility_score] (a table
    without the mentorship column counts as 0), and so is the ranking score
    of every recommendation returned.  The recommendations are ordered by
    that score: a recommendation never stands before one with a higher
    score, and whenever an eligible pair record of the user is returned,
    every eligible pair record with a strictly higher score is returned
    too, at an earlier position.  A pair with mentorship value 90 and
    compatibility 50 scores 74, a pair with mentorship value 40 and
    compatibility 80 scores 56, so the first is ranked above the second; on
    the sample table the candidates come out in that order. *)
Theorem C7_mentorship_ranking :
  (∀ row : Recommender.PairRow,
     (Recommender._calculate_ranking_score row "mentorship"
      == 0.6 * get (Recommender.predicted_mentorship_value row) 0
         + 0.4 * Recommender.compatibility_score row)%Q)
  ∧ (∀ self user_id top_n min_compatibility r,
       r ∈ Recommender.recommend_for_user self user_id top_n
             min_compatibility "mentorship" →
       (Recommender.ranking_score r
        == 0.6 * get (Recommender.predicted_mentorship_value
                        (Recommender.pair (Recommender.rec_pair r))) 0
           + 0.4 * Recommender.compatibility_score
                     (Recommender.pair (Recommender.rec_pair r)))%Q)
  ∧ (Recommender._calculate_ranking_score Examples.pair_c2 "mentorship" == 74)%Q
  ∧ (Recommender._calculate_ranking_score Examples.pair_c1 "mentorship" == 56)%Q
  ∧ (λ r, Recommender.candidate_id (Recommender.rec_pair r))
      <$> Recommender.recommend_for_user Examples.clean_recommender
            "u1" 10 40 "mentorship"
    = ["c2"; "c1"]
  ∧ Forall2 Qeq
      (Recommender.ranking_score
         <$> Recommender.recommend_for_user Examples.clean_recommender
               "u1" 10 40 "mentorship")
      [74%Q; 56%Q]
  ∧ (∀ self user_id top_n min_compatibility (i j : nat) first second,
       (i < j)%nat →
       Recommender.recommend_for_user self user_id top_n min_compatibility
         "mentorship" !! i = Some first →
       Recommender.recommend_for_user self user_id top_n min_compatibility
         "mentorship" !! j = Some second →
       (Spec.mentorship_score (Recommender.pair (Recommender.rec_pair second))
        <= Spec.mentorship_score
             (Recommender.pair (Recommender.rec_pair first)))%Q)
  ∧ (∀ self user_id top_n min_compatibility better worse (j : nat) second,
       better ∈ Spec.eligible_pairs self user_id min_compatibility →
       worse ∈ Spec.eligible_pairs self user_id min_compatibility →
       (Spec.mentorship_score worse < Spec.mentorship_score better)%Q →
       Recommender.recommend_for_user self user_id top_n min_compatibility
         "mentorship" !! j = Some second →
       Recommender.rec_pair second = Recommender.with_candidate user_id worse →
       ∃ (i : nat) first,
         (i < j)%nat
         ∧ Recommender.recommend_for_user self user_id top_n
             min_compatibility "mentorship" !! i = Some first
         ∧ Recommender.rec_pair first
           = Recommender.with_candidate user_id better)
  ∧ (∀ better worse : Recommender.PairRow,
       (get (Recommender.predicted_mentorship_value better) 0 == 90)%Q →
       (Recommender.compatibility_score better == 50)%Q →
       (get (Recommender.predicted_mentorship_value worse) 0 == 40)%Q →
       (Recommender.compatibility_score worse == 80)%Q →
       (Spec.mentorship_score better == 74)%Q
       ∧ (Spec.mentorship_score worse == 56)%Q
       ∧ (Spec.mentorship_score worse < Spec.mentorship_score better)%Q).
Proof.
  assert (Hrow : ∀ row : Recommender.PairRow,
     (Recommender._calculate_ranking_score row "mentorship"
      == 0.6 * get (Recommender.predicted_mentorship_value row) 0
         + 0.4 * Recommender.compatibility_score row)%Q).
  { intros row. unfold Recommender._calculate_ranking_score. simpl. ring. }
  assert (Hrec : ∀ self user_id top_n min_compatibility r,
       r ∈ Recommender.recommend_for_user self user_id top_n
             min_compatibility "mentorship" →
       (Recommender.ranking_score r
        == Spec.mentorship_score (Recommender.pair (Recommender.rec_pair r)))%Q).
  { intros self user_id top_n min_compatibility r Hr.
    apply recommend_for_user_elem in Hr
      as (row & _ & _ & -> & -> & _). apply Hrow. }
  split; [exact Hrow |].
  split; [exact Hrec |].
  split; [reflexivity |]. split; [reflexivity |].
  split; [vm_compute; reflexivity |].
  split; [vm_compute; repeat constructor |].
  split; [| split].
  - intros self user_id top_n min_compatibility i j first second Hlt Hi Hj.
    rewrite <- (Hrec self user_id top_n min_compatibility first)
      by by eapply list_elem_of_lookup_2.
    rewrite <- (Hrec self user_id top_n min_compatibility second)
      by by eapply list_elem_of_lookup_2.
    apply (StronglySorted_lookup_lt _ _ i j first second
             (recommend_for_user_sorted self user_id top_n min_compatibility
                "mentorship") Hlt Hi Hj).
  - intros self user_id top_n min_compatibility better worse j second
      Hbetter Hworse Hscore Hj Hpair.
    rewrite recommend_for_user_ranking in Hj |- *.
    unfold Recommender._enrich_recommendations in Hj |- *.
    rewrite list_lookup_fmap in Hj.
    destruct (Recommender.nlargest _ _ _ !! j) as [[up q] |] eqn:Hlookup;
      [| discriminate].
    injection Hj as <-. cbn [Recommender.rec_pair fst] in Hpair. subst up.
    assert (Hq : q = Recommender._calculate_ranking_score worse "mentorship").
    { apply list_elem_of_lookup_2, nlargest_elem in Hlookup.
      apply list_elem_of_fmap in Hlookup as (up & [= Hup ->] & _).
      by rewrite <- Hup. }
    subst q.
    destruct (nlargest_above Recommender.gt_ranking
                (λ x y : Recommender.UserPair * Q, (snd y <= snd x)%Q))
      with (n := top_n)
           (rows := (λ up, (up, Recommender._calculate_ranking_score
                                  (Recommender.pair up) "mentorship"))
                      <$> (Recommender.with_candidate user_id
                             <$> Spec.eligible_pairs self user_id
                                   min_compatibility))
           (x := (Recommender.with_candidate user_id better,
                  Recommender._calculate_ranking_score better "mentorship"))
           (y := (Recommender.with_candidate user_id worse,
                  Recommender._calculate_ranking_score worse "mentorship"))
           (j := j)
      as (i & Hlt & Hi).
    + intros y x Hgt. apply gtb_true in Hgt. lra.
    + intros y x Hgt. by apply gtb_false in Hgt.
    + intros x y z Hxy Hyz. lra.
    + intros x y Hgt Hle. apply gtb_true in Hgt. lra.
    + apply list_elem_of_fmap.
      exists (Recommender.with_candidate user_id better). split; [done |].
      apply list_elem_of_fmap. by exists better.
    + exact Hlookup.
    + unfold Recommender.gt_ranking. cbn [snd]. apply gtb_true.
      rewrite (Hrow better), (Hrow worse). exact Hscore.
    + eexists i, _. split; [done |].
      rewrite list_lookup_fmap, Hi. split; reflexivity.
  - intros better worse Hm1 Hc1 Hm2 Hc2. unfold Spec.mentorship_score.
    split_and!; lra.
Qed.

Lemma is_pair_of_true (user_id candidate_id : string) (row : Recommender.PairRow) :
  Recommender.is_pair_of user_id candidate_id row = true
  ↔ (Recommender.profile_a_id row = user_id
     ∧ Recommender.profile_b_id row = candidate_id)
    ∨ (Recommender.profile_a_id row = candidate_id
       ∧ Recommender.profile_b_id row = user_id).
Proof.
  unfold Recommender.is_pair_of.
  rewrite orb_true_iff, !andb_true_iff, !bool_decide_eq_true. done.
Qed.

Lemma pair_exists_filter (self : Recommender.ConnectionRecommender)
    (user_id candidate_id : string) :
  Spec.pair_exists self user_id candidate_id
  ↔ ∃ pair rest,
      List.filter (Recommender.is_pair_of user_id candidate_id)
                  (Recommender.pairs_df self) = pair :: rest.
Proof.
  unfold Spec.pair_exists. split.
  - intros (row & Hin & Hrow).
    apply is_pair_of_true in Hrow.
    assert (Hmem : row ∈ List.filter (Recommender.is_pair_of user_id candidate_id)
                           (Recommender.pairs_df self)).
    { apply list_elem_of_In, filter_In. split; [by apply list_elem_of_In | done]. }
    destruct (List.filter _ _) as [| pair rest]; [by apply elem_of_nil in Hmem |].
    by exists pair, rest.
  - intros (pair & rest & Heq).
    assert (Hmem : In pair (List.filter (Recommender.is_pair_of user_id candidate_id)
                              (Recommender.pairs_df self)))
      by (rewrite Heq; by left).
    apply filter_In in Hmem as [Hin Hrow].
    exists pair. split; [by apply list_elem_of_In | by apply is_pair_of_true].
Qed.

(** C9.  [evaluate_connection] returns the error value
    ["Connection pair not found"] when no pair record links the two
    profiles, and ["Candidate profile not found"] when a record exists but
    the candidate is absent from the profile set; when both exist it
    returns the full evaluation of the first such record, every field of
    which is given: the score and the recommendation chosen from it, the
    four entries of the ROI block, the six entries of the candidate info,
    the three entries of the red-flag block, the three entries of the
    hidden-gem block, and the explanation (a column the tables do not have
    counts as its default). *)
Theorem C9_evaluate_connection_not_found
    (self : Recommender.ConnectionRecommender) (user_id candidate_id : string) :
  (¬ Spec.pair_exists self user_id candidate_id →
   Recommender.evaluate_connection self user_id candidate_id
   = Recommender.EvaluationError "Connection pair not found")
  ∧ (Spec.pair_exists self user_id candidate_id →
     Recommender.profile_rows (Recommender.profiles_df self) !! candidate_id = None →
     Recommender.evaluate_connection self user_id candidate_id
     = Recommender.EvaluationError "Candidate profile not found")
  ∧ (Recommender.profile_rows (Recommender.profiles_df self) !! candidate_id = None →
     ∃ message,
       Recommender.evaluate_connection self user_id candidate_id
       = Recommender.EvaluationError message)
  ∧ (Spec.pair_exists self user_id candidate_id →
     ∀ candidate,
       Recommender.profile_rows (Recommender.profiles_df self) !! candidate_id
       = Some candidate →
       ∃ pair ev,
         head (List.filter (Recommender.is_pair_of user_id candidate_id)
                           (Recommender.pairs_df self)) = Some pair
         ∧ Recommender.evaluate_connection self user_id candidate_id
           = Recommender.EvaluationOk ev
         ∧ Recommender.eval_compatibility_score ev
           = Recommender.compatibility_score pair
         ∧ Recommender.recommendation ev
           = (if geb (Recommender.compatibility_score pair) 70 then "CONNECT"
              else if geb (Recommender.compatibility_score pair) 50
                   then "CONSIDER" else "SKIP")
         ∧ Recommender.roi_metrics ev
           = {| Recommender.job_opportunity :=
                  get (Recommender.predicted_job_opportunity_score pair) 0%Q;
                Recommender.mentorship_value :=
                  get (Recommender.predicted_mentorship_value pair) 0%Q;
                Recommender.collaboration_potential :=
                  get (Recommender.predicted_collaboration_potential pair) 0%Q;
                Recommender.expected_timeframe :=
                  get (Recommender.roi_timeframe pair) "unknown" |}
         ∧ Recommender.info_name (Recommender.candidate_info ev)
           = get (Recommender.name candidate) "Unknown"
         ∧ Recommender.info_years_experience (Recommender.candidate_info ev)
           = get (Recommender.years_experience candidate) 0%Z
         ∧ Recommender.reasons (Recommender.red_flags ev)
           = get (Recommender.red_flag_reasons candidate) "None"
         ∧ Recommender.has_red_flags (Recommender.red_flags ev)
           = gtb (Recommender.block_red_flag_score (Recommender.red_flags ev)) 50
         ∧ Recommender.is_gem (Recommender.hidden_gem ev)
           = gtb (Recommender.block_gem_score (Recommender.hidden_gem ev)) 70
         ∧ Recommender.explanation ev
           = get (Recommender.mutual_benefit_explanation pair) EmptyString
         ∧ Recommender.info_role (Recommender.candidate_info ev)
           = get (Recommender.current_role candidate) "Unknown"
         ∧ Recommender.info_company (Recommender.candidate_info ev)
           = get (Recommender.current_company candidate) "Unknown"
         ∧ Recommender.info_seniority (Recommender.candidate_info ev)
           = get (Recommender.seniority_level candidate) "Unknown"
         ∧ Recommender.info_industry (Recommender.candidate_info ev)
           = get (Recommender.industry candidate) "Unknown"
         ∧ Recommender.block_red_flag_score (Recommender.red_flags ev)
           = (if Recommender.has_red_flag_score (Recommender.profiles_df self)
              then Recommender.red_flag_score candidate else 0%Q)
         ∧ Recommender.block_gem_score (Recommender.hidden_gem ev)
           = (if Recommender.has_gem_score (Recommender.profiles_df self)
              then Recommender.gem_score candidate else 0%Q)
         ∧ Recommender.block_gem_type (Recommender.hidden_gem ev)
           = (if Recommender.has_gem_type (Recommender.profiles_df self)
              then Recommender.gem_type candidate else "None")).
Proof.
  unfold Recommender.evaluate_connection.
  split; [| split; [| split]].
  - intros Hnone.
    destruct (List.filter _ _) as [| pair rest] eqn:Hfilter; [done |].
    exfalso. apply Hnone. apply pair_exists_filter. by exists pair, rest.
  - intros Hpair Hcandidate.
    apply pair_exists_filter in Hpair as (pair & rest & ->).
    by rewrite Hcandidate.
  - intros Hcandidate. rewrite Hcandidate.
    destruct (List.filter _ _); by eexists.
  - intros Hpair candidate Hcandidate.
    apply pair_exists_filter in Hpair as (pair & rest & ->).
    rewrite Hcandidate. eexists pair, _.
    split; [reflexivity |]. split; [reflexivity |]. simpl.
    repeat split.
Qed.

(** No pair record links ["u1"] and ["c3"]. *)
Lemma C9_evaluate_connection_witness :
  Recommender.evaluate_connection Examples.clean_recommender "u1" "c3"
  = Recommender.EvaluationError "Connection pair not found".
Proof.
  apply (C9_evaluate_connection_not_found Examples.clean_recommender "u1" "c3").
  intros (row & Hin & Hrow).
  unfold Examples.clean_recommender, Examples.sample_pairs in Hin. simpl in Hin.
  repeat (apply elem_of_cons in Hin as [-> | Hin]);
    [simpl in Hrow; destruct Hrow as [[? ?] | [? ?]]; discriminate ..
    | by apply elem_of_nil in Hin].
Defined.

(** C10.  For a user that appears in no pair record, [recommend_for_user]
    and [get_hidden_gems] both return the empty frame, without raising,
    whatever [top_n], the thresholds and the strategy are. *)
Theorem C10_unknown_user_empty
    (self : Recommender.ConnectionRecommender) (user_id : string)
    (top_n : nat) (min_compatibility min_gem_score : Q) (strategy : string) :
  Spec.user_unknown self user_id →
  Recommender.recommend_for_user self user_id top_n min_compatibility strategy = []
  ∧ Recommender.get_hidden_gems self user_id top_n min_gem_score = Ok [].
Proof.
  intros Hunknown.
  unfold Recommender.recommend_for_user, Recommender.get_hidden_gems.
  by rewrite (user_unknown_no_pairs self user_id Hunknown).
Qed.

(** ["nobody"] appears in no pair record. *)
Lemma C10_unknown_user_witness :
  Recommender.recommend_for_user Examples.clean_recommender "nobody" 10 40 "roi" = []
  ∧ Recommender.get_hidden_gems Examples.clean_recommender "nobody" 10 60 = Ok [].
Proof.
  apply (C10_unknown_user_empty Examples.clean_recommender "nobody" 10 40 60 "roi").
  intros row Hin.
  unfold Examples.clean_recommender, Examples.sample_pairs in Hin. simpl in Hin.
  repeat (apply elem_of_cons in Hin as [-> | Hin]);
    [split; discriminate .. | by apply elem_of_nil in Hin].
Defined.

(** A corpus on which the rarity of ["rust"] (one profile in four) is at
    least that of ["python"] (three in four). *)
Lemma C5_rarity_witness :
  ∃ rarity_map r1 r2,
    HiddenGems.__init__ (Some Examples.corpus) = Ok rarity_map
    ∧ rarity_map !! "rust" = Some r1
    ∧ rarity_map !! "python" = Some r2
    ∧ (r2 <= r1)%Q.
Proof.
  destruct (C5_rarity_monotone_in_frequency Examples.corpus)
    as (rarity_map & Hrun & _ & Hmono & _).
  destruct (Hmono "rust" "python" (1 # 4) (3 # 4))
    as (r1 & r2 & H1 & H2 & Hle);
    [vm_compute; reflexivity | vm_compute; reflexivity | reflexivity |].
  exists rarity_map, r1, r2.
  exact (conj Hrun (conj H1 (conj H2 Hle))).
Defined.


(** * Further properties of the code *)

Set Warnings "-clear-no-such-hyp".

(** ** Hidden-gem analysis *)

Section GemScores.

Import GemAnalysis.

Lemma rarity_of_frequency_range (f : Q) :
  (0 <= f)%Q →
  (10 <= HiddenGems.rarity_of_frequency f)%Q
  ∧ (HiddenGems.rarity_of_frequency f <= 100)%Q.
Proof.
  intros Hf. unfold HiddenGems.rarity_of_frequency.
  repeat case_cmp; try (split; lra).
  split; [apply Q.le_max_l | apply Q.max_lub; lra].
Qed.

Lemma frequency_of_nonneg (profiles_df : list Profile) (skill : string) (f : Q) :
  HiddenGems.frequency_of profiles_df skill = Some f → (0 <= f)%Q.
Proof.
  unfold HiddenGems.frequency_of.
  destruct (HiddenGems.Counter _ !! skill) as [count |]; [| done].
  simpl. intros [= <-].
  unfold Qdiv. apply Qmult_le_0_compat.
  - change 0%Q with (inject_Z 0). rewrite <- Zle_Qle. lia.
  - apply Qinv_le_0_compat.
    change 0%Q with (inject_Z 0). rewrite <- Zle_Qle. unfold len. lia.
Qed.

Lemma sum_bounds (lo hi : Q) (values : list Q) :
  Forall (λ v, (lo <= v)%Q ∧ (v <= hi)%Q) values →
  (inject_Z (len values) * lo <= foldr Qplus 0 values)%Q
  ∧ (foldr Qplus 0 values <= inject_Z (len values) * hi)%Q.
Proof.
  induction 1 as [| v values [Hlo Hhi] _ [IHlo IHhi]].
  - unfold len. simpl. change (inject_Z (Z.of_nat 0)) with 0%Q. split; lra.
  - assert (Hlen : (inject_Z (len (v :: values))
                    == inject_Z (len values) + 1)%Q).
    { unfold len. simpl length. rewrite Nat2Z.inj_succ, <- Z.add_1_r.
      by rewrite inject_Z_plus. }
    rewrite Hlen. cbn [foldr]. split; lra.
Qed.

Lemma mean_bounds (lo hi : Q) (values : list Q) :
  values ≠ [] →
  Forall (λ v, (lo <= v)%Q ∧ (v <= hi)%Q) values →
  (lo <= mean values)%Q ∧ (mean values <= hi)%Q.
Proof.
  intros Hne Hall. destruct (sum_bounds lo hi values Hall) as [Hlo Hhi].
  assert (Hpos : (0 < inject_Z (len values))%Q).
  { change 0%Q with (inject_Z 0). rewrite <- Zlt_Qlt. unfold len.
    destruct values; [done | simpl; lia]. }
  unfold mean. split.
  - apply Qle_shift_div_l; [done |]. lra.
  - apply Qle_shift_div_r; [done |]. lra.
Qed.

Lemma skill_rarity_score_in_range (self : HiddenGemsDetector) (profile : Profile) :
  More.rarities_on_scale (skill_rarity_map self) →
  Spec.in_range (_calculate_skill_rarity_score self profile).
Proof.
  intros Hmap. unfold _calculate_skill_rarity_score.
  case_bool_decide as Hempty.
  { unfold _calculate_skill_rarity_fallback.
    repeat (match goal with |- context [if ?c then _ else _] => destruct c end);
      split; lra. }
  destruct (get (skills profile) []) as [| skill skills] eqn:Hskills;
    [split; lra |].
  set (values := (λ skill, default 30%Q (skill_rarity_map self !! skill))
                   <$> skill :: skills).
  assert (Hmean : (0 <= mean values)%Q ∧ (mean values <= 100)%Q).
  { apply mean_bounds; [done |].
    apply Forall_fmap, Forall_forall. intros s _. simpl.
    destruct (skill_rarity_map self !! s) as [r |] eqn:Hr; simpl;
      [by apply (Hmap s) | split; lra]. }
  destruct Hmean as [H0 H100].
  repeat (match goal with |- context [if ?c then _ else _] => destruct c end);
    split; try done; try apply Q.le_min_l; apply Q.min_glb; lra.
Qed.

Lemma undervalued_in_range (profile : Profile) :
  Spec.in_range (_calculate_undervalued_score profile).
Proof.
  unfold _calculate_undervalued_score.
  split; [| apply Q.le_min_l]. apply Q.min_glb; [lra |].
  repeat (match goal with |- context [if ?c then _ else _] => destruct c end); lra.
Qed.

Lemma rising_star_in_range (profile : Profile) :
  Spec.in_range (_calculate_rising_star_score profile).
Proof.
  unfold _calculate_rising_star_score.
  split; [| apply Q.le_min_l]. apply Q.min_glb; [lra |].
  repeat (match goal with |- context [if ?c then _ else _] => destruct c end); lra.
Qed.

Lemma super_connector_in_range (profile : Profile) :
  Spec.in_range (_calculate_super_connector_score profile).
Proof.
  unfold _calculate_super_connector_score.
  split; [| apply Q.le_min_l]. apply Q.min_glb; [lra |].
  repeat (match goal with |- context [if ?c then _ else _] => destruct c end); lra.
Qed.

Lemma overall_gem_score_in_range (u r s k : Q) :
  Spec.in_range u → Spec.in_range r → Spec.in_range s → Spec.in_range k →
  Spec.in_range (_calculate_overall_gem_score u r s k).
Proof.
  intros [? ?] [? ?] [? ?] [? ?]. unfold _calculate_overall_gem_score.
  split; [| apply Q.le_min_l]. apply Q.min_glb; lra.
Qed.

Lemma corpus_rarity_values (profiles_df : list Profile) :
  ∃ rarity_map,
    HiddenGems.__init__ (Some profiles_df) = Ok rarity_map
    ∧ ∀ skill r, rarity_map !! skill = Some r → (10 <= r)%Q ∧ (r <= 100)%Q.
Proof.
  destruct (skill_rarity_map_ok profiles_df) as (rarity_map & Hrun & Hmap).
  exists rarity_map. split; [exact Hrun |].
  intros skill r. rewrite Hmap.
  destruct (HiddenGems.frequency_of profiles_df skill) as [f |] eqn:Hf; [| done].
  simpl. intros [= <-].
  apply rarity_of_frequency_range. by apply (frequency_of_nonneg profiles_df skill).
Qed.

End GemScores.

(** X1.  The rarity map of a detector built on a corpus has an entry for
    exactly the skills that occur in the corpus, and every rarity it holds
    lies between 10 and 100. *)
Theorem X1_rarity_map_keys_and_range (profiles_df : list Profile) :
  ∃ rarity_map,
    HiddenGems.__init__ (Some profiles_df) = Ok rarity_map
    ∧ (∀ skill, is_Some (rarity_map !! skill)
                ↔ skill ∈ HiddenGems.all_skills profiles_df)
    ∧ (∀ skill r, rarity_map !! skill = Some r → (10 <= r)%Q ∧ (r <= 100)%Q).
Proof.
  destruct (skill_rarity_map_ok profiles_df) as (rarity_map & Hrun & Hmap).
  exists rarity_map. split; [exact Hrun |]. split.
  - intros skill. rewrite Hmap. unfold HiddenGems.frequency_of.
    split.
    + intros [r Hr].
      destruct (HiddenGems.Counter _ !! skill) as [count |] eqn:Hcount; [| done].
      apply Counter_lookup in Hcount as [-> Hpos].
      apply list_elem_of_In. by apply (count_occ_In string_dec).
    + intros Hin.
      assert (Hocc : (0 < count_occ string_dec
                           (HiddenGems.all_skills profiles_df) skill)%nat)
        by (apply count_occ_In; by apply list_elem_of_In).
      rewrite (proj2 (Counter_lookup _ skill _) (conj eq_refl Hocc)).
      simpl. by eexists.
  - destruct (corpus_rarity_values profiles_df) as (rarity_map' & Hrun' & Hrange).
    rewrite Hrun in Hrun'. injection Hrun' as <-. exact Hrange.
Qed.

(** X2.  Whatever corpus the detector is built on (or none), it is built
    without raising, and for every profile the four component scores and
    the overall [gem_score] of [analyze_profile] lie in [0,100]. *)
Theorem X2_gem_scores_in_range
    (all_profiles : option (list Profile)) (profile : Profile) :
  ∃ detector,
    GemAnalysis.__init__ all_profiles = Ok detector
    ∧ Spec.in_range (GemAnalysis.undervalued_score
                       (GemAnalysis.analyze_profile detector profile))
    ∧ Spec.in_range (GemAnalysis.rising_star_score
                       (GemAnalysis.analyze_profile detector profile))
    ∧ Spec.in_range (GemAnalysis.super_connector_score
                       (GemAnalysis.analyze_profile detector profile))
    ∧ Spec.in_range (GemAnalysis.skill_rarity_score
                       (GemAnalysis.analyze_profile detector profile))
    ∧ Spec.in_range (GemAnalysis.gem_score
                       (GemAnalysis.analyze_profile detector profile)).
Proof.
  assert (Hmap : ∃ rarity_map,
            HiddenGems.__init__ all_profiles = Ok rarity_map
            ∧ More.rarities_on_scale rarity_map).
  { destruct all_profiles as [profiles_df |].
    - destruct (corpus_rarity_values profiles_df) as (rarity_map & Hrun & Hrange).
      exists rarity_map. split; [exact Hrun |].
      intros skill r Hr. destruct (Hrange skill r Hr). split; lra.
    - exists ∅. split; [done |]. intros skill r. by rewrite lookup_empty. }
  destruct Hmap as (rarity_map & Hrun & Hscale).
  unfold GemAnalysis.__init__. rewrite Hrun. simpl.
  eexists. split; [reflexivity |].
  unfold GemAnalysis.analyze_profile.
  cbn [GemAnalysis.undervalued_score GemAnalysis.rising_star_score
       GemAnalysis.super_connector_score GemAnalysis.skill_rarity_score
       GemAnalysis.gem_score].
  pose proof (undervalued_in_range profile).
  pose proof (rising_star_in_range profile).
  pose proof (super_connector_in_range profile).
  pose proof (skill_rarity_score_in_range
                (GemAnalysis.mkHiddenGemsDetector rarity_map
                   GemAnalysis.default_high_value_skills) profile Hscale).
  repeat (split; [done |]).
  by apply overall_gem_score_in_range.
Qed.

Lemma gem_type_names :
  PyText.title (PyText.replace_char "_" " " "undervalued") = "Undervalued"
  ∧ PyText.title (PyText.replace_char "_" " " "rising_star") = "Rising Star"
  ∧ PyText.title (PyText.replace_char "_" " " "super_connector") = "Super Connector"
  ∧ PyText.title (PyText.replace_char "_" " " "rare_skills") = "Rare Skills".
Proof. repeat split; vm_compute; reflexivity. Qed.

Lemma categorize_gem_type_cases (u r s k : Q) :
  let type := GemAnalysis._categorize_gem_type u r s k in
  (type = "none" ∧ (u < 40)%Q ∧ (r < 40)%Q ∧ (s < 40)%Q ∧ (k < 40)%Q)
  ∨ (type = "Undervalued"
     ∧ (40 <= u)%Q ∧ (r <= u)%Q ∧ (s <= u)%Q ∧ (k <= u)%Q)
  ∨ (type = "Rising Star"
     ∧ (40 <= r)%Q ∧ (u < r)%Q ∧ (s <= r)%Q ∧ (k <= r)%Q)
  ∨ (type = "Super Connector"
     ∧ (40 <= s)%Q ∧ (u < s)%Q ∧ (r < s)%Q ∧ (k <= s)%Q)
  ∨ (type = "Rare Skills"
     ∧ (40 <= k)%Q ∧ (u < k)%Q ∧ (r < k)%Q ∧ (s < k)%Q).
Proof.
  destruct gem_type_names as (Hu & Hr & Hs & Hk).
  unfold GemAnalysis._categorize_gem_type. cbn [GemAnalysis.max_by_value snd].
  destruct (gtb r u) eqn:H1; [apply gtb_true in H1 | apply gtb_false in H1];
    cbn [snd fst];
    (destruct (gtb s _) eqn:H2; [apply gtb_true in H2 | apply gtb_false in H2]);
    cbn [snd fst];
    (destruct (gtb k _) eqn:H3; [apply gtb_true in H3 | apply gtb_false in H3]);
    cbv beta iota zeta;
    (destruct (ltb _ 40) eqn:H4; [apply ltb_true in H4 | apply ltb_false in H4]);
    rewrite ?Hu, ?Hr, ?Hs, ?Hk.
  all: first
    [ left; split_and!; first [reflexivity | lra]
    | right; left; split_and!; first [reflexivity | lra]
    | right; right; left; split_and!; first [reflexivity | lra]
    | right; right; right; left; split_and!; first [reflexivity | lra]
    | right; right; right; right; split_and!; first [reflexivity | lra] ].
Qed.

(** X3.  [gem_type] names the dominant component of a report: it is
    ["none"] exactly when all four component scores are below 40, and
    otherwise the title-cased name of a component that is at least 40 and
    not exceeded by any other (the earlier one winning a tie).  A report of
    type ["none"] has a [gem_score] below 40. *)
Theorem X3_gem_type_dominant
    (self : GemAnalysis.HiddenGemsDetector) (profile : Profile) :
  (GemAnalysis.gem_type (GemAnalysis.analyze_profile self profile) = "none"
   ↔ (GemAnalysis.undervalued_score (GemAnalysis.analyze_profile self profile) < 40)%Q
     ∧ (GemAnalysis.rising_star_score (GemAnalysis.analyze_profile self profile) < 40)%Q
     ∧ (GemAnalysis.super_connector_score (GemAnalysis.analyze_profile self profile) < 40)%Q
     ∧ (GemAnalysis.skill_rarity_score (GemAnalysis.analyze_profile self profile) < 40)%Q)
  ∧ (GemAnalysis.gem_type (GemAnalysis.analyze_profile self profile) = "none" →
     (GemAnalysis.gem_score (GemAnalysis.analyze_profile self profile) < 40)%Q)
  ∧ (GemAnalysis.gem_type (GemAnalysis.analyze_profile self profile) = "Undervalued" →
     (40 <= GemAnalysis.undervalued_score (GemAnalysis.analyze_profile self profile))%Q
     ∧ (GemAnalysis.rising_star_score (GemAnalysis.analyze_profile self profile)
        <= GemAnalysis.undervalued_score (GemAnalysis.analyze_profile self profile))%Q
     ∧ (GemAnalysis.super_connector_score (GemAnalysis.analyze_profile self profile)
        <= GemAnalysis.undervalued_score (GemAnalysis.analyze_profile self profile))%Q
     ∧ (GemAnalysis.skill_rarity_score (GemAnalysis.analyze_profile self profile)
        <= GemAnalysis.undervalued_score (GemAnalysis.analyze_profile self profile))%Q)
  ∧ (GemAnalysis.gem_type (GemAnalysis.analyze_profile self profile) = "Rising Star" →
     (40 <= GemAnalysis.rising_star_score (GemAnalysis.analyze_profile self profile))%Q
     ∧ (GemAnalysis.undervalued_score (GemAnalysis.analyze_profile self profile)
        < GemAnalysis.rising_star_score (GemAnalysis.analyze_profile self profile))%Q
     ∧ (GemAnalysis.super_connector_score (GemAnalysis.analyze_profile self profile)
        <= GemAnalysis.rising_star_score (GemAnalysis.analyze_profile self profile))%Q
     ∧ (GemAnalysis.skill_rarity_score (GemAnalysis.analyze_profile self profile)
        <= GemAnalysis.rising_star_score (GemAnalysis.analyze_profile self profile))%Q)
  ∧ (GemAnalysis.gem_type (GemAnalysis.analyze_profile self profile) = "Super Connector" →
     (40 <= GemAnalysis.super_connector_score (GemAnalysis.analyze_profile self profile))%Q
     ∧ (GemAnalysis.undervalued_score (GemAnalysis.analyze_profile self profile)
        < GemAnalysis.super_connector_score (GemAnalysis.analyze_profile self profile))%Q
     ∧ (GemAnalysis.rising_star_score (GemAnalysis.analyze_profile self profile)
        < GemAnalysis.super_connector_score (GemAnalysis.analyze_profile self profile))%Q
     ∧ (GemAnalysis.skill_rarity_score (GemAnalysis.analyze_profile self profile)
        <= GemAnalysis.super_connector_score (GemAnalysis.analyze_profile self profile))%Q)
  ∧ (GemAnalysis.gem_type (GemAnalysis.analyze_profile self profile) = "Rare Skills" →
     (40 <= GemAnalysis.skill_rarity_score (GemAnalysis.analyze_profile self profile))%Q
     ∧ (GemAnalysis.undervalued_score (GemAnalysis.analyze_profile self profile)
        < GemAnalysis.skill_rarity_score (GemAnalysis.analyze_profile self profile))%Q
     ∧ (GemAnalysis.rising_star_score (GemAnalysis.analyze_profile self profile)
        < GemAnalysis.skill_rarity_score (GemAnalysis.analyze_profile self profile))%Q
     ∧ (GemAnalysis.super_connector_score (GemAnalysis.analyze_profile self profile)
        < GemAnalysis.skill_rarity_score (GemAnalysis.analyze_profile self profile))%Q)
  ∧ GemAnalysis.gem_type (GemAnalysis.analyze_profile self profile)
    ∈ ["none"; "Undervalued"; "Rising Star"; "Super Connector"; "Rare Skills"].
Proof.
  unfold GemAnalysis.analyze_profile.
  cbn [GemAnalysis.gem_type GemAnalysis.gem_score GemAnalysis.undervalued_score
       GemAnalysis.rising_star_score GemAnalysis.super_connector_score
       GemAnalysis.skill_rarity_score].
  set (u := GemAnalysis._calculate_undervalued_score profile).
  set (r := GemAnalysis._calculate_rising_star_score profile).
  set (s := GemAnalysis._calculate_super_connector_score profile).
  set (k := GemAnalysis._calculate_skill_rarity_score self profile).
  assert (Hscore : (GemAnalysis._calculate_overall_gem_score u r s k
                    <= 0 + u * 0.30 + r * 0.25 + s * 0.25 + k * 0.20)%Q)
    by apply Q.le_min_r.
  destruct (categorize_gem_type_cases u r s k)
    as [(-> & ?) | [(-> & ?) | [(-> & ?) | [(-> & ?) | (-> & ?)]]]].
  all: split_and!; try discriminate; try tauto;
    try (intros _; lra);
    try (split; [discriminate | intros; lra]);
    try (split; [intros _; tauto | reflexivity]).
  all: repeat (first [apply list_elem_of_here | apply list_elem_of_further]).
Qed.

Section FrameFacts.

Import Frames.

Lemma series_filled (row : FrameRow) :
  is_Some (series row) →
  missing (cell_years_experience row) = false
  ∧ missing (cell_connections row) = false
  ∧ missing (cell_skills row) = false.
Proof.
  intros [profile Hp]. unfold series in Hp.
  destruct (cell_years_experience row) as [[| ?] |]; simpl in *;
    try discriminate;
  destruct (cell_seniority_level row) as [[| ?] |]; simpl in *;
    try discriminate;
  destruct (cell_industry row) as [[| ?] |]; simpl in *; try discriminate;
  destruct (cell_location row) as [[| ?] |]; simpl in *; try discriminate;
  destruct (cell_connections row) as [[| ?] |]; simpl in *; try discriminate;
  destruct (cell_skills row) as [[| ?] |]; simpl in *; try discriminate.
  all: by split_and!.
Qed.

Lemma complete_nan_rows (allowed : FrameRow → bool) (frame : list FrameRow) :
  complete frame = true → nan_rows allowed frame = true.
Proof.
  unfold complete, nan_rows. intros [Hu Hs]%andb_true_iff.
  rewrite forallb_forall in Hs.
  rewrite Hu. simpl. apply andb_true_iff. split.
  - unfold numeric_filled. apply forallb_forall. intros row Hin.
    apply Hs, bool_decide_eq_true, series_filled in Hin as (-> & -> & _). done.
  - apply forallb_forall. intros row Hin. by rewrite (Hs row Hin).
Qed.

Lemma complete_no_skills_list (frame : list FrameRow) (row : FrameRow) :
  complete frame = true → row ∈ frame → no_skills_list row = false.
Proof.
  unfold complete. intros [_ Hs]%andb_true_iff Hin.
  rewrite forallb_forall in Hs.
  apply list_elem_of_In, Hs, bool_decide_eq_true, series_filled in Hin
    as (_ & _ & Hskills).
  exact Hskills.
Qed.

(** In such a frame a row is covered by the model of the engines or is one
    of the [allowed] rows. *)
Lemma nan_rows_row (allowed : FrameRow → bool) (frame : list FrameRow)
    (row : FrameRow) :
  nan_rows allowed frame = true → row ∈ frame → allowed row = false →
  ∃ profile, series row = Some profile ∧ series_in frame row = Some profile
             ∧ no_skills_list row = false.
Proof.
  unfold nan_rows, series_in.
  intros [-> Hrows]%andb_true_iff Hin Hallowed.
  rewrite forallb_forall in Hrows.
  apply list_elem_of_In, Hrows in Hin. rewrite Hallowed, orb_false_r in Hin.
  apply bool_decide_eq_true in Hin.
  destruct (series_filled row Hin) as (_ & _ & Hskills).
  destruct Hin as [profile Hp]. by exists profile.
Qed.

Lemma keyed_ids (frame : list FrameRow) :
  ((λ row, (profile_id row, row)) <$> frame).*1 = profile_id <$> frame.
Proof. induction frame as [| row frame IH]; simpl; [done | f_equal; exact IH]. Qed.

Lemma to_dict_index_lookup (frame : list FrameRow) (id : string) :
  NoDup (profile_id <$> frame) →
  ∃ profiles_dict,
    to_dict_index frame = Ok profiles_dict
    ∧ (∀ row, profiles_dict !! id = Some row
              ↔ row ∈ frame ∧ profile_id row = id)
    ∧ (profiles_dict !! id = None ↔ id ∉ profile_id <$> frame).
Proof.
  intros Hnodup. eexists. unfold to_dict_index.
  rewrite bool_decide_eq_true_2 by done. split; [done |]. split.
  - intros row. rewrite <- elem_of_list_to_map by by rewrite keyed_ids.
    rewrite list_elem_of_fmap. split.
    + intros (row' & Heq & Hin). injection Heq as -> ->. done.
    + intros [Hin <-]. by exists row.
  - by rewrite <- not_elem_of_list_to_map, keyed_ids.
Qed.

End FrameFacts.

Section GemBatch.

Import GemAnalysis.

Variable gem_analysis_nan :
  list Frames.FrameRow → HiddenGemsDetector → Frames.FrameRow → result GemReport.
Variable red_flag_analysis_nan :
  list Frames.FrameRow → Frames.FrameRow → result RedFlags.RedFlagReport.

(** The loop over a frame whose rows are covered by the model or have no
    list of skills: it stops with [TypeError] at the first row without a
    list, and otherwise gives every row its report. *)
Lemma gem_rows_outcome (profiles_df : list Frames.FrameRow)
    (self : HiddenGemsDetector) (rows : list Frames.FrameRow)
    (gem_data : list GemReport) :
  Frames.nan_rows Frames.no_skills_list profiles_df = true →
  rows ⊆ profiles_df →
  if existsb Frames.no_skills_list rows
  then GemBatch.analyze_rows gem_analysis_nan profiles_df self rows gem_data
       = Raise TypeError
  else ∃ reports,
    GemBatch.analyze_rows gem_analysis_nan profiles_df self rows gem_data
    = Ok (gem_data ++ reports)%list
    ∧ Forall2 (More.gem_report_of self) (zip rows reports) rows
    ∧ length reports = length rows.
Proof.
  intros Hframe. revert gem_data.
  induction rows as [| row rows IH]; intros gem_data Hsub.
  - exists []. simpl. by rewrite app_nil_r.
  - simpl. unfold GemBatch.analyze_row.
    destruct (Frames.no_skills_list row) eqn:Hskills; [done |].
    destruct (nan_rows_row Frames.no_skills_list profiles_df row Hframe)
      as (profile & Hs & Hv & _); [apply Hsub; by left | done |].
    rewrite Hv. cbn [mbind result_bind orb].
    specialize (IH (gem_data ++ [analyze_profile self profile])%list).
    destruct (existsb Frames.no_skills_list rows).
    + apply IH. intros r Hr. apply Hsub. by right.
    + destruct IH as (reports & -> & Hreports & Hlen).
      { intros r Hr. apply Hsub. by right. }
      exists (analyze_profile self profile :: reports).
      rewrite <- app_assoc. split_and!; [done | | by simpl; f_equal].
      simpl. constructor; [| done]. split; [done |]. by exists profile.
Qed.

Lemma red_flag_rows_outcome (profiles_df rows : list Frames.FrameRow)
    (red_flag_data : list RedFlags.RedFlagReport) :
  Frames.nan_rows RedFlagsBatch.no_skills_list_but_role profiles_df = true →
  rows ⊆ profiles_df →
  if existsb RedFlagsBatch.no_skills_list_but_role rows
  then RedFlagsBatch.analyze_rows red_flag_analysis_nan profiles_df rows
         red_flag_data = Raise TypeError
  else ∃ reports,
    RedFlagsBatch.analyze_rows red_flag_analysis_nan profiles_df rows
                               red_flag_data
    = Ok (red_flag_data ++ reports)%list
    ∧ Forall2 More.red_flag_report_of (zip rows reports) rows
    ∧ length reports = length rows.
Proof.
  intros Hframe. revert red_flag_data.
  induction rows as [| row rows IH]; intros red_flag_data Hsub.
  - exists []. simpl. by rewrite app_nil_r.
  - simpl. unfold RedFlagsBatch.analyze_row.
    destruct (RedFlagsBatch.no_skills_list_but_role row) eqn:Hskills; [done |].
    destruct (nan_rows_row RedFlagsBatch.no_skills_list_but_role
                profiles_df row Hframe)
      as (profile & Hs & Hv & _); [apply Hsub; by left | done |].
    rewrite Hv. cbn [mbind result_bind orb].
    specialize (IH (red_flag_data ++ [RedFlags.analyze_profile profile])%list).
    destruct (existsb RedFlagsBatch.no_skills_list_but_role rows).
    + apply IH. intros r Hr. apply Hsub. by right.
    + destruct IH as (reports & -> & Hreports & Hlen).
      { intros r Hr. apply Hsub. by right. }
      exists (RedFlags.analyze_profile profile :: reports).
      rewrite <- app_assoc. split_and!; [done | | by simpl; f_equal].
      simpl. constructor; [| done]. split; [done |]. by exists profile.
Qed.

Lemma complete_existsb (allowed : Frames.FrameRow → bool)
    (profiles_df : list Frames.FrameRow) :
  Frames.complete profiles_df = true →
  (∀ row, allowed row = true → Frames.no_skills_list row = true) →
  existsb allowed profiles_df = false.
Proof.
  intros Hcomplete Hallowed.
  destruct (existsb allowed profiles_df) eqn:Hex; [| done].
  apply existsb_exists in Hex as (row & Hin & Hrow).
  apply list_elem_of_In in Hin.
  specialize (Hallowed row Hrow).
  by rewrite (complete_no_skills_list profiles_df row Hcomplete Hin) in Hallowed.
Qed.

Lemma gem_rows_raise (profiles_df : list Frames.FrameRow)
    (self : HiddenGemsDetector) (rows : list Frames.FrameRow)
    (gem_data : list GemReport) (row : Frames.FrameRow) (e : exn) :
  row ∈ rows →
  GemBatch.analyze_row gem_analysis_nan profiles_df self row = Raise e →
  ∃ e', GemBatch.analyze_rows gem_analysis_nan profiles_df self rows gem_data
        = Raise e'.
Proof.
  intros Hin Hraise. revert gem_data.
  induction rows as [| first rows IH]; intros gem_data.
  - by apply elem_of_nil in Hin.
  - simpl. apply elem_of_cons in Hin as [<- | Hin].
    + rewrite Hraise. by exists e.
    + destruct (GemBatch.analyze_row gem_analysis_nan profiles_df self first)
        as [gems | e1]; [by apply IH | by exists e1].
Qed.

Lemma red_flag_rows_raise (profiles_df rows : list Frames.FrameRow)
    (red_flag_data : list RedFlags.RedFlagReport)
    (row : Frames.FrameRow) (e : exn) :
  row ∈ rows →
  RedFlagsBatch.analyze_row red_flag_analysis_nan profiles_df row = Raise e →
  ∃ e', RedFlagsBatch.analyze_rows red_flag_analysis_nan profiles_df rows
          red_flag_data = Raise e'.
Proof.
  intros Hin Hraise. revert red_flag_data.
  induction rows as [| first rows IH]; intros red_flag_data.
  - by apply elem_of_nil in Hin.
  - simpl. apply elem_of_cons in Hin as [<- | Hin].
    + rewrite Hraise. by exists e.
    + destruct (RedFlagsBatch.analyze_row red_flag_analysis_nan profiles_df first)
        as [flags | e1]; [by apply IH | by exists e1].
Qed.

(** The lazy computation of [batch_analyze] leaves the rarity map of a
    detector built on the frame as it is, and gives a detector built
    without a corpus that same map. *)
Lemma batch_rarity_map (profiles_df : list Frames.FrameRow) :
  ∃ rarity_map,
    HiddenGems.__init__ (Some (Frames.skills_view <$> profiles_df))
    = Ok rarity_map
    ∧ (if bool_decide (rarity_map = ∅)
       then HiddenGems._calculate_skill_rarity rarity_map
              (Frames.skills_view <$> profiles_df)
       else Ok rarity_map) = Ok rarity_map
    ∧ HiddenGems._calculate_skill_rarity ∅ (Frames.skills_view <$> profiles_df)
      = Ok rarity_map.
Proof.
  destruct (skill_rarity_map_ok (Frames.skills_view <$> profiles_df))
    as (rarity_map & Hmap & _).
  exists rarity_map. split_and!; [done | | done].
  case_bool_decide as Hempty; [| done].
  unfold HiddenGems.__init__ in Hmap. rewrite Hempty at 1. done.
Qed.

(** X28.  On an empty frame [analyze_profiles_for_gems] and
    [analyze_profiles_for_red_flags] raise [KeyError]: their statistics line
    reads a column of a frame that has none.  On a frame with at least one
    row and without NaN neither raises: each returns the rows in their
    order, every one with the report [analyze_profile] gives for it -- for
    the gems with the detector built on the whole frame, whose rarity map
    the lazy computation in [batch_analyze] never changes; a detector built
    without a corpus computes the map from the batch and gives the same
    rows.  A frame that holds NaN is another matter.  Where its columns of
    integers are filled and every row with a NaN has one for its skills,
    the gem analysis raises [TypeError] as soon as there is such a row, and
    so does the red-flag analysis when those rows have a role.  And nothing
    in either loop is caught: when [analyze_profile] raises on a row, the
    whole call raises. *)
Theorem X28_batch_analysis (profiles_df : list Frames.FrameRow) :
  (profiles_df = [] →
   GemBatch.analyze_profiles_for_gems gem_analysis_nan profiles_df
   = Raise KeyError
   ∧ RedFlagsBatch.analyze_profiles_for_red_flags red_flag_analysis_nan
       profiles_df = Raise KeyError)
  ∧ (∃ detector without_corpus,
       __init__ (Some (Frames.skills_view <$> profiles_df)) = Ok detector
       ∧ __init__ None = Ok without_corpus
       ∧ GemBatch.batch_analyze gem_analysis_nan without_corpus profiles_df
         = GemBatch.analyze_profiles_for_gems gem_analysis_nan profiles_df
       ∧ (profiles_df ≠ [] → Frames.complete profiles_df = true →
          ∃ gems flags,
            GemBatch.analyze_profiles_for_gems gem_analysis_nan profiles_df
            = Ok gems
            ∧ Forall2 (More.gem_report_of detector) gems profiles_df
            ∧ RedFlagsBatch.analyze_profiles_for_red_flags
                red_flag_analysis_nan profiles_df = Ok flags
            ∧ Forall2 More.red_flag_report_of flags profiles_df)
       ∧ (Frames.nan_rows Frames.no_skills_list profiles_df = true →
          existsb Frames.no_skills_list profiles_df = true →
          GemBatch.analyze_profiles_for_gems gem_analysis_nan profiles_df
          = Raise TypeError)
       ∧ (Frames.nan_rows RedFlagsBatch.no_skills_list_but_role profiles_df
          = true →
          existsb RedFlagsBatch.no_skills_list_but_role profiles_df = true →
          RedFlagsBatch.analyze_profiles_for_red_flags red_flag_analysis_nan
            profiles_df = Raise TypeError)
       ∧ (∀ row e, row ∈ profiles_df →
            GemBatch.analyze_row gem_analysis_nan profiles_df detector row
            = Raise e →
            ∃ e', GemBatch.analyze_profiles_for_gems gem_analysis_nan
                    profiles_df = Raise e')
       ∧ (∀ row e, row ∈ profiles_df →
            RedFlagsBatch.analyze_row red_flag_analysis_nan profiles_df row
            = Raise e →
            ∃ e', RedFlagsBatch.analyze_profiles_for_red_flags
                    red_flag_analysis_nan profiles_df = Raise e')).
Proof.
  split; [by intros -> |].
  destruct (batch_rarity_map profiles_df) as (rarity_map & Hmap & Hlazy & Hfresh).
  set (detector := mkHiddenGemsDetector rarity_map default_high_value_skills).
  assert (Hgems :
    GemBatch.analyze_profiles_for_gems gem_analysis_nan profiles_df
    = (gem_data ← GemBatch.analyze_rows gem_analysis_nan profiles_df detector
                    profiles_df [];
       match gem_data with
       | [] => Raise KeyError
       | _ => Ok (zip profiles_df gem_data)
       end)).
  { unfold GemBatch.analyze_profiles_for_gems, __init__. rewrite Hmap.
    cbn [mbind result_bind]. unfold GemBatch.batch_analyze.
    cbn [skill_rarity_map high_value_skills]. rewrite Hlazy. done. }
  exists detector, (mkHiddenGemsDetector ∅ default_high_value_skills).
  split_and!.
  - unfold __init__. by rewrite Hmap.
  - done.
  - rewrite Hgems. unfold GemBatch.batch_analyze.
    cbn [skill_rarity_map high_value_skills].
    rewrite bool_decide_eq_true_2 by done. rewrite Hfresh. done.
  - intros Hne Hcomplete.
    pose proof (gem_rows_outcome profiles_df detector profiles_df []
                  (complete_nan_rows _ _ Hcomplete)) as Hg.
    pose proof (red_flag_rows_outcome profiles_df profiles_df []
                  (complete_nan_rows _ _ Hcomplete)) as Hf.
    rewrite (complete_existsb Frames.no_skills_list) in Hg by done.
    rewrite (complete_existsb RedFlagsBatch.no_skills_list_but_role) in Hf;
      [| done | by intros row [? _]%andb_true_iff].
    destruct Hg as (gems & Hrun & Hreports & Hlen); [done |].
    destruct Hf as (flags & Hrun' & Hreports' & Hlen'); [done |].
    exists (zip profiles_df gems), (zip profiles_df flags).
    rewrite Hgems, Hrun.
    unfold RedFlagsBatch.analyze_profiles_for_red_flags,
      RedFlagsBatch.batch_analyze. rewrite Hrun'.
    cbn [mbind result_bind app].
    destruct profiles_df as [| first others]; [done |].
    destruct gems as [| gem gems]; [done |].
    destruct flags as [| flag flags]; [done |].
    done.
  - intros Hframe Hex. rewrite Hgems.
    pose proof (gem_rows_outcome profiles_df detector profiles_df [] Hframe)
      as Hg.
    rewrite Hex in Hg. by rewrite Hg.
  - intros Hframe Hex.
    unfold RedFlagsBatch.analyze_profiles_for_red_flags,
      RedFlagsBatch.batch_analyze.
    pose proof (red_flag_rows_outcome profiles_df profiles_df [] Hframe) as Hf.
    rewrite Hex in Hf. by rewrite Hf.
  - intros row e Hin Hraise. rewrite Hgems.
    destruct (gem_rows_raise profiles_df detector profiles_df [] row e Hin Hraise)
      as [e' ->].
    by exists e'.
  - intros row e Hin Hraise.
    unfold RedFlagsBatch.analyze_profiles_for_red_flags,
      RedFlagsBatch.batch_analyze.
    destruct (red_flag_rows_raise profiles_df profiles_df [] row e Hin Hraise)
      as [e' ->].
    by exists e'.
Qed.

End GemBatch.

(** The frame of two profiles: both analyses return a row for each of the
    two; with the skills of the second profile missing both raise
    [TypeError]; the empty frame is refused. *)
Lemma X28_batch_analysis_witness :
  (∃ gems flags,
     GemBatch.analyze_profiles_for_gems (λ _ _ _, Raise KeyError)
       More.sample_frame = Ok gems
     ∧ RedFlagsBatch.analyze_profiles_for_red_flags (λ _ _, Raise KeyError)
         More.sample_frame = Ok flags
     ∧ length gems = 2%nat ∧ length flags = 2%nat)
  ∧ GemBatch.analyze_profiles_for_gems (λ _ _ _, Raise KeyError)
      More.sample_nan_frame = Raise TypeError
  ∧ RedFlagsBatch.analyze_profiles_for_red_flags (λ _ _, Raise KeyError)
      More.sample_nan_frame = Raise TypeError
  ∧ GemBatch.analyze_profiles_for_gems (λ _ _ _, Raise KeyError) []
    = Raise KeyError.
Proof.
  destruct (X28_batch_analysis (λ _ _ _, Raise KeyError)
              (λ _ _, Raise KeyError) More.sample_frame)
    as (_ & detector & without_corpus & _ & _ & _ & Hrows & _).
  destruct Hrows as (gems & flags & Hgems & Hg & Hflags & Hf);
    [done | by vm_compute |].
  destruct (X28_batch_analysis (λ _ _ _, Raise KeyError)
              (λ _ _, Raise KeyError) More.sample_nan_frame)
    as (_ & detector' & without_corpus' & _ & _ & _ & _ & Hgnan & Hfnan & _).
  split_and!.
  - exists gems, flags. split_and!; [done | done | |].
    + by rewrite (Forall2_length _ _ _ Hg).
    + by rewrite (Forall2_length _ _ _ Hf).
  - apply Hgnan; by vm_compute.
  - apply Hfnan; by vm_compute.
  - by apply (X28_batch_analysis (λ _ _ _, Raise KeyError)
                (λ _ _, Raise KeyError) []).
Defined.

(** ** Red-flag analysis *)

Lemma engagement_quality_in_range (profile : Profile) :
  Spec.in_range (RedFlags._calculate_engagement_quality profile).
Proof.
  unfold RedFlags._calculate_engagement_quality.
  split; [apply Q.le_max_l |].
  apply Q.max_lub; [lra | apply Q.le_min_l].
Qed.

Lemma spam_likelihood_in_range (profile : Profile) :
  Spec.in_range (RedFlags._calculate_spam_likelihood profile).
Proof.
  unfold RedFlags._calculate_spam_likelihood.
  split; [| apply Q.le_min_l]. apply Q.min_glb; [lra |].
  set (spam_count := len _).
  assert (Hcount : (0 <= inject_Z spam_count * 20)%Q).
  { apply Qmult_le_0_compat; [| lra].
    change 0%Q with (inject_Z 0). rewrite <- Zle_Qle. unfold spam_count, len. lia. }
  repeat (match goal with |- context [if ?c then _ else _] => destruct c end); lra.
Qed.

(** X4.  For every profile the [engagement_quality_score], the
    [spam_likelihood] and the overall [red_flag_score] of [analyze_profile]
    lie in [0,100]; the boolean flags contribute 25 (collector), 20 (job
    hopper) and 30 (ghost) points, and everything else at most 35, so a
    profile without a boolean flag never scores above 35. *)
Theorem X4_red_flag_scores_in_range (profile : Profile) :
  Spec.in_range (RedFlags.engagement_quality_score (RedFlags.analyze_profile profile))
  ∧ Spec.in_range (RedFlags.spam_likelihood (RedFlags.analyze_profile profile))
  ∧ Spec.in_range (RedFlags.red_flag_score (RedFlags.analyze_profile profile))
  ∧ (Qmin 100 (More.flag_points (RedFlags.analyze_profile profile))
     <= RedFlags.red_flag_score (RedFlags.analyze_profile profile))%Q
  ∧ (RedFlags.red_flag_score (RedFlags.analyze_profile profile)
     <= More.flag_points (RedFlags.analyze_profile profile) + 35)%Q.
Proof.
  pose proof (engagement_quality_in_range profile) as [He0 He100].
  pose proof (spam_likelihood_in_range profile) as [Hs0 Hs100].
  unfold RedFlags.analyze_profile, More.flag_points, Spec.in_range.
  cbn [RedFlags.engagement_quality_score RedFlags.spam_likelihood
       RedFlags.red_flag_score RedFlags.is_connection_collector
       RedFlags.is_job_hopper RedFlags.is_ghost_profile].
  set (e := RedFlags._calculate_engagement_quality profile) in *.
  set (s := RedFlags._calculate_spam_likelihood profile) in *.
  unfold RedFlags._calculate_overall_red_flag_score.
  destruct (RedFlags._is_connection_collector profile),
    (RedFlags._is_job_hopper profile), (RedFlags._is_ghost_profile profile).
  all: split_and!; try done.
  all: try (apply Q.min_glb; lra).
  all: try apply Q.le_min_l.
  all: try (apply Q.min_glb; [apply Q.le_min_l |]).
  all: try (eapply Qle_trans; [apply Q.le_min_r |]; lra).
Qed.

(** X5.  A profile is flagged as a connection collector exactly when it
    has at least 5000 connections and its lower-cased current role
    contains one of the vague titles; a missing connection count or role
    never flags. *)
Theorem X5_connection_collector_iff (profile : Profile) :
  RedFlags.is_connection_collector (RedFlags.analyze_profile profile) = true
  ↔ (5000 ≤ get (connections profile) 0)%Z
    ∧ ∃ vague, vague ∈ RedFlags.vague_titles
               ∧ contains vague (lower (get_or_empty (current_role profile))) = true.
Proof.
  change (RedFlags.is_connection_collector (RedFlags.analyze_profile profile))
    with (RedFlags._is_connection_collector profile).
  unfold RedFlags._is_connection_collector, RedFlags.has_vague_title.
  cbn [RedFlags.connection_collector_min RedFlags.thresholds].
  destruct (Z.ltb_spec (get (connections profile) 0%Z) 5000) as [Hlt | Hge].
  - split; [discriminate | intros [? _]; lia].
  - rewrite andb_true_iff, Z.geb_le, existsb_exists.
    setoid_rewrite <- list_elem_of_In. tauto.
Qed.

(** X6.  A profile is flagged as a job hopper exactly when at least three
    of its five most recent experience entries lasted less than six months
    (an entry without a duration counts as twelve months); with fewer than
    three entries, or none, it is never flagged. *)
Theorem X6_job_hopper_iff (profile : Profile) :
  (RedFlags.is_job_hopper (RedFlags.analyze_profile profile) = true
   ↔ (3 ≤ More.short_recent_jobs profile)%nat)
  ∧ ((length (get (experience profile) []) < 3)%nat →
     RedFlags.is_job_hopper (RedFlags.analyze_profile profile) = false).
Proof.
  change (RedFlags.is_job_hopper (RedFlags.analyze_profile profile))
    with (RedFlags._is_job_hopper profile).
  unfold RedFlags._is_job_hopper, More.short_recent_jobs, len.
  cbn [RedFlags.job_hopper_months RedFlags.thresholds].
  set (jobs := get (experience profile) []).
  set (short := filter _ (take 5 jobs)).
  assert (Hshort : (length short ≤ length jobs)%nat).
  { unfold short. etrans; [apply length_filter |]. rewrite length_take. lia. }
  split.
  - case_bool_decide as Hnil.
    + simpl. split; [discriminate |]. intros H3.
      rewrite Hnil in Hshort. simpl in Hshort. lia.
    + simpl. destruct (Z.ltb_spec (Z.of_nat (length jobs)) 3) as [Hlt | Hge].
      * split; [discriminate | lia].
      * destruct (Z.geb_spec (Z.of_nat (length jobs)) 3) as [_ | Hlt']; [| lia].
        rewrite Z.geb_le. lia.
  - intros Hlen. case_bool_decide; [done |]. simpl.
    destruct (Z.ltb_spec (Z.of_nat (length jobs)) 3); [done | lia].
Qed.

(** The profile without any key is not a job hopper. *)
Lemma X6_job_hopper_witness :
  RedFlags.is_job_hopper (RedFlags.analyze_profile empty_profile) = false.
Proof.
  apply (proj2 (X6_job_hopper_iff empty_profile)). simpl. lia.
Defined.

(** X7.  The explanation of a red-flag report is the text
    ["No significant red flags"] exactly when none of the three boolean
    flags is set, the engagement quality is at least 40 and the spam
    likelihood at most 30. *)
Theorem X7_no_red_flags_text (profile : Profile) :
  RedFlags.red_flag_reasons (RedFlags.analyze_profile profile)
  = "No significant red flags"
  ↔ RedFlags.is_connection_collector (RedFlags.analyze_profile profile) = false
    ∧ RedFlags.is_job_hopper (RedFlags.analyze_profile profile) = false
    ∧ RedFlags.is_ghost_profile (RedFlags.analyze_profile profile) = false
    ∧ (40 <= RedFlags.engagement_quality_score (RedFlags.analyze_profile profile))%Q
    ∧ (RedFlags.spam_likelihood (RedFlags.analyze_profile profile) <= 30)%Q.
Proof.
  unfold RedFlags.analyze_profile.
  cbn [RedFlags.red_flag_reasons RedFlags.is_connection_collector
       RedFlags.is_job_hopper RedFlags.is_ghost_profile
       RedFlags.engagement_quality_score RedFlags.spam_likelihood].
  set (e := RedFlags._calculate_engagement_quality profile).
  set (s := RedFlags._calculate_spam_likelihood profile).
  unfold RedFlags._generate_red_flag_explanation.
  set (thousands := RedFlags.format_thousands _).
  set (e_text := RedFlags.format_0f e).
  set (s_text := RedFlags.format_0f s).
  destruct (RedFlags._is_connection_collector profile),
    (RedFlags._is_job_hopper profile), (RedFlags._is_ghost_profile profile);
    (destruct (ltb e 40) eqn:He; [apply ltb_true in He | apply ltb_false in He]);
    (destruct (gtb s 30) eqn:Hs; [apply gtb_true in Hs | apply gtb_false in Hs]);
    cbn [app join String.append];
    (split; [try discriminate; intros _; split_and!; (reflexivity || done)
            | intros (? & ? & ? & ? & ?); first [discriminate | lra | reflexivity]]).
Qed.

(** ** The feature engine, further *)

Section FeatureSymmetry.

Import Helpers Features.

Lemma lower_ascii_idem (c : ascii) : lower_ascii (lower_ascii c) = lower_ascii c.
Proof.
  destruct c as [[] [] [] [] [] [] [] []]; reflexivity.
Qed.

Lemma lower_idem (s : string) : lower (lower s) = lower s.
Proof.
  induction s as [| c s IH]; simpl; [done |].
  by rewrite lower_ascii_idem, IH.
Qed.

Lemma lower_empty (s : string) : lower s = EmptyString ↔ s = EmptyString.
Proof. destruct s; simpl; split; congruence. Qed.

Lemma gset_inter_comm (X Y : gset string) : X ∩ Y = Y ∩ X.
Proof. apply leibniz_equiv. apply (comm _). Qed.

Lemma gset_union_comm (X Y : gset string) : X ∪ Y = Y ∪ X.
Proof. apply leibniz_equiv. apply (comm _). Qed.

Lemma calculate_similarity_sym (text1 text2 : string) :
  calculate_similarity text1 text2 = calculate_similarity text2 text1.
Proof.
  unfold calculate_similarity.
  rewrite (orb_comm (bool_decide (text1 = EmptyString))).
  destruct (_ || _); [done |].
  by rewrite (gset_inter_comm (list_to_set (split (lower text1)))),
             (gset_union_comm (list_to_set (split (lower text1)))).
Qed.

Lemma calculate_similarity_lower (text1 text2 : string) :
  calculate_similarity (lower text1) (lower text2)
  = calculate_similarity text1 text2.
Proof.
  unfold calculate_similarity. rewrite !lower_idem.
  assert (H1 : bool_decide (lower text1 = EmptyString)
               = bool_decide (text1 = EmptyString))
    by (apply bool_decide_ext, lower_empty).
  assert (H2 : bool_decide (lower text2 = EmptyString)
               = bool_decide (text2 = EmptyString))
    by (apply bool_decide_ext, lower_empty).
  by rewrite H1, H2.
Qed.

Lemma skill_match_sym (a b : Profile) :
  _calculate_skill_match a b = _calculate_skill_match b a.
Proof.
  unfold _calculate_skill_match.
  rewrite (orb_comm (bool_decide (_ = ∅))).
  destruct (_ || _); [done |].
  by rewrite (gset_inter_comm (list_to_set (get (skills a) []))),
             (gset_union_comm (list_to_set (get (skills a) []))).
Qed.

Lemma skill_complementarity_sym (a b : Profile) :
  _calculate_skill_complementarity a b = _calculate_skill_complementarity b a.
Proof.
  unfold _calculate_skill_complementarity.
  set (met_a := if bool_decide (_ = ∅) then _ else size (_ ∩ list_to_set (get (can_offer b) []))).
  set (met_b := if bool_decide (_ = ∅) then _ else size (_ ∩ list_to_set (get (can_offer a) []))).
  by rewrite (Nat.add_comm met_a met_b),
             (Nat.add_comm (size (list_to_set (get (needs a) []) : gset string))).
Qed.

Lemma industry_match_sym (a b : Profile) :
  _calculate_industry_match a b = _calculate_industry_match b a.
Proof.
  unfold _calculate_industry_match.
  rewrite (orb_comm (bool_decide (_ = EmptyString))).
  destruct (_ || _); [done |].
  rewrite (calculate_similarity_sym (lower (get_or_empty (industry a)))).
  assert (Heq : bool_decide (lower (get_or_empty (industry a))
                             = lower (get_or_empty (industry b)))
                = bool_decide (lower (get_or_empty (industry b))
                               = lower (get_or_empty (industry a))))
    by (apply bool_decide_ext; split; congruence).
  by rewrite Heq.
Qed.

Lemma seniority_match_sym (a b : Profile) :
  _calculate_seniority_match a b = _calculate_seniority_match b a.
Proof.
  unfold _calculate_seniority_match, index.
  set (levels := ["entry"; "mid"; "senior"; "executive"]).
  destruct (index_from_raises 0 (get (seniority_level a) "mid") levels)
    as [[ka ->] | ->];
    destruct (index_from_raises 0 (get (seniority_level b) "mid") levels)
      as [[kb ->] | ->];
    simpl; try done.
  assert (Habs : Z.abs (Z.of_nat ka - Z.of_nat kb)
                 = Z.abs (Z.of_nat kb - Z.of_nat ka)) by lia.
  by rewrite Habs.
Qed.

End FeatureSymmetry.

(** X8.  Swapping the two profiles leaves [skill_match_score],
    [skill_complementarity_score], [career_alignment_score],
    [experience_gap], [industry_match] and [seniority_match] unchanged and
    exchanges the two directional network values; the aggregate
    [compatibility_score] is then the same whenever the (direction
    dependent) [geographic_score] is. *)
Theorem X8_features_under_swap
    (list_of_set : gset string → list string)
    (self : Features.FeatureWeights) (a b : Profile) :
  ∃ ab ba,
    Features.calculate_features list_of_set self a b = Ok ab
    ∧ Features.calculate_features list_of_set self b a = Ok ba
    ∧ Features.skill_match_score (Features.base ab)
      = Features.skill_match_score (Features.base ba)
    ∧ Features.skill_complementarity_score (Features.base ab)
      = Features.skill_complementarity_score (Features.base ba)
    ∧ Features.career_alignment_score (Features.base ab)
      = Features.career_alignment_score (Features.base ba)
    ∧ Features.experience_gap (Features.base ab)
      = Features.experience_gap (Features.base ba)
    ∧ Features.industry_match (Features.base ab)
      = Features.industry_match (Features.base ba)
    ∧ Features.seniority_match (Features.base ab)
      = Features.seniority_match (Features.base ba)
    ∧ Features.network_value_a_to_b (Features.base ab)
      = Features.network_value_b_to_a (Features.base ba)
    ∧ Features.network_value_b_to_a (Features.base ab)
      = Features.network_value_a_to_b (Features.base ba)
    ∧ (Features.geographic_score (Features.base ab)
       = Features.geographic_score (Features.base ba) →
       (Features.compatibility_score ab == Features.compatibility_score ba)%Q).
Proof.
  destruct (calculate_features_ok list_of_set self a b)
    as (sm & sc & nab & nba & im & sen & Hsm & Hsc & Hnab & Hnba & Him & Hsen
        & _ & _ & _ & _ & _ & _ & ab & Hab & Hbase_ab & Hcompat_ab & _).
  destruct (calculate_features_ok list_of_set self b a)
    as (sm' & sc' & nab' & nba' & im' & sen' & Hsm' & Hsc' & Hnab' & Hnba'
        & Him' & Hsen' & _ & _ & _ & _ & _ & _ & ba & Hba & Hbase_ba
        & Hcompat_ba & _).
  rewrite skill_match_sym, Hsm' in Hsm. injection Hsm as <-.
  rewrite skill_complementarity_sym, Hsc' in Hsc. injection Hsc as <-.
  rewrite industry_match_sym, Him' in Him. injection Him as <-.
  rewrite seniority_match_sym, Hsen' in Hsen. injection Hsen as <-.
  rewrite Hnba' in Hnab. injection Hnab as <-.
  rewrite Hnab' in Hnba. injection Hnba as <-.
  exists ab, ba. split; [exact Hab |]. split; [exact Hba |].
  rewrite Hcompat_ab, Hcompat_ba, Hbase_ab, Hbase_ba.
  cbn [Features.skill_match_score Features.skill_complementarity_score
       Features.network_value_a_to_b Features.network_value_b_to_a
       Features.career_alignment_score Features.experience_gap
       Features.industry_match Features.geographic_score
       Features.seniority_match].
  assert (Hgap : Features._calculate_experience_gap a b
                 = Features._calculate_experience_gap b a)
    by (unfold Features._calculate_experience_gap; lia).
  assert (Hcareer : Features._calculate_career_alignment a b
                    = Features._calculate_career_alignment b a).
  { unfold Features._calculate_career_alignment.
    fold (Features._calculate_experience_gap a b).
    fold (Features._calculate_experience_gap b a). by rewrite Hgap. }
  repeat (split; [done |]).
  intros Hgeo. unfold Features._calculate_overall_compatibility.
  cbn [Features.skill_match_score Features.skill_complementarity_score
       Features.network_value_a_to_b Features.network_value_b_to_a
       Features.career_alignment_score Features.geographic_score].
  rewrite Hcareer, Hgeo.
  apply Q.min_compat; [| reflexivity]. apply round_comp.
  by rewrite (Qplus_comm nba' nab').
Qed.

(** Two profiles without a location: the geographic score is 50 in both
    directions, and so the aggregate agrees. *)
Lemma X8_features_under_swap_witness :
  ∃ ab ba,
    Features.calculate_features elements (Features.__init__ None)
      Examples.newcomer Examples.veteran = Ok ab
    ∧ Features.calculate_features elements (Features.__init__ None)
        Examples.veteran Examples.newcomer = Ok ba
    ∧ (Features.compatibility_score ab == Features.compatibility_score ba)%Q.
Proof.
  destruct (X8_features_under_swap elements (Features.__init__ None)
              Examples.newcomer Examples.veteran)
    as (ab & ba & Hab & Hba & _ & _ & _ & _ & _ & _ & _ & _ & Hcompat).
  exists ab, ba. split; [exact Hab |]. split; [exact Hba |].
  apply Hcompat.
  vm_compute in Hab. vm_compute in Hba.
  injection Hab as <-. injection Hba as <-. reflexivity.
Defined.

(** X9.  [skill_match_score] is 0 exactly when the two profiles share no
    skill (in particular when one of them lists none), and 100 exactly when
    both list the same, non-empty, set of skills. *)
Theorem X9_skill_match_extremes (a b : Profile) :
  ∃ v,
    Features._calculate_skill_match a b = Ok v
    ∧ ((v == 0)%Q ↔ More.skill_set a ∩ More.skill_set b = ∅)
    ∧ ((v == 100)%Q
       ↔ More.skill_set a = More.skill_set b ∧ More.skill_set a ≠ ∅).
Proof.
  unfold Features._calculate_skill_match.
  fold (More.skill_set a) (More.skill_set b).
  set (A := More.skill_set a). set (B := More.skill_set b).
  destruct (bool_decide (A = ∅) || bool_decide (B = ∅)) eqn:Hempty.
  - exists 0%Q. split; [done |].
    apply orb_true_iff in Hempty.
    rewrite !bool_decide_eq_true in Hempty.
    split.
    + split; [intros _ | reflexivity].
      destruct Hempty as [-> | ->]; set_solver.
    + split; [discriminate |].
      intros [Heq Hne]. destruct Hempty as [HA | HB]; [done |].
      rewrite Heq in Hne. done.
  - apply orb_false_iff in Hempty as [HA HB].
    apply bool_decide_eq_false in HA, HB.
    rewrite safe_divide_ok.
    assert (Hunion : size (A ∪ B) ≠ 0%nat).
    { intros Hz. apply size_empty_iff in Hz. apply HA.
      apply leibniz_equiv. set_solver. }
    assert (Hpos : (0 < Features.of_nat (size (A ∪ B)))%Q).
    { unfold Features.of_nat. change 0%Q with (inject_Z 0).
      rewrite <- Zlt_Qlt. lia. }
    destruct (Qeq_bool (Features.of_nat (size (A ∪ B))) 0) eqn:Hq.
    { apply Qeq_bool_eq in Hq. lra. }
    eexists. split; [reflexivity |]. split.
    + split.
      * intros Hv.
        assert (Hi : (Features.of_nat (size (A ∩ B)) == 0)%Q).
        { set (i := Features.of_nat (size (A ∩ B))) in *.
          set (n := Features.of_nat (size (A ∪ B))) in *.
          assert (Hmul : (i * 100 == i * 100 / n * n)%Q) by (field; lra).
          rewrite Hv in Hmul. lra. }
        unfold Features.of_nat, Qeq in Hi. simpl in Hi.
        apply leibniz_equiv, size_empty_iff. lia.
      * intros Hi. rewrite Hi, size_empty. unfold Features.of_nat. simpl.
        unfold Qdiv. ring.
    + split.
      * intros Hv.
        assert (Hi : (Features.of_nat (size (A ∩ B))
                      == Features.of_nat (size (A ∪ B)))%Q).
        { set (i := Features.of_nat (size (A ∩ B))) in *.
          set (n := Features.of_nat (size (A ∪ B))) in *.
          assert (Hmul : (i * 100 == i * 100 / n * n)%Q) by (field; lra).
          rewrite Hv in Hmul. lra. }
        unfold Features.of_nat, Qeq in Hi. simpl in Hi.
        assert (Hsets : A ∩ B ≡ A ∪ B).
        { apply set_subseteq_size_equiv;
            [apply intersection_within_union | lia]. }
        split; [apply leibniz_equiv; set_solver | done].
      * intros [Heq _]. rewrite <- Heq.
        assert (HAA : A ∩ A = A ∪ A) by (apply leibniz_equiv; set_solver).
        rewrite HAA. rewrite <- Heq in Hpos.
        field. lra.
Qed.

(** X10.  [calculate_similarity] never raises and returns a value in
    [0,1]; it is symmetric, does not depend on the case of its arguments,
    and is 0 as soon as one text is empty. *)
Theorem X10_calculate_similarity (text1 text2 : string) :
  (∃ v, Helpers.calculate_similarity text1 text2 = Ok v
        ∧ (0 <= v)%Q ∧ (v <= 1)%Q)
  ∧ Helpers.calculate_similarity text1 text2
    = Helpers.calculate_similarity text2 text1
  ∧ Helpers.calculate_similarity (lower text1) (lower text2)
    = Helpers.calculate_similarity text1 text2
  ∧ Helpers.calculate_similarity EmptyString text2 = Ok 0%Q
  ∧ Helpers.calculate_similarity text1 EmptyString = Ok 0%Q.
Proof.
  split; [apply calculate_similarity_unit |].
  split; [apply calculate_similarity_sym |].
  split; [apply calculate_similarity_lower |].
  split; [reflexivity |].
  rewrite calculate_similarity_sym. reflexivity.
Qed.

Lemma network_value_formula (profile_from profile_to : Profile) :
  ∃ industry_match,
    Features._calculate_industry_match profile_from profile_to = Ok industry_match
    ∧ Features._calculate_network_value profile_from profile_to
      = Ok (Qmin (Qmin (Features.of_Z (get (connections profile_from) 0%Z)
                        / 1000 * 50) 50
                  + industry_match * 0.3
                  + Features.dict_get
                      [("entry", 0%Q); ("mid", 10%Q); ("senior", 20%Q);
                       ("executive", 30%Q)]
                      (get (seniority_level profile_from) "mid") 10%Q) 100).
Proof.
  destruct (industry_match_in_range profile_from profile_to) as (im & Him & _).
  exists im. split; [exact Him |].
  unfold Features._calculate_network_value. by rewrite Him.
Qed.

(** X11.  The network value a profile offers never decreases when its
    connection count grows, everything else unchanged, and it no longer
    changes once the count has reached 1000. *)
Theorem X11_network_value_monotone
    (profile_from profile_to : Profile) (fewer more : Z) :
  (fewer ≤ more)%Z →
  ∃ low high,
    Features._calculate_network_value
      (More.with_connections fewer profile_from) profile_to = Ok low
    ∧ Features._calculate_network_value
        (More.with_connections more profile_from) profile_to = Ok high
    ∧ (low <= high)%Q
    ∧ ((1000 ≤ fewer)%Z → (low == high)%Q).
Proof.
  intros Hle.
  destruct (network_value_formula (More.with_connections fewer profile_from)
              profile_to) as (im & Him & ->).
  destruct (network_value_formula (More.with_connections more profile_from)
              profile_to) as (im' & Him' & ->).
  assert (Heq : im' = im).
  { unfold Features._calculate_industry_match in Him, Him'.
    cbn [industry More.with_connections] in Him, Him'. congruence. }
  subst im'. eexists _, _. split; [reflexivity |]. split; [reflexivity |].
  cbn [connections seniority_level More.with_connections get].
  set (bonus := Features.dict_get _ _ _).
  assert (Hinj : (Features.of_Z fewer <= Features.of_Z more)%Q)
    by (unfold Features.of_Z; by rewrite <- Zle_Qle).
  assert (Hscore : (Features.of_Z fewer / 1000 * 50
                    <= Features.of_Z more / 1000 * 50)%Q).
  { apply Qmult_le_compat_r; [| lra].
    apply Qmult_le_compat_r; [done |]. discriminate. }
  split.
  - apply Q.min_le_compat_r.
    repeat apply Qplus_le_compat; try lra.
    by apply Q.min_le_compat_r.
  - intros Hsat.
    assert (H1000 : (1000 <= Features.of_Z fewer)%Q).
    { unfold Features.of_Z. change 1000%Q with (inject_Z 1000).
      by rewrite <- Zle_Qle. }
    assert (Hlow : (50 <= Features.of_Z fewer / 1000 * 50)%Q).
    { assert (1 <= Features.of_Z fewer / 1000)%Q
        by (apply Qle_shift_div_l; lra).
      lra. }
    rewrite (Q.min_r (Features.of_Z fewer / 1000 * 50) 50) by done.
    rewrite (Q.min_r (Features.of_Z more / 1000 * 50) 50) by lra.
    reflexivity.
Qed.

(** From 300 to 1500 connections the analyst's network value grows. *)
Lemma X11_network_value_witness :
  ∃ low high,
    Features._calculate_network_value
      (More.with_connections 300 Examples.analyst) Examples.engineer = Ok low
    ∧ Features._calculate_network_value
        (More.with_connections 1500 Examples.analyst) Examples.engineer = Ok high
    ∧ (low <= high)%Q
    ∧ ((1000 ≤ 300)%Z → (low == high)%Q).
Proof.
  apply (X11_network_value_monotone Examples.analyst Examples.engineer 300 1500).
  lia.
Defined.

(** X12.  A seniority level outside entry/mid/senior/executive does not
    raise: the seniority match with any other profile is the neutral 50,
    in both directions, and the profile's network value uses the mid-level
    bonus of 10. *)
Theorem X12_unknown_seniority (a b : Profile) :
  get (seniority_level a) "mid" ∉ More.seniority_levels →
  Features._calculate_seniority_match a b = Ok 50.0%Q
  ∧ Features._calculate_seniority_match b a = Ok 50.0%Q
  ∧ ∃ industry_match,
      Features._calculate_industry_match a b = Ok industry_match
      ∧ Features._calculate_network_value a b
        = Ok (Qmin (Qmin (Features.of_Z (get (connections a) 0%Z) / 1000 * 50) 50
                    + industry_match * 0.3 + 10) 100).
Proof.
  intros Hunknown.
  assert (Hraise : index More.seniority_levels (get (seniority_level a) "mid")
                   = Raise ValueError).
  { unfold index, More.seniority_levels in *. simpl.
    repeat case_bool_decide; subst; try done;
      exfalso; apply Hunknown; rewrite <- ?H, <- ?H0, <- ?H1, <- ?H2;
      repeat (first [apply list_elem_of_here | apply list_elem_of_further]). }
  assert (Hfirst : Features._calculate_seniority_match a b = Ok 50.0%Q).
  { unfold Features._calculate_seniority_match.
    change ["entry"; "mid"; "senior"; "executive"] with More.seniority_levels.
    by rewrite Hraise. }
  split; [exact Hfirst |].
  split; [by rewrite seniority_match_sym |].
  destruct (network_value_formula a b) as (im & Him & ->).
  exists im. split; [exact Him |]. do 3 f_equal.
  unfold More.seniority_levels in Hunknown. simpl.
  repeat case_bool_decide; try done;
    exfalso; apply Hunknown; subst;
    match goal with H : _ = get _ _ |- _ => rewrite <- H end;
    repeat (first [apply list_elem_of_here | apply list_elem_of_further]).
Qed.

(** An intern, a level the engine does not list. *)
Lemma X12_unknown_seniority_witness :
  Features._calculate_seniority_match More.intern More.consultant = Ok 50.0%Q
  ∧ Features._calculate_seniority_match More.consultant More.intern = Ok 50.0%Q
  ∧ ∃ industry_match,
      Features._calculate_industry_match More.intern More.consultant
      = Ok industry_match
      ∧ Features._calculate_network_value More.intern More.consultant
        = Ok (Qmin (Qmin (Features.of_Z (get (connections More.intern) 0%Z)
                          / 1000 * 50) 50
                    + industry_match * 0.3 + 10) 100).
Proof.
  apply (X12_unknown_seniority More.intern More.consultant).
  unfold More.seniority_levels. simpl. intros Hin.
  repeat (apply elem_of_cons in Hin as [Hin | Hin]; [discriminate |]).
  by apply elem_of_nil in Hin.
Defined.

(** ** Batches *)

Section BatchFeatures.

Import Features FeaturesBatch.

Variable list_of_set : gset string → list string.
Variable calculate_features_nan :
  list Frames.FrameRow → FeatureWeights
  → Frames.FrameRow → Frames.FrameRow → result FeatureVector.

Lemma calculate_features_total (self : FeatureWeights) (a b : Profile) :
  ∃ fv, calculate_features list_of_set self a b = Ok fv.
Proof.
  destruct (calculate_features_ok list_of_set self a b)
    as (? & ? & ? & ? & ? & ? & _ & _ & _ & _ & _ & _ & _ & _ & _ & _ & _ & _
        & fv & Hfv & _).
  by exists fv.
Qed.

(** The loop under a lookup of a frame whose rows are covered by the model
    or have no list of skills: it stops with [TypeError] at the first known
    pair with such a row, and otherwise gives every known pair its row. *)
Lemma batch_loop_outcome (engine : FeatureWeights)
    (profiles_df : list Frames.FrameRow)
    (profiles_dict : gmap string Frames.FrameRow)
    (pairs : list PairKey) (results : list BatchRow) :
  Frames.nan_rows Frames.no_skills_list profiles_df = true →
  (∀ id row, profiles_dict !! id = Some row
             ↔ row ∈ profiles_df ∧ Frames.profile_id row = id) →
  (∀ id, profiles_dict !! id = None ↔ id ∉ Frames.profile_id <$> profiles_df) →
  (Exists (More.no_skills_pair profiles_df) pairs →
   batch_loop list_of_set calculate_features_nan profiles_df engine
              profiles_dict pairs results = Raise TypeError)
  ∧ (¬ Exists (More.no_skills_pair profiles_df) pairs →
     ∃ rows,
       batch_loop list_of_set calculate_features_nan profiles_df engine
                  profiles_dict pairs results = Ok (results ++ rows)%list
       ∧ Forall2 (More.row_of list_of_set engine profiles_df) rows
                 (List.filter (More.both_known profiles_df) pairs)).
Proof.
  intros Hframe Hsome Hnone. revert results.
  assert (Hknown : ∀ id, bool_decide (id ∈ Frames.profile_id <$> profiles_df)
                         = bool_decide (is_Some (profiles_dict !! id))).
  { intros id. apply bool_decide_ext.
    rewrite <- not_eq_None_Some, Hnone. split; [tauto |].
    intros Hin. destruct (decide (id ∈ Frames.profile_id <$> profiles_df)); tauto. }
  assert (Hhead : ∀ pair, More.no_skills_pair profiles_df pair →
            ∃ row_a row_b,
              profiles_dict !! profile_a_id pair = Some row_a
              ∧ profiles_dict !! profile_b_id pair = Some row_b
              ∧ Frames.no_skills_list row_a || Frames.no_skills_list row_b = true).
  { intros pair (row_a & row_b & Hina & Hinb & Hida & Hidb & Hbad).
    exists row_a, row_b. split_and!; [by apply Hsome | by apply Hsome | done]. }
  induction pairs as [| pair pairs IH]; intros results.
  - split; [by intros ?%Exists_nil |].
    intros _. exists []. simpl. by rewrite app_nil_r.
  - simpl. unfold More.both_known at 1. rewrite !Hknown.
    destruct (profiles_dict !! profile_a_id pair) as [row_a |] eqn:Ha;
      destruct (profiles_dict !! profile_b_id pair) as [row_b |] eqn:Hb.
    + pose proof Ha as Ha'. pose proof Hb as Hb'.
      apply Hsome in Ha' as [Hina Hida]. apply Hsome in Hb' as [Hinb Hidb].
      unfold features_of_rows.
      destruct (Frames.no_skills_list row_a || Frames.no_skills_list row_b)
        eqn:Hbad.
      * split; [done |]. intros Hnot. exfalso. apply Hnot. left.
        by exists row_a, row_b.
      * apply orb_false_iff in Hbad as [Hbada Hbadb].
        destruct (nan_rows_row _ _ _ Hframe Hina Hbada) as (a & Hsa & Hva & _).
        destruct (nan_rows_row _ _ _ Hframe Hinb Hbadb) as (b & Hsb & Hvb & _).
        rewrite Hva, Hvb.
        destruct (calculate_features_total engine a b) as [fv Hfv].
        rewrite Hfv. cbn [mbind result_bind].
        destruct (IH (results ++ [mkBatchRow fv (pair_id pair)
                                    (profile_a_id pair) (profile_b_id pair)])%list)
          as [IHraise IHrows].
        split.
        -- intros [Hpair | Htail]%Exists_cons; [| by apply IHraise].
           destruct (Hhead pair Hpair) as (ra & rb & Hra & Hrb & Hbad).
           rewrite Ha in Hra. rewrite Hb in Hrb.
           injection Hra as <-. injection Hrb as <-.
           by rewrite Hbada, Hbadb in Hbad.
        -- intros Hnot.
           destruct IHrows as (rows & -> & Hrows).
           { intros Htail. apply Hnot. by right. }
           eexists (_ :: rows). rewrite <- app_assoc. split; [done |].
           rewrite ?bool_decide_eq_true_2 by by eexists. simpl.
           constructor; [| done].
           unfold More.row_of. simpl. split_and!; try done.
           by exists row_a, row_b, a, b.
    + rewrite (bool_decide_eq_false_2 (is_Some None)) by by intros [? ?].
      rewrite andb_false_r. destruct (IH results) as [IHraise IHrows]. split.
      * intros [Hpair | Htail]%Exists_cons; [| by apply IHraise].
        destruct (Hhead pair Hpair) as (ra & rb & Hra & Hrb & _). congruence.
      * intros Hnot. apply IHrows. intros Htail. apply Hnot. by right.
    + rewrite (bool_decide_eq_false_2 (is_Some None)) by by intros [? ?].
      simpl. destruct (IH results) as [IHraise IHrows]. split.
      * intros [Hpair | Htail]%Exists_cons; [| by apply IHraise].
        destruct (Hhead pair Hpair) as (ra & rb & Hra & Hrb & _). congruence.
      * intros Hnot. apply IHrows. intros Htail. apply Hnot. by right.
    + rewrite (bool_decide_eq_false_2 (is_Some None)) by by intros [? ?].
      simpl. destruct (IH results) as [IHraise IHrows]. split.
      * intros [Hpair | Htail]%Exists_cons; [| by apply IHraise].
        destruct (Hhead pair Hpair) as (ra & rb & Hra & Hrb & _). congruence.
      * intros Hnot. apply IHrows. intros Htail. apply Hnot. by right.
Qed.

Lemma complete_no_skills_pair (profiles_df : list Frames.FrameRow)
    (pairs : list PairKey) :
  Frames.complete profiles_df = true →
  ¬ Exists (More.no_skills_pair profiles_df) pairs.
Proof.
  intros Hcomplete (pair & _ & row_a & row_b & Hina & Hinb & _ & _ & Hbad)%Exists_exists.
  rewrite (complete_no_skills_list _ _ Hcomplete Hina),
    (complete_no_skills_list _ _ Hcomplete Hinb) in Hbad.
  done.
Qed.

Lemma batch_loop_raises (engine : FeatureWeights)
    (profiles_df : list Frames.FrameRow)
    (profiles_dict : gmap string Frames.FrameRow)
    (pairs : list PairKey) (results : list BatchRow)
    (pair : PairKey) (row_a row_b : Frames.FrameRow) (e : exn) :
  pair ∈ pairs →
  profiles_dict !! profile_a_id pair = Some row_a →
  profiles_dict !! profile_b_id pair = Some row_b →
  features_of_rows list_of_set calculate_features_nan profiles_df engine
                   row_a row_b = Raise e →
  ∃ e', batch_loop list_of_set calculate_features_nan profiles_df engine
                   profiles_dict pairs results = Raise e'.
Proof.
  intros Hin Ha Hb Hraise. revert results.
  induction pairs as [| first pairs IH]; intros results.
  - by apply elem_of_nil in Hin.
  - simpl. apply elem_of_cons in Hin as [<- | Hin].
    + rewrite Ha, Hb, Hraise. by exists e.
    + destruct (profiles_dict !! profile_a_id first) as [ra |];
        destruct (profiles_dict !! profile_b_id first) as [rb |];
        try by apply IH.
      destruct (features_of_rows list_of_set calculate_features_nan
                  profiles_df engine ra rb) as [fv | e1];
        [by apply IH | by exists e1].
Qed.

(** X13.  [calculate_batch_features] builds its lookup with
    [set_index("profile_id").to_dict("index")], which refuses a frame where
    two rows share a profile id: the call raises [ValueError].  With
    distinct ids and a frame without NaN it returns, in the order of
    [pairs_df], one row for each pair whose two ids are both profile ids of
    the frame -- the ids of the pair and the features [calculate_features]
    gives for the two rows -- and skips every other pair.  A frame that
    holds NaN is another matter.  Where its columns of integers are filled
    and every row with a NaN has one for its skills, the call raises
    [TypeError] as soon as a pair of [pairs_df] names such a row next to
    another profile of the frame.  And nothing in the loop is caught: when
    [calculate_features] raises on the two rows of any pair, the whole call
    raises. *)
Theorem X13_batch_features_rows (pairs : list PairKey)
    (profiles_df : list Frames.FrameRow) (config : option Config) :
  (¬ NoDup (Frames.profile_id <$> profiles_df) →
   calculate_batch_features list_of_set calculate_features_nan
                            pairs profiles_df config = Raise ValueError)
  ∧ (NoDup (Frames.profile_id <$> profiles_df) →
     Frames.complete profiles_df = true →
     ∃ rows,
       calculate_batch_features list_of_set calculate_features_nan
                                pairs profiles_df config = Ok rows
       ∧ Forall2 (More.row_of list_of_set (__init__ config) profiles_df) rows
                 (List.filter (More.both_known profiles_df) pairs)
       ∧ (length rows ≤ length pairs)%nat)
  ∧ (NoDup (Frames.profile_id <$> profiles_df) →
     Frames.nan_rows Frames.no_skills_list profiles_df = true →
     Exists (More.no_skills_pair profiles_df) pairs →
     calculate_batch_features list_of_set calculate_features_nan
                              pairs profiles_df config = Raise TypeError)
  ∧ (NoDup (Frames.profile_id <$> profiles_df) →
     ∀ pair row_a row_b e,
       pair ∈ pairs → row_a ∈ profiles_df → row_b ∈ profiles_df →
       Frames.profile_id row_a = profile_a_id pair →
       Frames.profile_id row_b = profile_b_id pair →
       features_of_rows list_of_set calculate_features_nan profiles_df
                        (__init__ config) row_a row_b = Raise e →
       ∃ e', calculate_batch_features list_of_set calculate_features_nan
                                      pairs profiles_df config = Raise e').
Proof.
  assert (Hdict : NoDup (Frames.profile_id <$> profiles_df) →
            ∃ profiles_dict,
              Frames.to_dict_index profiles_df = Ok profiles_dict
              ∧ (∀ id row, profiles_dict !! id = Some row
                           ↔ row ∈ profiles_df ∧ Frames.profile_id row = id)
              ∧ (∀ id, profiles_dict !! id = None
                       ↔ id ∉ Frames.profile_id <$> profiles_df)).
  { intros Hnodup.
    destruct (to_dict_index_lookup profiles_df EmptyString Hnodup)
      as (d & Hd & _).
    exists d. split; [done |]. split.
    - intros id row.
      destruct (to_dict_index_lookup profiles_df id Hnodup) as (d' & Hd' & Hs & _).
      rewrite Hd in Hd'. injection Hd' as <-. apply Hs.
    - intros id.
      destruct (to_dict_index_lookup profiles_df id Hnodup) as (d' & Hd' & _ & Hn).
      rewrite Hd in Hd'. injection Hd' as <-. apply Hn. }
  unfold calculate_batch_features. split_and!.
  - intros Hdup. unfold Frames.to_dict_index.
    by rewrite bool_decide_eq_false_2.
  - intros Hnodup Hcomplete.
    destruct (Hdict Hnodup) as (d & -> & Hsome & Hnone). cbn [mbind result_bind].
    destruct (batch_loop_outcome (__init__ config) profiles_df d pairs []
                (complete_nan_rows _ _ Hcomplete) Hsome Hnone) as [_ Hrows].
    destruct Hrows as (rows & Hrun & Hrows);
      [by apply complete_no_skills_pair |].
    exists rows. split_and!; [done | done |].
    rewrite (Forall2_length _ _ _ Hrows). apply List.filter_length_le.
  - intros Hnodup Hframe Hex.
    destruct (Hdict Hnodup) as (d & -> & Hsome & Hnone). cbn [mbind result_bind].
    by apply (batch_loop_outcome (__init__ config) profiles_df d pairs []
                Hframe Hsome Hnone).
  - intros Hnodup pair row_a row_b e Hin Hina Hinb Hida Hidb Hraise.
    destruct (Hdict Hnodup) as (d & -> & Hsome & _). cbn [mbind result_bind].
    apply (batch_loop_raises _ _ _ _ _ pair row_a row_b e);
      [done | by apply Hsome | by apply Hsome | done].
Qed.

End BatchFeatures.

(** The frame of two profiles gives one row, for the pair both of whose ids
    the frame has; with the skills of the second profile missing the call
    raises [TypeError]; a frame that lists a profile id twice is refused. *)
Lemma X13_batch_features_rows_witness :
  (∃ rows,
     FeaturesBatch.calculate_batch_features elements
       (λ _ _ _ _, Raise KeyError)
       More.sample_pair_keys More.sample_frame None = Ok rows
     ∧ length rows = 1%nat)
  ∧ FeaturesBatch.calculate_batch_features elements
      (λ _ _ _ _, Raise KeyError)
      More.sample_pair_keys More.sample_nan_frame None
    = Raise TypeError
  ∧ FeaturesBatch.calculate_batch_features elements
      (λ _ _ _ _, Raise KeyError)
      More.sample_pair_keys
      (More.sample_frame ++ More.sample_frame)%list None
    = Raise ValueError.
Proof.
  destruct (X13_batch_features_rows elements (λ _ _ _ _, Raise KeyError)
              More.sample_pair_keys More.sample_frame None)
    as (_ & Hrows & _).
  destruct Hrows as (rows & Hrun & Hrows & _);
    [apply (bool_decide_eq_true_1 (NoDup _)); by vm_compute | by vm_compute |].
  split_and!.
  - exists rows. split; [done |].
    by rewrite (Forall2_length _ _ _ Hrows).
  - apply (X13_batch_features_rows elements (λ _ _ _ _, Raise KeyError)
             More.sample_pair_keys More.sample_nan_frame None).
    + apply (bool_decide_eq_true_1 (NoDup _)); by vm_compute.
    + by vm_compute.
    + left. eexists _, _.
      split_and!; [by left | by right; left | done | done | done].
  - apply (X13_batch_features_rows elements (λ _ _ _ _, Raise KeyError)
             More.sample_pair_keys
             (More.sample_frame ++ More.sample_frame)%list None).
    intros Hnodup. apply (bool_decide_eq_true_2 (NoDup _)) in Hnodup.
    by vm_compute in Hnodup.
Defined.

Section BatchRecommend.

Import Recommender RecommenderBatch.

Lemma batch_recommend_foldl (self : ConnectionRecommender) (top_n : nat)
    (strategy user : string) (user_ids : list string)
    (acc : gmap string (list Recommendation)) :
  foldl
    (λ recommendations user_id,
       let recs := recommend_for_user self user_id top_n 40.0 strategy in
       if (len recs >? 0)%Z then <[user_id := recs]> recommendations
       else recommendations)
    acc user_ids !! user
  = if bool_decide (user ∈ user_ids)
       && (len (recommend_for_user self user top_n 40.0 strategy) >? 0)%Z
    then Some (recommend_for_user self user top_n 40.0 strategy)
    else acc !! user.
Proof.
  revert acc. induction user_ids as [| id ids IH]; intros acc; [done |].
  simpl. rewrite IH. clear IH.
  destruct (decide (user ∈ ids)) as [Hin | Hin].
  - rewrite (bool_decide_eq_true_2 (user ∈ ids)) by done.
    rewrite (bool_decide_eq_true_2 (user ∈ id :: ids)) by by right.
    simpl.
    destruct (len (recommend_for_user self user top_n 40.0 strategy) >? 0)%Z
      eqn:Hlen; [done |].
    destruct (len (recommend_for_user self id top_n 40.0 strategy) >? 0)%Z
      eqn:Hid; [| done].
    rewrite lookup_insert_ne; [done |]. intros ->. congruence.
  - rewrite (bool_decide_eq_false_2 (user ∈ ids)) by done. simpl.
    destruct (decide (user = id)) as [-> | Hne].
    + rewrite (bool_decide_eq_true_2 (id ∈ id :: ids)) by by left. simpl.
      destruct (len (recommend_for_user self id top_n 40.0 strategy) >? 0)%Z;
        [by rewrite lookup_insert_eq | done].
    + rewrite (bool_decide_eq_false_2 (user ∈ id :: ids))
        by (rewrite elem_of_cons; tauto).
      simpl.
      destruct (len (recommend_for_user self id top_n 40.0 strategy) >? 0)%Z;
        [by rewrite lookup_insert_ne | done].
Qed.

(** X14.  The dict [batch_recommend] returns holds exactly the requested
    users for whom [recommend_for_user], with its default minimum
    compatibility of 40, finds at least one recommendation, each with that
    list of recommendations; a user without recommendations has no key. *)
Theorem X14_batch_recommend_lookup (self : ConnectionRecommender)
    (user_ids : list string) (top_n : nat) (strategy user : string)
    (recs : list Recommendation) :
  batch_recommend self user_ids top_n strategy !! user = Some recs
  ↔ user ∈ user_ids
    ∧ recs = recommend_for_user self user top_n 40.0 strategy
    ∧ recs ≠ [].
Proof.
  unfold batch_recommend. rewrite batch_recommend_foldl, lookup_empty.
  destruct (decide (user ∈ user_ids)) as [Hin | Hin].
  - rewrite (bool_decide_eq_true_2 _ Hin). simpl.
    destruct (recommend_for_user self user top_n 40.0 strategy) as [| r rs] eqn:Hr.
    + simpl. split; [done | intros (_ & -> & Hne); done].
    + replace (len (r :: rs) >? 0)%Z with true
        by (symmetry; apply Z.gtb_lt; unfold len; simpl; lia).
      split; [intros [= <-]; by split_and! | intros (_ & -> & _); done].
  - rewrite (bool_decide_eq_false_2 _ Hin). simpl.
    split; [done | intros (? & _); done].
Qed.

End BatchRecommend.

Section BatchItems.

Import HelpersMore.

Context {A : Type}.

Lemma concat_slices (items : list A) (n m : nat) :
  concat ((λ i, slice items i n) <$> ((λ k, k * n)%nat <$> seq 0 m))
  = take (m * n) items.
Proof.
  induction m as [| m IH]; [done |].
  rewrite seq_S, !fmap_app, concat_app, IH. simpl.
  rewrite app_nil_r. unfold slice.
  rewrite take_take_drop. f_equal. lia.
Qed.

Lemma batch_count_covers (len n : nat) :
  (0 < n)%nat →
  (len ≤ (len + n - 1) / n * n)%nat
  ∧ (0 < len → ((len + n - 1) / n - 1) * n < len)%nat.
Proof.
  intros Hn.
  pose proof (Nat.div_mod_eq (len + n - 1) n) as Hdiv.
  pose proof (Nat.mod_upper_bound (len + n - 1) n) as Hmod.
  set (q := ((len + n - 1) / n)%nat) in *.
  set (r := ((len + n - 1) mod n)%nat) in *.
  split; [nia |]. intros Hlen.
  destruct q as [| q]; [nia |]. simpl. nia.
Qed.

(** X15.  For a positive [batch_size], [batch_items] cuts the list into
    consecutive batches: their concatenation is the list, no batch is empty
    or longer than [batch_size], and there are ceil(len / batch_size) of
    them.  A [batch_size] of 0 raises [ValueError]; a negative one returns
    no batch at all, whatever the list holds. *)
Theorem X15_batch_items (items : list A) (batch_size : Z) :
  ((0 < batch_size)%Z →
   ∃ batches,
     batch_items items batch_size = Ok batches
     ∧ concat batches = items
     ∧ Forall (λ batch, (0 < length batch ≤ Z.to_nat batch_size)%nat) batches
     ∧ length batches
       = ((length items + Z.to_nat batch_size - 1) / Z.to_nat batch_size)%nat)
  ∧ (batch_size = 0%Z → batch_items items batch_size = Raise ValueError)
  ∧ ((batch_size < 0)%Z → batch_items items batch_size = Ok []).
Proof.
  unfold batch_items. split_and!.
  - intros Hpos.
    rewrite (proj2 (Z.eqb_neq _ _)) by lia.
    rewrite (proj2 (Z.ltb_ge _ _)) by lia.
    set (n := Z.to_nat batch_size). assert (Hn : (0 < n)%nat) by lia.
    eexists. split; [done |].
    destruct (batch_count_covers (length items) n Hn) as [Hcover Hlast].
    unfold range_step. split_and!.
    + rewrite concat_slices. apply take_ge. lia.
    + apply Forall_forall. intros batch Hbatch.
      apply list_elem_of_fmap in Hbatch as (i & -> & Hi).
      apply list_elem_of_fmap in Hi as (k & -> & Hk).
      apply elem_of_seq in Hk.
      unfold slice. rewrite length_take, length_drop.
      assert (k * n ≤ ((length items + n - 1) / n - 1) * n)%nat by nia.
      assert (0 < length items)%nat.
      { destruct (length items) eqn:Hl; [| lia].
        rewrite Nat.div_small in Hk by lia. lia. }
      specialize (Hlast ltac:(lia)). lia.
    + by rewrite !length_fmap, length_seq.
  - by intros ->.
  - intros Hneg.
    rewrite (proj2 (Z.eqb_neq _ _)) by lia.
    by rewrite (proj2 (Z.ltb_lt _ _)) by lia.
Qed.

End BatchItems.

(** ** Seniority inferred by the profile processor *)

(** X16.  [_estimate_experience] is twice the number of jobs, capped at 30
    years; [_infer_seniority] always returns one of the four levels the
    feature engine knows, and for a role without any of the title keywords
    the level follows the number of jobs alone: eight or more give
    executive, four to seven senior, two or three mid, fewer entry. *)
Theorem X16_inferred_seniority (profile : Profile) :
  let jobs := len (get (experience profile) []) in
  let role := lower (get_or_empty (current_role profile)) in
  Processors._estimate_experience profile = Z.min (2 * jobs) 30
  ∧ Processors._infer_seniority profile ∈ More.seniority_levels
  ∧ (existsb (λ word, contains word role)
       (Processors.executive_words ++ Processors.senior_words
          ++ Processors.entry_words)%list = false →
     Processors._infer_seniority profile
     = if (jobs >=? 8)%Z then "executive"
       else if (jobs >=? 4)%Z then "senior"
       else if (jobs >=? 2)%Z then "mid"
       else "entry").
Proof.
  intros jobs role.
  assert (Hyears : Processors._estimate_experience profile
                   = Z.min (2 * jobs) 30).
  { unfold Processors._estimate_experience. subst jobs.
    case_bool_decide as Hnil; [by rewrite Hnil | lia]. }
  split_and!; [done | |].
  - unfold Processors._infer_seniority, More.seniority_levels.
    repeat (match goal with
            | |- context [if ?c then _ else _] => destruct c
            end);
      rewrite !elem_of_cons; tauto.
  - rewrite !existsb_app, !orb_false_iff. intros (He & Hs & Hn).
    unfold Processors._infer_seniority. fold role.
    rewrite He, Hs, Hn, Hyears.
    assert (0 ≤ jobs)%Z by (subst jobs; unfold len; lia).
    rewrite !Z.geb_leb.
    repeat (match goal with
            | |- context [(?x <=? ?y)%Z] => destruct (Z.leb_spec x y)
            end); first [reflexivity | lia].
Qed.

(** ** More on the recommender *)

Section RecommenderMore.

Import Recommender.





Lemma fmap_fst_pair {A B} (f : A → B) (l : list A) :
  fst <$> ((λ x, (x, f x)) <$> l) = l.
Proof.
  rewrite <- list_fmap_compose. apply list_fmap_id.
Qed.




(** X18.  Every candidate [recommend_for_user] returns can be passed to
    [evaluate_connection]: the answer is never "Connection pair not found";
    it is "Candidate profile not found" exactly for a row that was not
    enriched, and otherwise an evaluation with the same name, role, company,
    seniority and industry as the recommendation.  When the recommender
    filters red flags with a threshold of at most 50, the evaluation never
    reports red flags. *)
Theorem X18_recommended_then_evaluated (self : ConnectionRecommender)
    (user_id : string) (top_n : nat) (min_compatibility : Q)
    (strategy : string) :
  Forall (More.evaluates_as self user_id)
         (recommend_for_user self user_id top_n min_compatibility strategy).
Proof.
  apply Forall_forall. intros r Hr.
  apply recommend_for_user_elem in Hr
    as (row & Hrow & Hinv & Hpair & _ & Hcand & _ & Hflag).
  unfold More.evaluates_as. rewrite Hcand. clear Hcand.
  set (candidate := candidate_id (rec_pair r)) in *.
  assert (Hexists : Spec.pair_exists self user_id candidate).
  { exists row. split; [done |].
    subst candidate. rewrite Hpair. unfold with_candidate. simpl.
    unfold involves in Hinv. apply orb_true_iff in Hinv.
    case_bool_decide as Ha; [left; done |].
    right. split; [done |].
    destruct Hinv as [Hinv | Hinv]; [done | by apply bool_decide_eq_true in Hinv]. }
  apply pair_exists_filter in Hexists as (first & rest & Hfilter).
  unfold evaluate_connection, enrich_row. rewrite Hfilter.
  destruct (profile_rows (profiles_df self) !! candidate)
    as [profile |] eqn:Hprofile; [| done].
  eexists. split; [done |]. cbn.
  split_and!; try done.
  intros Hfilter_on Hthreshold.
  destruct (has_red_flag_score (profiles_df self)) eqn:Hcol;
    [| by apply gtb_false].
  apply gtb_false.
  rewrite Hfilter_on in Hflag. specialize (Hflag eq_refl).
  rewrite red_flag_profiles_spec in Hflag.
  apply Qnot_lt_le. intros Hlt. apply Hflag.
  exists profile. split; [done |]. lra.
Qed.

(** X19.  [recommend_for_user] returns the first [top_n] rows of a
    ranking, in descending order of ranking score, of all the eligible pair
    records of the user (those that reach the minimum compatibility and are
    not filtered for red flags).  So it returns [top_n] rows, or all the
    eligible ones when there are fewer, and an eligible record that is left
    out scores no higher than any row returned. *)
Theorem X19_top_n_selection (self : ConnectionRecommender) (user_id : string)
    (top_n : nat) (min_compatibility : Q) (strategy : string) :
  (∃ ranked,
     recommend_for_user self user_id top_n min_compatibility strategy
     = take top_n ranked
     ∧ rec_pair <$> ranked
       ≡ₚ with_candidate user_id
            <$> Spec.eligible_pairs self user_id min_compatibility
     ∧ Spec.ranked_descending ranked
     ∧ Forall (λ r, ranking_score r
                    = _calculate_ranking_score (pair (rec_pair r)) strategy)
              ranked)
  ∧ length (recommend_for_user self user_id top_n min_compatibility strategy)
    = (top_n `min` length (Spec.eligible_pairs self user_id min_compatibility))%nat
  ∧ Forall (More.returned_or_outranked strategy user_id top_n
              (recommend_for_user self user_id top_n min_compatibility strategy))
           (Spec.eligible_pairs self user_id min_compatibility).
Proof.
  rewrite recommend_for_user_ranking.
  set (scored := (λ up, (up, _calculate_ranking_score (pair up) strategy))
                   <$> (with_candidate user_id
                          <$> Spec.eligible_pairs self user_id min_compatibility)).
  assert (Hsorted : StronglySorted (λ x y : UserPair * Q, (snd y <= snd x)%Q)
                      (sort_desc gt_ranking scored)).
  { apply sort_desc_sorted.
    - intros y x Hgt. apply gtb_true in Hgt. lra.
    - intros y x Hgt. by apply gtb_false in Hgt.
    - intros x y z Hxy Hyz. lra. }
  assert (Hlength : length (sort_desc gt_ranking scored)
                    = length (Spec.eligible_pairs self user_id min_compatibility)).
  { rewrite (Permutation_length (sort_desc_perm _ _)). subst scored.
    by rewrite !length_fmap. }
  unfold _enrich_recommendations, nlargest.
  split_and!.
  - eexists. split; [by rewrite fmap_take |]. split_and!.
    + rewrite <- list_fmap_compose.
      change (rec_pair ∘ _) with (@fst UserPair Q).
      rewrite sort_desc_perm. subst scored. by rewrite fmap_fst_pair.
    + unfold Spec.ranked_descending.
      by apply (StronglySorted_fmap _ (λ x y : UserPair * Q, (snd y <= snd x)%Q)).
    + apply Forall_fmap, Forall_forall. intros [up q] Hin.
      apply sort_desc_elem in Hin. subst scored.
      apply list_elem_of_fmap in Hin as (up' & [= -> ->] & _). done.
  - by rewrite length_fmap, length_take, Hlength.
  - apply Forall_forall. intros row Hrow.
    assert (Hin : (with_candidate user_id row,
                   _calculate_ranking_score row strategy)
                  ∈ sort_desc gt_ranking scored).
    { apply sort_desc_elem. subst scored.
      apply list_elem_of_fmap. exists (with_candidate user_id row).
      split; [done |]. apply list_elem_of_fmap. by exists row. }
    apply list_elem_of_lookup_1 in Hin as [k Hk].
    destruct (decide (k < top_n)%nat) as [Hlt | Hge].
    + left. eexists. split.
      * apply list_elem_of_fmap. eexists. split; [reflexivity |].
        apply (list_elem_of_lookup_2 _ k). apply lookup_take_Some. by split.
      * done.
    + right. split.
      * rewrite length_fmap, length_take.
        apply lookup_lt_Some in Hk. lia.
      * apply Forall_fmap, Forall_forall. intros [up q] Hup.
        apply list_elem_of_lookup_1 in Hup as [i Hi].
        apply lookup_take_Some in Hi as [Hi Hin].
        cbn [ranking_score snd].
        apply (StronglySorted_lookup_lt
                 (λ x y : UserPair * Q, (snd y <= snd x)%Q)
                 (sort_desc gt_ranking scored) i k (up, q)
                 (with_candidate user_id row,
                  _calculate_ranking_score row strategy) Hsorted);
          [lia | done | done].
Qed.

(** X20.  The default strategy ['balanced'], like every strategy name other
    than ['roi'], ['mentorship'] and ['collaboration'], gives exactly the
    recommendations of the ['compatibility'] strategy. *)
Theorem X20_other_strategy_is_compatibility (self : ConnectionRecommender)
    (user_id : string) (top_n : nat) (min_compatibility : Q)
    (strategy : string) :
  strategy ∉ ["roi"; "mentorship"; "collaboration"] →
  recommend_for_user self user_id top_n min_compatibility strategy
  = recommend_for_user self user_id top_n min_compatibility "compatibility".
Proof.
  intros Hother. unfold recommend_for_user.
  destruct (len _ =? 0)%Z; [done |].
  do 2 f_equal. apply list_fmap_ext. intros _ up _. f_equal.
  unfold _calculate_ranking_score.
  rewrite !not_elem_of_cons in Hother. destruct Hother as (? & ? & ? & _).
  repeat case_bool_decide; done.
Qed.

Lemma X20_balanced_strategy_witness :
  recommend_for_user Examples.clean_recommender "u1" 10 40 "balanced"
  = recommend_for_user Examples.clean_recommender "u1" 10 40 "compatibility".
Proof.
  apply (X20_other_strategy_is_compatibility
           Examples.clean_recommender "u1" 10 40 "balanced").
  rewrite !not_elem_of_cons. split_and!; try discriminate.
  apply not_elem_of_nil.
Defined.

End RecommenderMore.

(** ** The component scores of the model API *)

Section ApiScores.

Import ModelApiScores.

Lemma split_on_go_length (sep : ascii) (s cur : string) :
  (1 ≤ length (split_on_go sep s cur))%nat.
Proof.
  revert cur. induction s as [| c t IH]; intros cur; simpl; [lia |].
  destruct (Ascii.eqb c sep); simpl; [lia | apply IH].
Qed.

Lemma split_on_length (sep : ascii) (s : string) :
  (len (split_on sep s) >=? 1)%Z = true.
Proof.
  unfold split_on, len. rewrite Z.geb_leb. apply Z.leb_le.
  pose proof (split_on_go_length sep s EmptyString). lia.
Qed.

Lemma int_of_bounds (x : Q) :
  (0 <= x)%Q → (x <= 100)%Q → (0 ≤ int_of x ≤ 100)%Z.
Proof.
  intros H0 H100. unfold int_of.
  assert (Hnum : (0 ≤ Qnum x)%Z).
  { destruct x as [n d]. unfold Qle in H0. simpl in *. lia. }
  rewrite Z.quot_div_nonneg by lia.
  replace (Qnum x / Z.pos (Qden x))%Z with (Qfloor x) by by destruct x.
  pose proof (Qfloor_resp_le _ _ H0) as Hlow.
  pose proof (Qfloor_resp_le _ _ H100) as Hhigh.
  change (Qfloor 0) with 0%Z in Hlow. change (Qfloor 100) with 100%Z in Hhigh.
  lia.
Qed.

Lemma goal_ratio_in_range (part whole : nat) :
  (part ≤ whole)%nat → (0 < whole)%nat →
  (0 <= Features.of_nat part / Features.of_nat whole * 100)%Q
  ∧ (Features.of_nat part / Features.of_nat whole * 100 <= 100)%Q.
Proof.
  intros Hle Hpos.
  pose proof (of_nat_nonneg part) as Hp.
  pose proof (of_nat_le _ _ Hle) as Hpw.
  assert (Hw : (0 < Features.of_nat whole)%Q).
  { unfold Features.of_nat. change 0%Q with (inject_Z 0).
    rewrite <- Zlt_Qlt. lia. }
  assert (Hq0 : (0 <= Features.of_nat part / Features.of_nat whole)%Q)
    by (apply Qle_shift_div_l; [done | lra]).
  assert (Hq1 : (Features.of_nat part / Features.of_nat whole <= 1)%Q)
    by (apply Qle_shift_div_r; [done | lra]).
  split; lra.
Qed.

Lemma goal_alignment_bounds (user_needs target_offers : gset string) :
  (0 ≤ (if negb (bool_decide (user_needs = ∅))
           && negb (bool_decide (target_offers = ∅))
        then int_of (Features.of_nat (size (user_needs ∩ target_offers))
                     / Features.of_nat (size user_needs) * 100)
        else 50)
   ≤ 100)%Z.
Proof.
  case_bool_decide as Hneeds; [simpl; lia |].
  case_bool_decide as Hoffers; [simpl; lia |].
  cbn [negb andb].
  assert (Hsize : size user_needs ≠ 0%nat).
  { rewrite size_non_empty_iff. intros Hempty. apply Hneeds.
    by apply leibniz_equiv. }
  apply int_of_bounds; apply goal_ratio_in_range;
    first [apply subseteq_size, intersection_subseteq_l | lia].
Qed.

(** X21.  Whatever the two profiles hold, the nine integer component scores
    of [calculate_scores] take only the values of their branches, all within
    0 and 100 -- in particular the geographic score is 100, 70 or 40 and
    never the neutral 50 of its last branch -- and the goal-alignment score
    lies between 0 and 100.  The two remaining scores are within 0 and 100
    whenever the detector scores of the target are. *)
Theorem X21_component_scores (user target : ApiProfile) :
  let scores := calculate_scores user target in
  mentorship_score scores ∈ [100; 70; 60; 20]%Z
  ∧ network_score scores ∈ [100; 85; 70; 55; 40]%Z
  ∧ skill_learning_score scores ∈ [70; 50; 40]%Z
  ∧ role_synergy_score scores ∈ [100; 70; 40]%Z
  ∧ (0 ≤ goal_alignment_score scores ≤ 100)%Z
  ∧ alumni_score scores ∈ [100; 0]%Z
  ∧ career_score scores ∈ [30; 50; 75; 95]%Z
  ∧ industry_score scores ∈ [100; 30]%Z
  ∧ geographic_score scores ∈ [100; 70; 40]%Z
  ∧ (Spec.in_range (get (engagement_quality_score target) 50%Q) →
     Spec.in_range (engagement_score scores))
  ∧ (Spec.in_range (get (rising_star_score target) 30%Q) →
     Spec.in_range (get (undervalued_score target) 30%Q) →
     Spec.in_range (rising_star_score_calc scores)).
Proof.
  intros scores. subst scores. unfold calculate_scores.
  cbn [mentorship_score network_score skill_learning_score role_synergy_score
       goal_alignment_score alumni_score career_score industry_score
       geographic_score engagement_score rising_star_score_calc].
  split_and!.
  - repeat (match goal with
            | |- context [if ?c then _ else _] => destruct c
            end); rewrite !elem_of_cons; tauto.
  - destruct (existsb _ PRESTIGIOUS);
      repeat (match goal with
              | |- context [if ?c then _ else _] => destruct c
              end); rewrite !elem_of_cons; cbn; tauto.
  - repeat (match goal with
            | |- context [if ?c then _ else _] => destruct c
            end); rewrite !elem_of_cons; tauto.
  - repeat (match goal with
            | |- context [if ?c then _ else _] => destruct c
            end); rewrite !elem_of_cons; tauto.
  - apply goal_alignment_bounds.
  - apply goal_alignment_bounds.
  - repeat (match goal with
            | |- context [if ?c then _ else _] => destruct c
            end); rewrite !elem_of_cons; tauto.
  - simpl. repeat case_bool_decide; rewrite !elem_of_cons; tauto.
  - case_bool_decide; rewrite !elem_of_cons; tauto.
  - rewrite !split_on_length. cbn [andb].
    repeat (match goal with
            | |- context [if ?c then _ else _] => destruct c
            end); rewrite !elem_of_cons; tauto.
  - done.
  - unfold Spec.in_range. intros [? ?] [? ?].
    split; [apply Qle_shift_div_l | apply Qle_shift_div_r]; lra.
Qed.

End ApiScores.

Section ApiInference.

Import PyText ModelApiScores.

Lemma split_on_empty (sep : ascii) : split_on sep EmptyString = [EmptyString].
Proof. reflexivity. Qed.

(** X22.  In [calculate_scores] a profile without a location (or with an
    empty one) is compared as the empty string: the geographic score is then
    100 when the first comma-separated part of the other location is blank
    too -- so two profiles without location score a full 100 -- and 40
    otherwise. *)
Theorem X22_geographic_missing_location (user target : ApiProfile) :
  get_or_empty (location user) = EmptyString →
  geographic_score (calculate_scores user target)
  = (if bool_decide
          (strip (hd EmptyString (split_on "," (get_or_empty (location target))))
           = EmptyString)
     then 100 else 40)%Z
  ∧ (get_or_empty (location target) = EmptyString →
     geographic_score (calculate_scores user target) = 100%Z).
Proof.
  intros Huser.
  assert (Hscore : geographic_score (calculate_scores user target)
    = (if bool_decide
            (strip (hd EmptyString (split_on "," (get_or_empty (location target))))
             = EmptyString)
       then 100 else 40)%Z).
  { unfold calculate_scores. cbn [geographic_score].
    rewrite Huser, split_on_empty, split_on_length.
    change (len [EmptyString] >=? 1)%Z with true.
    change (len [EmptyString] >? 1)%Z with false.
    change (lower (strip (hd EmptyString [EmptyString]))) with EmptyString.
    cbn [andb].
    destruct (decide (strip (hd EmptyString
                (split_on "," (get_or_empty (location target)))) = EmptyString))
      as [Hblank | Hfilled].
    - by rewrite Hblank.
    - rewrite (bool_decide_eq_false_2 _ Hfilled).
      rewrite bool_decide_eq_false_2; [done |].
      intros Heq. apply Hfilled. by apply lower_empty. }
  split; [done |].
  intros Htarget. rewrite Hscore, Htarget, split_on_empty. done.
Qed.

Lemma X22_geographic_witness :
  geographic_score
    (calculate_scores (More.api_profile None None)
                      (More.api_profile (Some "Berlin, Germany") None))
  = (if bool_decide
          (strip (hd EmptyString (split_on "," "Berlin, Germany")) = EmptyString)
     then 100 else 40)%Z
  ∧ (get_or_empty (Some "Berlin, Germany") = EmptyString →
     geographic_score
       (calculate_scores (More.api_profile None None)
                         (More.api_profile (Some "Berlin, Germany") None))
     = 100%Z).
Proof.
  apply (X22_geographic_missing_location
           (More.api_profile None None)
           (More.api_profile (Some "Berlin, Germany") None)).
  reflexivity.
Defined.

Lemma first_category_name (text : string) (items : list (string * list string)) :
  first_category text items ∈ (items.*1 ++ ["other"])%list.
Proof.
  induction items as [| [category keywords] items IH]; simpl.
  - by left.
  - destruct (existsb _ keywords); [by left | by right].
Qed.

(** X23.  [infer_job_category] returns one of its seven categories or
    ['other'], and [infer_seniority] one of the four keys of
    [SENIORITY_MAP].  [RELATED_ROLES] lists related roles for three
    categories only, so the role-synergy score is 70 only for a user in
    [data_science], [data_analytics] or [software_dev]; with any other
    category of the user it is 100 for the same category and 40 otherwise. *)
Theorem X23_inferred_categories (headline about title : string)
    (years_exp : Z) (user target : ApiProfile) :
  infer_job_category headline about
    ∈ ["data_science"; "data_analytics"; "data_engineering"; "software_dev";
       "product"; "design"; "executive"; "other"]
  ∧ infer_seniority title years_exp ∈ SENIORITY_MAP.*1
  ∧ (role_synergy_score (calculate_scores user target) = 70%Z →
     get (job_category user) "other"
       ∈ ["data_science"; "data_analytics"; "software_dev"]).
Proof.
  split_and!.
  - apply (first_category_name _ categories).
  - unfold infer_seniority.
    repeat (match goal with
            | |- context [if ?c then _ else _] => destruct c
            end); cbn; rewrite !elem_of_cons; tauto.
  - unfold calculate_scores. cbn [role_synergy_score].
    case_bool_decide as Hsame; [done |].
    case_bool_decide as Hrelated; [| done].
    intros _. revert Hrelated. unfold RELATED_ROLES. simpl.
    repeat case_bool_decide; intros Hin;
      try (by apply elem_of_nil in Hin);
      rewrite !elem_of_cons; intuition congruence.
Qed.

End ApiInference.

(** ** The aggregate score of the feature engine *)

Section AggregateScore.

Import Features.

(** X24.  With weights that are not negative, the aggregate compatibility
    score never goes down when any of the six features it reads -- the two
    skill scores, the two network values, career alignment and geographic
    score -- goes up; [industry_match], [seniority_match] and
    [experience_gap] do not enter it at all. *)
Theorem X24_overall_compatibility_monotone (self : FeatureWeights)
    (f g : BaseFeatures) :
  Spec.weights_nonneg self → More.features_le f g →
  (_calculate_overall_compatibility self f
   <= _calculate_overall_compatibility self g)%Q.
Proof.
  intros (Hs & Hn & Hc & Hg) (Hsm & Hsc & Hab & Hba & Hca & Hgeo).
  unfold _calculate_overall_compatibility.
  apply Q.min_le_compat_r, round_mono.
  assert (H1 : ((skill_match_score f + skill_complementarity_score f) / 2
                * w_skill_complementarity self
                <= (skill_match_score g + skill_complementarity_score g) / 2
                   * w_skill_complementarity self)%Q).
  { apply Qmult_le_compat_r; [| done].
    apply Qmult_le_compat_r; [lra | done]. }
  assert (H2 : ((network_value_a_to_b f + network_value_b_to_a f) / 2
                * w_network_value self
                <= (network_value_a_to_b g + network_value_b_to_a g) / 2
                   * w_network_value self)%Q).
  { apply Qmult_le_compat_r; [| done].
    apply Qmult_le_compat_r; [lra | done]. }
  pose proof (Qmult_le_compat_r _ _ _ Hca Hc) as H3.
  pose proof (Qmult_le_compat_r _ _ _ Hgeo Hg) as H4.
  lra.
Qed.

Lemma X24_overall_compatibility_witness :
  (_calculate_overall_compatibility (__init__ None) More.modest_features
   <= _calculate_overall_compatibility (__init__ None) More.better_features)%Q.
Proof.
  apply (X24_overall_compatibility_monotone (__init__ None)
           More.modest_features More.better_features).
  - apply default_weights_nonneg.
  - unfold More.features_le. simpl. split_and!; lra.
Defined.

End AggregateScore.

(** ** The scoring endpoints *)

Section Endpoints.

Import ApiMain.

Lemma clip_in_range (score : Q) : (0 <= clip score)%Q ∧ (clip score <= 100)%Q.
Proof.
  unfold clip. split; [apply Q.le_max_l |].
  apply Q.max_lub; [lra | apply Q.le_min_l].
Qed.

Lemma round_half_even_near (x : Q) :
  (inject_Z (round_half_even x) - x <= 1 # 2)%Q
  ∧ (x - inject_Z (round_half_even x) <= 1 # 2)%Q.
Proof.
  pose proof (Qfloor_le x) as Hlow. pose proof (Qlt_floor x) as Hhigh.
  rewrite inject_Z_plus in Hhigh. change (inject_Z 1) with 1%Q in Hhigh.
  unfold round_half_even.
  set (r := (x - inject_Z (Qfloor x))%Q).
  destruct (ltb r (1 # 2)) eqn:H1; [apply ltb_true in H1; subst r; split; lra |].
  apply ltb_false in H1.
  assert (Hup : (inject_Z (Qfloor x + 1) - x <= 1 # 2)%Q
                ∧ (x - inject_Z (Qfloor x + 1) <= 1 # 2)%Q).
  { rewrite inject_Z_plus. change (inject_Z 1) with 1%Q. subst r. split; lra. }
  destruct (gtb r (1 # 2)) eqn:H2; [done |].
  apply gtb_false in H2.
  destruct (Z.even (Qfloor x)); [subst r; split; lra | done].
Qed.

Lemma round_two_near (x : Q) : (Qabs (round x 2 - x) <= 5 / 1000)%Q.
Proof.
  unfold round. change (inject_Z (10 ^ Z.of_nat 2)) with 100%Q.
  destruct (round_half_even_near (x * 100)) as [Hup Hdown].
  set (r := inject_Z (round_half_even (x * 100))) in *.
  unfold Qdiv. change (/ 100)%Q with (1 # 100)%Q.
  change (/ 1000)%Q with (1 # 1000)%Q.
  apply Qabs_Qle_condition. split; lra.
Qed.

Lemma round_clip_in_range (score : Q) :
  (0 <= round (clip score) 2)%Q ∧ (round (clip score) 2 <= 100)%Q.
Proof.
  destruct (clip_in_range score) as [Hlow Hhigh]. split.
  - by apply round_nonneg.
  - by apply (round_le _ 100).
Qed.

Lemma generate_explanation_filled (request : CompatibilityRequest) (score : Q) :
  _generate_explanation request score ≠ EmptyString.
Proof.
  unfold _generate_explanation.
  destruct (gtb (skill_complementarity_score request) 70);
    destruct (gtb (career_alignment_score request) 70);
    destruct (gtb (network_value_a_to_b request) 60
              || gtb (network_value_b_to_a request) 60);
    destruct (gtb (industry_match request) 80);
    destruct (gtb (geographic_score request) 80);
    vm_compute; discriminate.
Qed.

(** X25.  The compatibility endpoint answers 503 while no model is loaded
    and 500 when the prediction raises.  Otherwise, whatever number the
    model predicts, the score of the response is that number clipped to
    [0,100] and rounded to two decimals -- so it lies in [0,100], within
    0.005 of the clipped prediction -- the recommendation is chosen from the
    clipped prediction before rounding, and the explanation is never
    empty. *)
Theorem X25_compatibility_endpoint (model : option (FeatureRow → result Q))
    (request : CompatibilityRequest) :
  match model with
  | None => calculate_compatibility model request = HTTPException 503
  | Some predict =>
      match predict (_prepare_features request) with
      | Raise _ => calculate_compatibility model request = HTTPException 500
      | Ok prediction =>
          ∃ response,
            calculate_compatibility model request = Response response
            ∧ More.response_of prediction request response
      end
  end.
Proof.
  destruct model as [predict |]; [| done].
  unfold calculate_compatibility.
  destruct (predict (_prepare_features request)) as [prediction | e]; [| done].
  eexists. split; [done |].
  unfold More.response_of. simpl.
  destruct (round_clip_in_range prediction) as [Hlow Hhigh].
  split_and!; try done.
  - apply round_two_near.
  - apply generate_explanation_filled.
Qed.

Lemma batch_score_loop_spec (predict : FeatureRow → result Q)
    (pairs : list BatchScoreItem) (results : list BatchScoreResultItem) :
  match batch_score_loop predict pairs results with
  | Ok rows =>
      ∃ new_rows, rows = (results ++ new_rows)%list
                  ∧ Forall2 (More.result_of predict) new_rows pairs
  | Raise _ => Exists (More.prediction_fails predict) pairs
  end.
Proof.
  revert results. induction pairs as [| item pairs IH]; intros results; simpl.
  - exists []. by rewrite app_nil_r.
  - destruct (predict (_prepare_features (item_features item)))
      as [prediction | e] eqn:Hpredict; simpl.
    + specialize (IH (results ++
        [ {| result_pair_id := pair_id item;
             result_compatibility_score := round (clip prediction) 2;
             result_recommendation := _get_recommendation (clip prediction) |} ])%list).
      destruct (batch_score_loop predict pairs _) as [rows | e].
      * destruct IH as (new_rows & -> & Hrows).
        eexists (_ :: new_rows). rewrite <- app_assoc. split; [done |].
        constructor; [| done].
        split; [done |]. exists prediction.
        destruct (round_clip_in_range prediction) as [Hlow Hhigh].
        by split_and!.
      * by apply Exists_cons_tl.
    + apply Exists_cons_hd. by exists e.
Qed.

(** X26.  With a model loaded, [batch_score] returns one row per item of the
    request, in order, each with the pair id of its item, a score in
    [0,100] and the recommendation of the clipped prediction; when the
    prediction raises for some item the whole request is answered with
    500, and no row is returned. *)
Theorem X26_batch_score (predict : FeatureRow → result Q)
    (pairs : list BatchScoreItem) :
  match batch_score (Some predict) pairs with
  | Response rows => Forall2 (More.result_of predict) rows pairs
  | HTTPException status_code =>
      status_code = 500%Z ∧ Exists (More.prediction_fails predict) pairs
  end.
Proof.
  unfold batch_score.
  pose proof (batch_score_loop_spec predict pairs []) as Hloop.
  destruct (batch_score_loop predict pairs []) as [rows | e].
  - by destruct Hloop as (new_rows & -> & Hrows).
  - done.
Qed.

Lemma int64_wrap_range (z : Z) :
  (- 2 ^ 63 ≤ int64_wrap z < 2 ^ 63)%Z.
Proof.
  unfold int64_wrap.
  pose proof (Z.mod_pos_bound (z + 2 ^ 63) (2 ^ 64) ltac:(lia)) as Hmod.
  set (m := ((z + 2 ^ 63) mod 2 ^ 64)%Z) in *.
  assert (Hpow : (2 ^ 64 = 2 * 2 ^ 63)%Z) by reflexivity. lia.
Qed.

Lemma int64_wrap_exact (z : Z) :
  int64_wrap z = z ↔ (- 2 ^ 63 ≤ z < 2 ^ 63)%Z.
Proof.
  split.
  - intros <-. apply int64_wrap_range.
  - intros Hz. unfold int64_wrap.
    assert (Hpow : (2 ^ 64 = 2 * 2 ^ 63)%Z) by reflexivity.
    rewrite Z.mod_small; lia.
Qed.

(** The largest gap whose square fits an int64 column. *)
Lemma square_fits (gap : Z) :
  (0 ≤ gap)%Z → (gap ^ 2 < 2 ^ 63 ↔ gap ≤ 3037000499)%Z.
Proof.
  intros Hgap. rewrite Z.pow_2_r.
  change (2 ^ 63)%Z with 9223372036854775808%Z.
  split; intros H; nia.
Qed.

(** The first gap whose square no longer fits the column. *)
Lemma column_square_wraps :
  column_square 3037000499 = 9223372030926249001%Z
  ∧ column_square 3037000500 = (-9223372036709301616)%Z.
Proof. split; reflexivity. Qed.

(** X27.  For a request that meets the field constraints of the schema, the
    engineered features stay on their scales: the network average and
    difference, the skill balance and the two interaction terms lie in
    [0,100] and the skill total in [0,200]; the two experience flags are 0
    or 1 and never both 1, and both are 0 exactly for a gap of eight years
    or more.  The squared gap is a column of machine integers: for a gap
    below [2^63] it lies in the int64 range, and it is the square of the gap
    exactly when the gap is at most 3037000499; beyond that the square has
    wrapped around. *)
Theorem X27_prepared_features (request : CompatibilityRequest) :
  valid_request request →
  let row := _prepare_features request in
  Spec.in_range (network_value_avg row)
  ∧ Spec.in_range (network_value_diff row)
  ∧ (0 <= skill_total row)%Q ∧ (skill_total row <= 200)%Q
  ∧ Spec.in_range (skill_balance row)
  ∧ Spec.in_range (skill_x_network row)
  ∧ Spec.in_range (career_x_industry row)
  ∧ is_mentorship_gap row ∈ [0; 1]%Z
  ∧ is_peer row ∈ [0; 1]%Z
  ∧ (is_mentorship_gap row + is_peer row ≤ 1)%Z
  ∧ ((is_mentorship_gap row + is_peer row = 0)%Z
     ↔ (8 ≤ experience_gap request)%Z)
  ∧ ((experience_gap request < 2 ^ 63)%Z →
     (- 2 ^ 63 ≤ exp_gap_squared row < 2 ^ 63)%Z
     ∧ (exp_gap_squared row = (experience_gap request ^ 2)%Z
        ↔ (experience_gap request ≤ 3037000499)%Z)).
Proof.
  intros ([? ?] & [? ?] & [? ?] & [? ?] & [? ?] & Hgap & [? ?] & _ & _) row.
  subst row. unfold _prepare_features, Spec.in_range, astype_int.
  cbn [network_value_avg network_value_diff skill_total skill_balance
       exp_gap_squared is_mentorship_gap is_peer skill_x_network
       career_x_industry].
  set (sm := skill_match_score request) in *.
  set (sc := skill_complementarity_score request) in *.
  set (nab := network_value_a_to_b request) in *.
  set (nba := network_value_b_to_a request) in *.
  set (ca := career_alignment_score request) in *.
  set (im := industry_match request) in *.
  assert (Havg : (0 <= (nab + nba) / 2)%Q ∧ ((nab + nba) / 2 <= 100)%Q).
  { split; [apply Qle_shift_div_l | apply Qle_shift_div_r]; lra. }
  assert (Hprod : ∀ x y : Q, (0 <= x)%Q → (x <= 100)%Q → (0 <= y)%Q →
                    (y <= 100)%Q →
                    (0 <= x * y / 100)%Q ∧ (x * y / 100 <= 100)%Q).
  { intros x y Hx0 Hx1 Hy0 Hy1.
    assert (0 <= x * y)%Q by by apply Qmult_le_0_compat.
    assert (x * y <= 100 * y)%Q by by apply Qmult_le_compat_r.
    split; [apply Qle_shift_div_l | apply Qle_shift_div_r]; lra. }
  destruct Havg as [Havg0 Havg1].
  destruct (Hprod sm sc) as [? ?]; try done.
  destruct (Hprod sc ((nab + nba) / 2)%Q) as [? ?]; try done.
  destruct (Hprod ca im) as [? ?]; try done.
  assert (Hsquare : (experience_gap request < 2 ^ 63)%Z →
    (- 2 ^ 63 ≤ column_square (experience_gap request) < 2 ^ 63)%Z
    ∧ (column_square (experience_gap request) = (experience_gap request ^ 2)%Z
       ↔ (experience_gap request ≤ 3037000499)%Z)).
  { intros Hsmall. unfold column_square.
    rewrite (proj2 (Z.leb_le _ _)) by lia.
    rewrite (proj2 (Z.ltb_lt _ _)) by lia. cbn [andb].
    split; [apply int64_wrap_range |].
    rewrite int64_wrap_exact, <- (square_fits _ Hgap).
    pose proof (Z.pow_nonneg (experience_gap request) 2 ltac:(lia)). lia. }
  rewrite Z.geb_leb.
  split_and!; try done.
  - apply Qabs_nonneg.
  - apply Qabs_Qle_condition. split; lra.
  - lra.
  - lra.
  - destruct (Z.leb_spec 3 (experience_gap request)),
      (Z.leb_spec (experience_gap request) 7);
      simpl; rewrite !elem_of_cons; tauto.
  - destruct (Z.leb_spec (experience_gap request) 2);
      simpl; rewrite !elem_of_cons; tauto.
  - destruct (Z.leb_spec 3 (experience_gap request)),
      (Z.leb_spec (experience_gap request) 7),
      (Z.leb_spec (experience_gap request) 2); simpl; lia.
  - destruct (Z.leb_spec 3 (experience_gap request)),
      (Z.leb_spec (experience_gap request) 7),
      (Z.leb_spec (experience_gap request) 2); simpl; lia.
Qed.

Lemma X27_prepared_features_witness :
  let row := _prepare_features More.example_request in
  Spec.in_range (network_value_avg row)
  ∧ Spec.in_range (network_value_diff row)
  ∧ (0 <= skill_total row)%Q ∧ (skill_total row <= 200)%Q
  ∧ Spec.in_range (skill_balance row)
  ∧ Spec.in_range (skill_x_network row)
  ∧ Spec.in_range (career_x_industry row)
  ∧ is_mentorship_gap row ∈ [0; 1]%Z
  ∧ is_peer row ∈ [0; 1]%Z
  ∧ (is_mentorship_gap row + is_peer row ≤ 1)%Z
  ∧ ((is_mentorship_gap row + is_peer row = 0)%Z
     ↔ (8 ≤ experience_gap More.example_request)%Z)
  ∧ ((experience_gap More.example_request < 2 ^ 63)%Z →
     (- 2 ^ 63 ≤ exp_gap_squared row < 2 ^ 63)%Z
     ∧ (exp_gap_squared row = (experience_gap More.example_request ^ 2)%Z
        ↔ (experience_gap More.example_request ≤ 3037000499)%Z)).
Proof.
  apply (X27_prepared_features More.example_request).
  unfold valid_request. simpl. split_and!; first [lra | lia].
Defined.

End Endpoints.
